(** * A gallery of estimator example scripts: model and checked properties

    The repository is a set of fifteen stand-alone example scripts, each
    packaged as a notebook with a single code cell.

    Three of them contain a computation whose outcome can be stated and
    proved on its own: the column split of the face-completion script, the
    mean-ROC aggregation of the ROC cross-validation script and the
    covariance selection of [make_ellipses].  They are embedded as functions
    on lists of rationals (the scripts work on floating-point arrays; nothing
    proved here depends on rounding), with the numerical routines of the
    libraries as parameters.  Python failures are explicit: an operation
    that raises returns [Raise].

    What the repository's description says of the scripts as a whole (what
    they call, import, define and end with) is checked on the skeleton of
    each script: its statements in order, with the names each binds and the
    calls each makes. *)

From Stdlib Require Import String Ascii Bool Arith ZArith QArith Qminmax List Lia.
Import ListNotations.

Set Implicit Arguments.
Set Warnings "-register-all".

(** ** Python results: a value or a raised exception *)

Inductive exn : Type :=
| IndexError
| ValueError
| TypeError
| UnboundLocalError.

Inductive py (A : Type) : Type :=
| Ok (a : A)
| Raise (e : exn).

Arguments Ok {A} a.
Arguments Raise {A} e.

Definition bind {A B : Type} (m : py A) (k : A -> py B) : py B :=
  match m with
  | Ok a => k a
  | Raise e => Raise e
  end.

Notation "x <- m ;; k" := (bind m (fun x => k))
  (at level 61, m at next level, right associativity).

Fixpoint mapM {A B : Type} (f : A -> py B) (l : list A) : py (list B) :=
  match l with
  | [] => Ok []
  | a :: l' => b <- f a ;; bs <- mapM f l' ;; Ok (b :: bs)
  end.

(** Indexing a sequence with a non-negative index; out of range raises. *)
Definition getitem {A : Type} (l : list A) (i : nat) : py A :=
  match nth_error l i with
  | Some a => Ok a
  | None => Raise IndexError
  end.

(** ** Face completion: the upper/lower column split

    [plot_multioutput_face_completion]: the faces are the rows of [data];
    the upper half of a face is the first [(n_pixels + 1) // 2] columns, the
    lower half the columns from [n_pixels // 2] on. *)

Module FaceCompletion.
Section Faces.

(** One pixel intensity; the split never inspects it. *)
Variable pixel : Type.

Definition face := list pixel.
Definition faces := list face.

(** [a[:, :k]] *)
Definition cols_before (k : nat) (a : faces) : faces := map (firstn k) a.

(** [a[:, k:]] *)
Definition cols_from (k : nat) (a : faces) : faces := map (skipn k) a.

(** [a[mask]] for a boolean mask built from the targets. *)
Fixpoint rows_where (keep : nat -> bool) (targets : list nat) (a : faces) : faces :=
  match targets, a with
  | t :: ts, r :: rs =>
      if keep t then r :: rows_where keep ts rs else rows_where keep ts rs
  | _, _ => []
  end.

(** [a[ids, :]] with an array of row numbers. *)
Definition rows_at (ids : list nat) (a : faces) : py faces :=
  mapM (getitem a) ids.

(** [np.hstack((u, v))] of two 1-D arrays. *)
Definition hstack (u v : face) : face := u ++ v.

(** [data.shape[1]] of a 2-D array: the common length of its rows. *)
Definition has_width (n : nat) (a : faces) : Prop :=
  Forall (fun r => length r = n) a.

Definition train (data : faces) (targets : list nat) : faces :=
  rows_where (fun t => t <? 30) targets data.

Definition test_people (data : faces) (targets : list nat) : faces :=
  rows_where (fun t => 30 <=? t) targets data.

Definition X_train n_pixels (tr : faces) := cols_before ((n_pixels + 1) / 2) tr.
Definition y_train n_pixels (tr : faces) := cols_from (n_pixels / 2) tr.
Definition X_test n_pixels (te : faces) := cols_before ((n_pixels + 1) / 2) te.
Definition y_test n_pixels (te : faces) := cols_from (n_pixels / 2) te.

(** [true_face = np.hstack((X_test[i], y_test[i]))] *)
Definition true_face n_pixels (te : faces) (i : nat) : py face :=
  u <- getitem (X_test n_pixels te) i ;;
  l <- getitem (y_test n_pixels te) i ;;
  Ok (hstack u l).

Definition n_faces : nat := 5.

(** The part of the script before the plot: keep the test people, take the
    rows [face_ids] (five row numbers drawn by the random state), split the
    columns, and rebuild the true face of each [i] in [range(n_faces)]. *)
Definition true_faces n_pixels (data : faces) (targets face_ids : list nat)
  : py (list face) :=
  te <- rows_at face_ids (test_people data targets) ;;
  mapM (true_face n_pixels te) (seq 0 n_faces).

End Faces.
End FaceCompletion.

(** ** 1-D arrays of numbers and the numpy operations the scripts apply *)

Module Np.

Definition array := list Q.

(** Position denoted by a Python index on a sequence of length [n]:
    negative indices count from the end. *)
Definition position (n : nat) (i : Z) : option nat :=
  let j := (if i <? 0 then i + Z.of_nat n else i)%Z in
  if ((0 <=? j) && (j <? Z.of_nat n))%Z then Some (Z.to_nat j) else None.

Fixpoint replace_at (a : array) (k : nat) (v : Q) : array :=
  match a, k with
  | [], _ => []
  | _ :: a', O => v :: a'
  | x :: a', S k' => x :: replace_at a' k' v
  end.

(** [a[i] = v] *)
Definition setitem (a : array) (i : Z) (v : Q) : py array :=
  match position (List.length a) i with
  | Some k => Ok (replace_at a k v)
  | None => Raise IndexError
  end.

(** [a[i]] *)
Definition item (a : array) (i : Z) : py Q :=
  match position (List.length a) i with
  | Some k => getitem a k
  | None => Raise IndexError
  end.

(** [np.linspace(0, 1, num)] for [num >= 2]: [k / (num - 1)]. *)
Definition linspace01 (num : nat) : array :=
  map (fun k => Z.of_nat k # Pos.of_nat (num - 1)) (seq 0 num).

Fixpoint zip_with (f : Q -> Q -> Q) (a b : array) : array :=
  match a, b with
  | x :: a', y :: b' => f x y :: zip_with f a' b'
  | _, _ => []
  end.

(** Element-wise binary operation on two 1-D arrays, with numpy's
    broadcasting of a one-element operand; other shape mismatches raise. *)
Definition elementwise (f : Q -> Q -> Q) (a b : array) : py array :=
  if List.length a =? List.length b then Ok (zip_with f a b)
  else match a, b with
       | [x], _ => Ok (map (f x) b)
       | _, [y] => Ok (map (fun x => f x y) a)
       | _, _ => Raise ValueError
       end.

Definition add := elementwise Qplus.
Definition sub := elementwise Qminus.

(** [np.minimum(a, c)] and [np.maximum(a, c)] against a scalar. *)
Definition minimum (a : array) (c : Q) : array := map (fun x => Qmin x c) a.
Definition maximum (a : array) (c : Q) : array := map (fun x => Qmax x c) a.

Definition sum (a : array) : Q := fold_right Qplus 0 a.

(** Mean of a non-empty 1-D sample. *)
Definition mean1 (a : array) : Q := sum a / inject_Z (Z.of_nat (List.length a)).

(** Column [j] of a list of equally long rows. *)
Definition column (rows : list array) (j : nat) : array :=
  map (fun r => nth j r 0) rows.

(** Reduction along axis 0 of a list of rows.  numpy turns the list into
    a 2-D array first: rows of different lengths raise; for an empty list
    the result is a scalar, on which the caller's item assignment raises,
    so the reduction is given as raising there. *)
Definition reduce_axis0 (f : array -> Q) (rows : list array) : py array :=
  match rows with
  | [] => Raise TypeError
  | r :: rs =>
      if forallb (fun r' => List.length r' =? List.length r) rs
      then Ok (map (fun j => f (column rows j)) (seq 0 (List.length r)))
      else Raise ValueError
  end.

(** [np.mean(rows, axis=0)] *)
Definition mean_axis0 := reduce_axis0 mean1.

End Np.

(** ** ROC with cross-validation: the mean curve and its band

    [plot_roc_crossval]: one ROC curve per fold is interpolated on the grid
    [mean_fpr]; the curves are averaged and a band of one standard deviation
    is drawn around the mean.  The classifier, the ROC curve of a fold,
    [np.interp] and [np.std] are library code: a fold enters as the pair
    ([fpr], [tpr]) of its curve, interpolation and standard deviation as
    functions on one point and on one sample. *)

Module RocCrossval.
Section Aggregation.

(** [np.interp(x, xp, fp)] at one point [x]. *)
Variable interp1 : Q -> Np.array -> Np.array -> Q.
(** [np.std] of one sample. *)
Variable std1 : Np.array -> Q.

(** The curve [RocCurveDisplay.from_estimator] computes on one fold; the
    script has six folds ([n_splits = 6]). *)
Record roc_display := Viz { fpr : Np.array; tpr : Np.array }.

(** [mean_fpr = np.linspace(0, 1, 100)] *)
Definition grid : nat := 100.
Definition mean_fpr : Np.array := Np.linspace01 grid.

Definition np_interp (x xp fp : Np.array) : Np.array :=
  map (fun xi => interp1 xi xp fp) x.

Definition np_std_axis0 := Np.reduce_axis0 std1.

(** Body of the loop over the folds, after the fit and the display:
    [interp_tpr = np.interp(mean_fpr, viz.fpr, viz.tpr)],
    [interp_tpr[0] = 0.0], [tprs.append(interp_tpr)]. *)
Definition fold_step (tprs : list Np.array) (viz : roc_display)
  : py (list Np.array) :=
  let interp_tpr := np_interp mean_fpr (fpr viz) (tpr viz) in
  interp_tpr <- Np.setitem interp_tpr 0 0 ;;
  Ok (tprs ++ [interp_tpr]).

Fixpoint fold_loop (tprs : list Np.array) (folds : list roc_display)
  : py (list Np.array) :=
  match folds with
  | [] => Ok tprs
  | viz :: rest => tprs' <- fold_step tprs viz ;; fold_loop tprs' rest
  end.

(** An interpolated curve of a fold as the loop leaves it: on the grid,
    with 0 as its first item. *)
Definition pinned (t : Np.array) : Prop :=
  List.length t = grid /\ Np.item t 0 = Ok 0.

(** What the script hands to the plotting calls. *)
Record curves := Curves {
  tprs : list Np.array;
  mean_tpr : Np.array;
  tprs_upper : Np.array;
  tprs_lower : Np.array
}.

(** The statements from [tprs = []] to the [fill_between] call. *)
Definition mean_roc (folds : list roc_display) : py curves :=
  tprs <- fold_loop [] folds ;;
  mean_tpr <- Np.mean_axis0 tprs ;;
  mean_tpr <- Np.setitem mean_tpr (-1) 1 ;;
  std_tpr <- np_std_axis0 tprs ;;
  hi <- Np.add mean_tpr std_tpr ;;
  lo <- Np.sub mean_tpr std_tpr ;;
  Ok (Curves tprs mean_tpr (Np.minimum hi 1) (Np.maximum lo 0)).

End Aggregation.

(** The curves of two folds, for a run on a small input. *)
Definition two_folds : list roc_display :=
  [Viz [0; 1] [0; 1]; Viz [0; 1 # 2; 1] [0; 1; 1]].

(** A stand-in for the interpolation: the diagonal. *)
Definition diagonal (x : Q) (xp fp : Np.array) : Q := x.

(** A stand-in for the standard deviation: one tenth everywhere. *)
Definition tenth (sample : Np.array) : Q := 1 # 10.

End RocCrossval.

(** ** n-dimensional arrays

    An array of any rank as nested sequences; the arrays of a fitted
    estimator are rectangular. *)

Module Nd.

Inductive ndarray : Type :=
| Num (x : Q)
| Arr (items : list ndarray).

Definition vector (xs : list Q) : ndarray := Arr (map Num xs).
Definition matrix (rows : list (list Q)) : ndarray := Arr (map vector rows).

(** [a.shape], read along the first item of every axis. *)
Fixpoint shape (a : ndarray) : list nat :=
  match a with
  | Num _ => []
  | Arr items =>
      List.length items :: match items with
                           | [] => []
                           | a0 :: _ => shape a0
                           end
  end.

Definition ndim (a : ndarray) : nat := List.length (shape a).

(** [a[n]] *)
Definition index (a : ndarray) (n : nat) : py ndarray :=
  match a with
  | Num _ => Raise IndexError
  | Arr items => getitem items n
  end.

(** [a[:k]] *)
Definition head (k : nat) (a : ndarray) : py ndarray :=
  match a with
  | Num _ => Raise IndexError
  | Arr items => Ok (Arr (firstn k items))
  end.

(** [a[:k, :k]]: two indices need an array of two axes at least. *)
Definition head2 (k : nat) (a : ndarray) : py ndarray :=
  match a with
  | Num _ => Raise IndexError
  | Arr rows =>
      if ndim a <? 2 then Raise IndexError
      else rows' <- mapM (head k) (firstn k rows) ;; Ok (Arr rows')
  end.

(** [a.shape[1]] *)
Definition shape1 (a : ndarray) : py nat := getitem (shape a) 1%nat.

(** [np.eye(n)] *)
Definition eye (n : nat) : ndarray :=
  Arr (map (fun i => Arr (map (fun j => Num (if i =? j then 1 else 0)) (seq 0 n)))
           (seq 0 n)).

Definition entry (a : ndarray) (i j : nat) : option Q :=
  match a with
  | Arr rows =>
      match nth_error rows i with
      | Some (Arr r) =>
          match nth_error r j with
          | Some (Num x) => Some x
          | _ => None
          end
      | _ => None
      end
  | Num _ => None
  end.

(** [np.diag(v)]: the diagonal matrix of a 1-D array, the diagonal of a
    2-D array; any other rank raises. *)
Definition diag (v : ndarray) : py ndarray :=
  match v with
  | Num _ => Raise ValueError
  | Arr items =>
      match ndim v with
      | 1%nat =>
          let n := List.length items in
          Ok (Arr (map (fun i =>
                    Arr (map (fun j =>
                           if i =? j then nth i items (Num 0) else Num 0)
                         (seq 0 n)))
                  (seq 0 n)))
      | 2%nat =>
          Ok (Arr (map (fun i => match entry v i i with
                                 | Some x => Num x
                                 | None => Num 0
                                 end)
                       (seq 0 (Nat.min (List.length items)
                                       (nth 1 (shape v) 0%nat)))))
      | _ => Raise ValueError
      end
  end.

Fixpoint scale_l (c : Q) (a : ndarray) : ndarray :=
  match a with
  | Num x => Num (c * x)
  | Arr items => Arr (map (scale_l c) items)
  end.

Fixpoint scale_r (a : ndarray) (c : Q) : ndarray :=
  match a with
  | Num x => Num (x * c)
  | Arr items => Arr (map (fun a' => scale_r a' c) items)
  end.

(** Add [k] leading axes of length one. *)
Fixpoint promote (k : nat) (a : ndarray) : ndarray :=
  match k with
  | O => a
  | S k' => Arr [promote k' a]
  end.

(** Product of two arrays of the same rank: along every axis the lengths
    agree or one of them is one. *)
Fixpoint mul_aligned (a b : ndarray) {struct a} : py ndarray :=
  match a, b with
  | Num x, Num y => Ok (Num (x * y))
  | Arr la, Arr lb =>
      if List.length la =? List.length lb then
        rows <- (fix zip (la lb : list ndarray) {struct la} : py (list ndarray) :=
                   match la, lb with
                   | a' :: la', b' :: lb' =>
                       c <- mul_aligned a' b' ;; cs <- zip la' lb' ;; Ok (c :: cs)
                   | _, _ => Ok []
                   end) la lb ;;
        Ok (Arr rows)
      else
        match la, lb with
        | [a0], _ => rows <- mapM (mul_aligned a0) lb ;; Ok (Arr rows)
        | _, [b0] =>
            rows <- (fix each (la : list ndarray) : py (list ndarray) :=
                       match la with
                       | [] => Ok []
                       | a' :: la' =>
                           c <- mul_aligned a' b0 ;; cs <- each la' ;; Ok (c :: cs)
                       end) la ;;
            Ok (Arr rows)
        | _, _ => Raise ValueError
        end
  | _, _ => Raise ValueError
  end.

(** [a * b] with broadcasting: a scalar operand multiplies every item;
    otherwise the array of lower rank gets leading axes of length one. *)
Definition mul (a b : ndarray) : py ndarray :=
  match a, b with
  | Num x, _ => Ok (scale_l x b)
  | _, Num y => Ok (scale_r a y)
  | _, _ => mul_aligned (promote (ndim b - ndim a) a) (promote (ndim a - ndim b) b)
  end.

Definition symmetric (a : ndarray) : Prop :=
  forall i j, entry a i j = entry a j i.

(** The four entries of the upper-left block. *)
Definition entries2 (a : ndarray) (x00 x01 x10 x11 : Q) : Prop :=
  entry a 0 0 = Some x00 /\ entry a 0 1 = Some x01 /\
  entry a 1 0 = Some x10 /\ entry a 1 1 = Some x11.

(** A rectangular array of the given shape. *)
Fixpoint has_shape (sh : list nat) (a : ndarray) : Prop :=
  match sh, a with
  | [], Num _ => True
  | n :: sh', Arr items => List.length items = n /\ Forall (has_shape sh') items
  | _, _ => False
  end.

End Nd.

(** ** GMM covariances: [make_ellipses]

    [plot_gmm_covariances]: for each of the three colours the function picks
    a covariance matrix according to [gmm.covariance_type], then hands it to
    the eigen-decomposition and draws the ellipse.  [covariances] is a local
    variable of the function: it is unbound until a branch assigns it and
    keeps its value from one iteration to the next. *)

Module GmmCovariances.

Import Nd.

(** The attributes of the estimator that [make_ellipses] reads. *)
Record gaussian_mixture := Gmm {
  covariance_type : string;
  covariances_ : ndarray;
  means_ : ndarray
}.

Definition colors : list string := ["navy"; "turquoise"; "darkorange"]%string.

(** The values of [covariance_type] that a branch tests for. *)
Definition covariance_types : list string :=
  ["full"; "tied"; "diag"; "spherical"]%string.

(** The [if]/[elif] chain: the value of [covariances] after it. *)
Definition assign_covariances (gmm : gaussian_mixture) (n : nat)
           (covariances : option ndarray) : py (option ndarray) :=
  if (covariance_type gmm =? "full")%string then
    c <- index (covariances_ gmm) n ;; c <- head2 2 c ;; Ok (Some c)
  else if (covariance_type gmm =? "tied")%string then
    c <- head2 2 (covariances_ gmm) ;; Ok (Some c)
  else if (covariance_type gmm =? "diag")%string then
    c <- index (covariances_ gmm) n ;; c <- head 2 c ;; c <- diag c ;; Ok (Some c)
  else if (covariance_type gmm =? "spherical")%string then
    d <- shape1 (means_ gmm) ;;
    c <- index (covariances_ gmm) n ;;
    c <- mul (eye d) c ;;
    Ok (Some c)
  else Ok covariances.

(** Reading a local variable. *)
Definition read_local (v : option ndarray) : py ndarray :=
  match v with
  | Some c => Ok c
  | None => Raise UnboundLocalError
  end.

(** The matrix passed to [np.linalg.eigh] in iteration [n], when the
    variable held [covariances] before. *)
Definition covariances_at (gmm : gaussian_mixture) (n : nat)
           (covariances : option ndarray) : py ndarray :=
  v <- assign_covariances gmm n covariances ;; read_local v.

Section Drawing.

(** The axes and angle of the ellipse: [np.linalg.eigh], the norm,
      [np.arctan2] and the square roots. *)
Variable axes : Type.
Variable principal_axes : ndarray -> py axes.
(** [mpl.patches.Ellipse] with its centre, axes and colour. *)
Variable artist : Type.
Variable ellipse : ndarray -> axes -> string -> artist.

Definition ellipse_step (gmm : gaussian_mixture)
             (st : option ndarray * list artist) (n : nat) (color : string)
    : py (option ndarray * list artist) :=
    v <- assign_covariances gmm n (fst st) ;;
    c <- read_local v ;;
    ax <- principal_axes c ;;
    row <- index (means_ gmm) n ;;
    centre <- head 2 row ;;
    Ok (v, snd st ++ [ellipse centre ax color]).

Fixpoint ellipse_loop (gmm : gaussian_mixture)
           (st : option ndarray * list artist) (n : nat) (cs : list string)
    : py (option ndarray * list artist) :=
    match cs with
    | [] => Ok st
    | color :: cs' =>
        st' <- ellipse_step gmm st n color ;; ellipse_loop gmm st' (S n) cs'
    end.

(** [make_ellipses(gmm, ax)]: the artists added to the axes. *)
Definition make_ellipses (gmm : gaussian_mixture) : py (list artist) :=
    st <- ellipse_loop gmm (None, []) 0 colors ;; Ok (snd st).

End Drawing.

(** The arrays of a mixture of [k] components fitted on [d] features, as
    the library documents them for each covariance type: [means_] is
    [k x d]; [covariances_] is [k] symmetric [d x d] matrices ("full"), one
    symmetric [d x d] matrix ("tied"), [k x d] ("diag") or [k] variances
    ("spherical"). *)
Definition square_symmetric (d : nat) (a : ndarray) : Prop :=
  has_shape [d; d] a /\ symmetric a.

Definition fitted (k d : nat) (gmm : gaussian_mixture) : Prop :=
  has_shape [k; d] (means_ gmm) /\
  if (covariance_type gmm =? "full")%string then
    match covariances_ gmm with
    | Arr ms => List.length ms = k /\ Forall (square_symmetric d) ms
    | Num _ => False
    end
  else if (covariance_type gmm =? "tied")%string then
    square_symmetric d (covariances_ gmm)
  else if (covariance_type gmm =? "diag")%string then
    has_shape [k; d] (covariances_ gmm)
  else if (covariance_type gmm =? "spherical")%string then
    has_shape [k] (covariances_ gmm)
  else False.

(** An object whose [covariance_type] no branch tests for. *)
Definition unlisted_type : gaussian_mixture :=
  Gmm "kmeans" (vector [1; 1; 1]) (matrix [[0; 0]; [1; 1]; [2; 2]]).

(** A spherical mixture of three components on four features, the shape
    the script's own "spherical" estimator has on the iris data. *)
Definition spherical_on_iris : gaussian_mixture :=
  Gmm "spherical"
      (vector [1 # 4; 1 # 10; 3 # 10])
      (matrix [[5; 7 # 2; 3 # 2; 1 # 4];
               [6; 3; 4; 1];
               [13 # 2; 3; 11 # 2; 2]]).

End GmmCovariances.

(** ** The gallery: every script as the skeleton of its statements

    A script is kept as the sequence of its statements, each with the names
    it binds and the calls it makes, in evaluation order (arguments before
    the call that takes them).  A callee is the dotted path as written:
    [plt.subplots] is ["plt"; "subplots"]; a call or a subscript in the
    middle of a path is written "()" or "[]", so [MinCovDet().fit] is
    ["MinCovDet"; "()"; "fit"].  A method called on a string literal has the
    root "<str>". *)

Module Gallery.

Local Open Scope string_scope.
Local Open Scope list_scope.

Definition callee := list string.

Inductive form : Type := Assign | AugAssign | Expr | Return.

(** The test of an [if] statement: the truth of a variable or attribute,
    [x is not None], [x == "constant"]; any other test is [Computed]. *)
Inductive condition : Type :=
| Truthy (subject : callee)
| IsNotNone (subject : callee)
| Equals (subject : callee) (constant : string)
| Computed.

Inductive stmt : Type :=
| Doc
  (** the docstring that opens a module or a function *)
| Import (module_ : string) (binding : string)
  (** [import module_ as binding] *)
| FromImport (module_ : string) (names : list (string * string))
  (** [from module_ import name as binding, ...] *)
| Simple (f : form) (binds : list string) (calls : list callee)
  (** assignment, augmented assignment, bare expression or return;
      [binds] has the assigned names and the variables of comprehensions *)
| For (binds : list string) (calls : list callee) (body : list stmt)
| If (test : condition) (calls : list callee) (body orelse : list stmt)
| Def (name : string) (params : list string) (decorators : list callee)
      (body : list stmt)
  (** [decorators] has the callee of every decorator: a decorator is called
      when the function is defined *)
| Try (body : list stmt) (handlers : list (string * list stmt))
| Class (name : string) (body : list stmt)
| Other (kind : string)
  (** any other statement: [while], [with], [raise], [assert], ... *).

(** What a local variable holds when the script calls a method through
    it (on the variable, or on an item or attribute reached from it). *)
Inductive object : Type :=
| Canvas (library : string)   (** figure, axes, artist, trace, colour map *)
| Display                     (** a display object of the ML library *)
| Estimator (classes : list string)
| Splitter                    (** a cross-validation splitter *)
| NdArray
| Frame (library : string)    (** data frame, series, or the bunch around one *)
| Rng                         (** a random state *)
| Container                   (** Python list or dict *).

Record script : Type := Script {
  title : string;
  source : string;              (** file under [src/] *)
  position : nat;               (** rank of the notebook inside that file *)
  objects : list (string * object);
  loads : list string;          (** every name the script reads *)
  body : list stmt
}.

(** *** Traversals *)

Fixpoint nested (s : stmt) : list stmt :=
  s :: match s with
       | For _ _ b => flat_map nested b
       | If _ _ b e => flat_map nested b ++ flat_map nested e
       | Def _ _ _ b => flat_map nested b
       | Try b hs =>
           flat_map nested b ++
           flat_map (fun h => let '(_, hb) := h in flat_map nested hb) hs
       | Class _ b => flat_map nested b
       | _ => []
       end.

(** All statements of a script, those inside blocks included. *)
Definition statements (s : script) : list stmt := flat_map nested (body s).

Definition calls_here (st : stmt) : list callee :=
  match st with
  | Simple _ _ cs => cs
  | For _ cs _ => cs
  | If _ cs _ _ => cs
  | Def _ _ ds _ => ds
  | _ => []
  end.

(** Every call site of a script, in source order. *)
Definition calls (s : script) : list callee := flat_map calls_here (statements s).

Definition imports_here (st : stmt) : list (string * string) :=
  match st with
  | Import m b => [(b, m)]
  | FromImport m names => map (fun nb => (snd nb, (m ++ "." ++ fst nb)%string)) names
  | _ => []
  end.

(** Imported names with what they stand for: [plt] for
    [matplotlib.pyplot], [SVC] for [sklearn.svm.SVC]. *)
Definition imports (s : script) : list (string * string) :=
  flat_map imports_here (statements s).

Definition modules_here (st : stmt) : list string :=
  match st with
  | Import m _ => [m]
  | FromImport m _ => [m]
  | _ => []
  end.

(** The modules named by the import statements. *)
Definition imported_modules (s : script) : list string :=
  flat_map modules_here (statements s).

Definition defs (s : script) : list string :=
  flat_map (fun st => match st with Def n _ _ _ => [n] | _ => [] end) (statements s).

Definition classes (s : script) : list string :=
  flat_map (fun st => match st with Class n _ => [n] | _ => [] end) (statements s).

Definition others (s : script) : list string :=
  flat_map (fun st => match st with Other k => [k] | _ => [] end) (statements s).

Definition binds_here (st : stmt) : list string :=
  match st with
  | Doc => ["__doc__"]
  | Import _ b => [b]
  | FromImport _ names => map snd names
  | Simple _ bs _ => bs
  | For bs _ _ => bs
  | Def n ps _ _ => n :: ps
  | Class n _ => [n]
  | _ => []
  end.

(** Every name the script binds. *)
Definition bound (s : script) : list string := flat_map binds_here (statements s).

(** *** Names *)

Definition mem (x : string) (l : list string) : bool := existsb (String.eqb x) l.

Fixpoint lookup {A : Type} (x : string) (l : list (string * A)) : option A :=
  match l with
  | [] => None
  | (k, v) :: l' => if String.eqb x k then Some v else lookup x l'
  end.

(** The part of a dotted name before its first dot. *)
Fixpoint package (m : string) : string :=
  match m with
  | EmptyString => EmptyString
  | String c m' => if Ascii.eqb c "." then EmptyString else String c (package m')
  end.

Definition capitalised (n : string) : bool :=
  match n with
  | String c _ => (65 <=? nat_of_ascii c)%nat && (nat_of_ascii c <=? 90)%nat
  | EmptyString => false
  end.

Definition root (c : callee) : string := hd "" c.
Definition attr (c : callee) : string := last c "".

(** The names Python provides without an import. *)
Definition builtins : list string :=
  ["ImportError"; "dict"; "enumerate"; "getattr"; "int"; "iter"; "len"; "list";
   "next"; "print"; "range"; "sorted"; "zip"].

(** *** Where a callee comes from *)

Inductive origin : Type :=
| Imported (qualified : string)
| Held (o : object)
| LocalDef
| Builtin
| Literal
| Unknown.

Definition resolve (s : script) (c : callee) : origin :=
  let r := root c in
  match lookup r (imports s) with
  | Some q => Imported q
  | None =>
      if mem r (defs s) then LocalDef
      else match lookup r (objects s) with
           | Some o => Held o
           | None =>
               if mem r builtins then Builtin
               else if String.eqb r "<str>" then Literal
               else Unknown
           end
  end.

(** The dotted name of an imported callee: [svm.SVC] is
    [sklearn.svm.SVC]. *)
Definition qualified (s : script) (c : callee) : option string :=
  match resolve s c with
  | Imported q => Some (fold_left (fun acc x => (acc ++ "." ++ x)%string) (tl c) q)
  | _ => None
  end.

(** *** What a call does

    [DataLoad], [DataSplit], [Construct], [EstimatorCall] and [Plot] are
    the kinds the repository's description lists as the scripts' own
    logic; [Language] is Python glue. *)

Inductive category : Type :=
| DataLoad        (** a toy or public dataset from the library's loaders *)
| Generate        (** synthetic samples from the library's generators *)
| DataSplit       (** splitting or shuffling the samples *)
| Construct       (** building an estimator, a kernel, a splitter, a pipeline *)
| EstimatorCall   (** a method of an estimator, or a routine that fits one *)
| Plot            (** matplotlib, plotly, the library's display classes *)
| Numeric         (** array, data-frame and metric routines *)
| Random          (** random states and random draws *)
| Print
| System          (** clock, date, standard streams, processor count *)
| Warnings        (** control of warnings *)
| Language        (** built-in functions, containers, the script's own helpers *)
| Unclassified.

Definition category_eq_dec (a b : category) : {a = b} + {a <> b}.
Proof. decide equality. Defined.

Definition same (a b : category) : bool :=
  if category_eq_dec a b then true else false.


Definition display_classes : list string :=
  ["DecisionBoundaryDisplay"; "RocCurveDisplay"; "PartialDependenceDisplay";
   "LearningCurveDisplay"; "PrecisionRecallDisplay"].

(** The routines of [sklearn.datasets]: [load_...] and [fetch_...] return
    a stored or downloaded dataset, [make_...] draws synthetic samples. *)
Definition datasets_category (c : callee) : category :=
  if String.prefix "load_" (attr c) || String.prefix "fetch_" (attr c) then DataLoad
  else if String.prefix "make_" (attr c) then Generate
  else Unclassified.

Definition sklearn_category (q : string) (c : callee) : category :=
  if existsb (fun x => mem x display_classes) c then Plot
  else if String.prefix "sklearn.datasets" q then datasets_category c
  else if mem "()" c then EstimatorCall
  else if capitalised (attr c) then Construct
  else if mem (attr c) ["make_pipeline"] then Construct
  else if mem (attr c) ["train_test_split"; "shuffle"] then DataSplit
  else if mem (attr c) ["learning_curve"] then EstimatorCall
  else if mem (attr c) ["check_random_state"] then Random
  else if mem (attr c) ["ignore_warnings"] then Warnings
  else if mem (attr c)
            ["auc"; "accuracy_score"; "log_loss"; "precision_recall_curve";
             "average_precision_score"; "label_binarize"; "minmax_scale";
             "extract_patches_2d"; "reconstruct_from_patches_2d"] then Numeric
  else Unclassified.

Definition imported_category (q : string) (c : callee) : category :=
  let pkg := package q in
  if mem pkg ["matplotlib"; "plotly"] then Plot
  else if String.eqb pkg "sklearn" then sklearn_category q c
  else if String.eqb pkg "scipy" then
         (if String.eqb (attr c) "face" then DataLoad else Numeric)
  else if String.eqb pkg "numpy" then
         (if mem "random" c then Random else Numeric)
  else if mem pkg ["pandas"; "polars"] then Numeric
  else if mem pkg ["time"; "datetime"; "sys"; "joblib"] then System
  else if mem pkg ["collections"; "itertools"] then Language
  else Unclassified.

Definition held_category (o : object) (c : callee) : category :=
  match o with
  | Canvas _ => Plot
  | Display => Plot
  | Estimator _ => EstimatorCall
  | Splitter => DataSplit
  | NdArray => Numeric
  | Frame _ => if String.eqb (attr c) "plot" then Plot else Numeric
  | Rng => Random
  | Container => Language
  end.

Definition categorise (s : script) (c : callee) : category :=
  match resolve s c with
  | Imported q => imported_category q c
  | Held o => held_category o c
  | LocalDef => Language
  | Builtin => if String.eqb (root c) "print" then Print else Language
  | Literal => Language
  | Unknown => Unclassified
  end.


(** *** Estimators: construction and fit *)

(** The class a call instantiates: the dotted name of a callee whose last
    component is a class name. *)
Definition instantiates (s : script) (c : callee) : option string :=
  if capitalised (attr c) then qualified s c else None.

Definition constructs (s : script) (cls : string) : bool :=
  existsb (fun c => match instantiates s c with
                    | Some q => String.eqb q cls
                    | None => false
                    end) (calls s).

(** The classes of the object a method is called on: the classes noted
    for a variable, or the class instantiated just before the method in
    [C(...).method]. *)
Definition receiver_classes (s : script) (c : callee) : list string :=
  let r := removelast c in
  if String.eqb (last r "") "()" then
    match instantiates s (removelast r) with
    | Some q => [q]
    | None => []
    end
  else match r with
       | [v] => match lookup v (objects s) with
                | Some (Estimator cls) =>
                    if mem v (map fst (imports s)) || mem v (defs s)
                    then [] else cls
                | _ => []
                end
       | _ => []
       end.

Definition fit_methods : list string := ["fit"; "fit_transform"].

Definition fits (s : script) (cls : string) : bool :=
  existsb (fun c => mem (attr c) fit_methods && mem cls (receiver_classes s c))
          (calls s).



(** Classes the scripts instantiate that are no estimators: random state,
    data frame, counter, and matplotlib artists and helpers. *)
Definition auxiliary_classes : list string :=
  ["RandomState"; "DataFrame"; "Counter"; "Line2D"; "NullFormatter";
   "Normalize"; "ColorbarBase"; "Ellipse"].

(** The methods through which the scripts train and query estimators. *)
Definition estimator_api : list string :=
  ["fit"; "fit_transform"; "transform"; "predict"; "predict_proba";
   "decision_function"; "score"].

(** The receiver of [c] is an instance of a class of the ML library. *)
Definition library_estimator (s : script) (c : callee) : bool :=
  match receiver_classes s c with
  | [] => false
  | cls => forallb (fun q => String.eqb (package q) "sklearn") cls
  end.

(** *** The end of a script *)

Definition final_statement (s : script) : option stmt :=
  match body s with
  | [] => None
  | st :: rest => Some (last rest st)
  end.

Definition is_plot_call (s : script) (st : stmt) : bool :=
  match st with
  | Simple _ _ (c :: cs) => same (categorise s (last cs c)) Plot
  | _ => false
  end.

(** A bare expression that calls nothing: its value is what the notebook
    cell shows. *)
Definition is_inspection (st : stmt) : bool :=
  match st with
  | Simple Expr [] [] => true
  | _ => false
  end.

Definition ends_in_plot (s : script) : bool :=
  match final_statement s with
  | Some st => is_plot_call s st
  | None => false
  end.

(** *** Failure handling *)

Inductive handling : Type :=
| Except (body : list stmt) (handlers : list (string * list stmt))
| Decorated (decorator : callee).

Definition handling_here (st : stmt) : list handling :=
  match st with
  | Try b hs => [Except b hs]
  | Def _ _ ds _ => map Decorated ds
  | _ => []
  end.

(** The [try] statements and the decorators of a script. *)
Definition handlings (s : script) : list handling :=
  flat_map handling_here (statements s).

(** Supplied by a library: a decorator imported from a package outside
    the repository. *)
Definition library_provided (s : script) (h : handling) : bool :=
  match h with
  | Decorated d => match resolve s d with
                   | Imported _ => true
                   | _ => false
                   end
  | Except _ _ => false
  end.

(** Warning suppression with the decorator of the ML library. *)
Definition library_suppression (s : script) (h : handling) : bool :=
  match h with
  | Decorated d =>
      match qualified s d with
      | Some q => String.eqb q "sklearn.utils._testing.ignore_warnings"
      | None => false
      end
  | Except _ _ => false
  end.

Definition only_imports (b : list stmt) : option (list string) :=
  match b with
  | [FromImport m names] => Some (package m :: map snd names)
  | _ => None
  end.

(** An import with a fallback: [try: from p.a import f] /
    [except ImportError: from p.b import f], the same names from the same
    package. *)
Definition import_fallback (h : handling) : bool :=
  match h with
  | Except b [(e, hb)] =>
      String.eqb e "ImportError" &&
      match only_imports b, only_imports hb with
      | Some x, Some y => if list_eq_dec string_dec x y then true else false
      | _, _ => false
      end
  | _ => false
  end.

(** Third-party packages and modules of the standard library. *)
Definition external_packages : list string :=
  ["sklearn"; "numpy"; "scipy"; "matplotlib"; "plotly"; "pandas"; "polars";
   "joblib"; "time"; "datetime"; "sys"; "collections"; "itertools"].

(** *** Control flow *)

















(** *** Names and imports *)

Definition names_resolved (s : script) : bool :=
  forallb (fun n => mem n (bound s) || mem n builtins) (loads s).


End Gallery.

(** ** The fifteen notebooks

    One definition per notebook, in the order of the files under [src/]
    (a file may hold several notebooks).  The notebooks of the unnamed files
    are named after their titles. *)

Module Notebooks.

Import Gallery.
Local Open Scope string_scope.

Definition svm_iris : script := {|
  title := "Plot different SVM classifiers in the iris dataset";
  source := "unnamed/part_000";
  position := 0;
  objects :=
    [("clf", Estimator ["sklearn.svm.SVC"; "sklearn.svm.LinearSVC"]);
     ("sub", NdArray);
     ("ax", Canvas "matplotlib")];
  loads :=
    ["datasets"; "iris"; "svm"; "C"; "clf"; "X"; "y"; "models"; "plt"; "zip"; "titles"; "sub";
     "DecisionBoundaryDisplay"; "ax"; "X0"; "X1"; "title"];
  body := [
    Doc;
    Import "matplotlib.pyplot" "plt";
    FromImport "sklearn" [("datasets", "datasets"); ("svm", "svm")];
    FromImport "sklearn.inspection" [("DecisionBoundaryDisplay", "DecisionBoundaryDisplay")];
    Simple Assign ["iris"] [["datasets"; "load_iris"]];
    Simple Assign ["X"] [];
    Simple Assign ["y"] [];
    Simple Assign ["C"] [];
    Simple Assign ["models"] [["svm"; "SVC"]; ["svm"; "LinearSVC"]; ["svm"; "SVC"]; ["svm"; "SVC"]];
    Simple Assign ["models"; "clf"] [["clf"; "fit"]];
    Simple Assign ["titles"] [];
    Simple Assign ["fig"; "sub"] [["plt"; "subplots"]];
    Simple Expr [] [["plt"; "subplots_adjust"]];
    Simple Assign ["X0"; "X1"] [];
    For ["clf"; "title"; "ax"] [["sub"; "flatten"]; ["zip"]] [
      Simple Assign ["disp"] [["DecisionBoundaryDisplay"; "from_estimator"]];
      Simple Expr [] [["ax"; "scatter"]];
      Simple Expr [] [["ax"; "set_xticks"]];
      Simple Expr [] [["ax"; "set_yticks"]];
      Simple Expr [] [["ax"; "set_title"]]
    ];
    Simple Expr [] [["plt"; "show"]]
  ]
|}.

Definition learning_curves : script := {|
  title := "Plotting Learning Curves and Checking Models' Scalability";
  source := "unnamed/part_001";
  position := 0;
  objects :=
    [("ax", Canvas "matplotlib");
     ("fit_times", NdArray);
     ("score_times", NdArray);
     ("test_scores", NdArray)];
  loads :=
    ["load_digits"; "GaussianNB"; "SVC"; "plt"; "X"; "y"; "np"; "ShuffleSplit"; "enumerate";
     "naive_bayes"; "svc"; "LearningCurveDisplay"; "estimator"; "common_params"; "ax"; "ax_idx";
     "handles"; "learning_curve"; "zip"; "fit_times_nb"; "fit_times_svm"; "score_times_nb";
     "score_times_svm"; "train_sizes"; "fit_times"; "score_times"; "test_scores_nb";
     "test_scores_svm"; "test_scores"];
  body := [
    Doc;
    FromImport "sklearn.datasets" [("load_digits", "load_digits")];
    FromImport "sklearn.naive_bayes" [("GaussianNB", "GaussianNB")];
    FromImport "sklearn.svm" [("SVC", "SVC")];
    Simple Assign ["X"; "y"] [["load_digits"]];
    Simple Assign ["naive_bayes"] [["GaussianNB"]];
    Simple Assign ["svc"] [["SVC"]];
    Import "matplotlib.pyplot" "plt";
    Import "numpy" "np";
    FromImport "sklearn.model_selection" [("LearningCurveDisplay", "LearningCurveDisplay");
        ("ShuffleSplit", "ShuffleSplit")];
    Simple Assign ["fig"; "ax"] [["plt"; "subplots"]];
    Simple Assign ["common_params"] [["np"; "linspace"]; ["ShuffleSplit"]];
    For ["ax_idx"; "estimator"] [["enumerate"]] [
      Simple Expr [] [["LearningCurveDisplay"; "from_estimator"]];
      Simple Assign ["handles"; "label"] [["ax"; "[]"; "get_legend_handles_labels"]];
      Simple Expr [] [["ax"; "[]"; "legend"]];
      Simple Expr [] [["ax"; "[]"; "set_title"]]
    ];
    FromImport "sklearn.model_selection" [("learning_curve", "learning_curve")];
    Simple Assign ["common_params"] [["np"; "linspace"]; ["ShuffleSplit"]];
    Simple Assign ["train_sizes"; "_"; "test_scores_nb"; "fit_times_nb"; "score_times_nb"]
        [["learning_curve"]];
    Simple Assign ["train_sizes"; "_"; "test_scores_svm"; "fit_times_svm"; "score_times_svm"]
        [["learning_curve"]];
    Simple Assign ["fig"; "ax"] [["plt"; "subplots"]];
    For ["ax_idx"; "fit_times"; "score_times"; "estimator"] [["zip"]; ["enumerate"]] [
      Simple Expr [] [["fit_times"; "mean"]; ["ax"; "[]"; "plot"]];
      Simple Expr [] [["fit_times"; "mean"]; ["fit_times"; "std"]; ["fit_times"; "mean"];
          ["fit_times"; "std"]; ["ax"; "[]"; "fill_between"]];
      Simple Expr [] [["ax"; "[]"; "set_ylabel"]];
      Simple Expr [] [["ax"; "[]"; "set_title"]];
      Simple Expr [] [["score_times"; "mean"]; ["ax"; "[]"; "plot"]];
      Simple Expr [] [["score_times"; "mean"]; ["score_times"; "std"]; ["score_times"; "mean"];
          ["score_times"; "std"]; ["ax"; "[]"; "fill_between"]];
      Simple Expr [] [["ax"; "[]"; "set_ylabel"]];
      Simple Expr [] [["ax"; "[]"; "set_xlabel"]]
    ];
    Simple Assign ["fig"; "ax"] [["plt"; "subplots"]];
    For ["ax_idx"; "fit_times"; "test_scores"; "estimator"] [["zip"]; ["enumerate"]] [
      Simple Expr [] [["fit_times"; "mean"]; ["test_scores"; "mean"]; ["ax"; "[]"; "plot"]];
      Simple Expr [] [["fit_times"; "mean"]; ["test_scores"; "mean"]; ["test_scores"; "std"];
          ["test_scores"; "mean"]; ["test_scores"; "std"]; ["ax"; "[]"; "fill_between"]];
      Simple Expr [] [["ax"; "[]"; "set_ylabel"]];
      Simple Expr [] [["ax"; "[]"; "set_xlabel"]];
      Simple Expr [] [["ax"; "[]"; "set_title"]]
    ];
    Simple Expr [] [["plt"; "show"]]
  ]
|}.

Definition precision_recall : script := {|
  title := "Precision-Recall";
  source := "unnamed/part_002";
  position := 0;
  objects :=
    [("random_state", Rng);
     ("classifier", Estimator ["sklearn.pipeline.Pipeline"; "sklearn.multiclass.OneVsRestClassifier"]);
     ("display", Display);
     ("Y_test", NdArray);
     ("y_score", NdArray);
     ("ax", Canvas "matplotlib");
     ("handles", Container);
     ("labels", Container)];
  loads :=
    ["load_iris"; "np"; "X"; "random_state"; "n_samples"; "n_features"; "train_test_split";
     "y"; "make_pipeline"; "StandardScaler"; "LinearSVC"; "classifier"; "X_train"; "y_train";
     "PrecisionRecallDisplay"; "X_test"; "y_test"; "display"; "y_score"; "label_binarize"; "Y";
     "OneVsRestClassifier"; "Y_train"; "dict"; "range"; "n_classes"; "precision"; "i"; "recall";
     "precision_recall_curve"; "Y_test"; "average_precision"; "average_precision_score";
     "Counter"; "cycle"; "plt"; "f_scores"; "f_score"; "x"; "ax"; "zip"; "colors"; "color";
     "handles"; "l"; "labels"];
  body := [
    Doc;
    Import "numpy" "np";
    FromImport "sklearn.datasets" [("load_iris", "load_iris")];
    FromImport "sklearn.model_selection" [("train_test_split", "train_test_split")];
    Simple Assign ["X"; "y"] [["load_iris"]];
    Simple Assign ["random_state"] [["np"; "random"; "RandomState"]];
    Simple Assign ["n_samples"; "n_features"] [];
    Simple Assign ["X"] [["random_state"; "randn"]; ["np"; "concatenate"]];
    Simple Assign ["X_train"; "X_test"; "y_train"; "y_test"] [["train_test_split"]];
    FromImport "sklearn.pipeline" [("make_pipeline", "make_pipeline")];
    FromImport "sklearn.preprocessing" [("StandardScaler", "StandardScaler")];
    FromImport "sklearn.svm" [("LinearSVC", "LinearSVC")];
    Simple Assign ["classifier"] [["StandardScaler"]; ["LinearSVC"]; ["make_pipeline"]];
    Simple Expr [] [["classifier"; "fit"]];
    FromImport "sklearn.metrics" [("PrecisionRecallDisplay", "PrecisionRecallDisplay")];
    Simple Assign ["display"] [["PrecisionRecallDisplay"; "from_estimator"]];
    Simple Assign ["_"] [["display"; "ax_"; "set_title"]];
    Simple Assign ["y_score"] [["classifier"; "decision_function"]];
    Simple Assign ["display"] [["PrecisionRecallDisplay"; "from_predictions"]];
    Simple Assign ["_"] [["display"; "ax_"; "set_title"]];
    FromImport "sklearn.preprocessing" [("label_binarize", "label_binarize")];
    Simple Assign ["Y"] [["label_binarize"]];
    Simple Assign ["n_classes"] [];
    Simple Assign ["X_train"; "X_test"; "Y_train"; "Y_test"] [["train_test_split"]];
    FromImport "sklearn.multiclass" [("OneVsRestClassifier", "OneVsRestClassifier")];
    Simple Assign ["classifier"] [["StandardScaler"]; ["LinearSVC"]; ["make_pipeline"];
        ["OneVsRestClassifier"]];
    Simple Expr [] [["classifier"; "fit"]];
    Simple Assign ["y_score"] [["classifier"; "decision_function"]];
    FromImport "sklearn.metrics" [("average_precision_score", "average_precision_score");
        ("precision_recall_curve", "precision_recall_curve")];
    Simple Assign ["precision"] [["dict"]];
    Simple Assign ["recall"] [["dict"]];
    Simple Assign ["average_precision"] [["dict"]];
    For ["i"] [["range"]] [
      Simple Assign ["_"] [["precision_recall_curve"]];
      Simple Assign [] [["average_precision_score"]]
    ];
    Simple Assign ["_"] [["Y_test"; "ravel"]; ["y_score"; "ravel"]; ["precision_recall_curve"]];
    Simple Assign [] [["average_precision_score"]];
    FromImport "collections" [("Counter", "Counter")];
    Simple Assign ["display"] [["Y_test"; "ravel"]; ["Counter"]; ["PrecisionRecallDisplay"]];
    Simple Expr [] [["display"; "plot"]];
    Simple Assign ["_"] [["display"; "ax_"; "set_title"]];
    FromImport "itertools" [("cycle", "cycle")];
    Import "matplotlib.pyplot" "plt";
    Simple Assign ["colors"] [["cycle"]];
    Simple Assign ["_"; "ax"] [["plt"; "subplots"]];
    Simple Assign ["f_scores"] [["np"; "linspace"]];
    Simple Assign ["lines"; "labels"] [];
    For ["f_score"] [] [
      Simple Assign ["x"] [["np"; "linspace"]];
      Simple Assign ["y"] [];
      Simple Assign ["l"] [["plt"; "plot"]];
      Simple Expr [] [["<str>"; "format"]; ["plt"; "annotate"]]
    ];
    Simple Assign ["display"] [["PrecisionRecallDisplay"]];
    Simple Expr [] [["display"; "plot"]];
    For ["i"; "color"] [["range"]; ["zip"]] [
      Simple Assign ["display"] [["PrecisionRecallDisplay"]];
      Simple Expr [] [["display"; "plot"]]
    ];
    Simple Assign ["handles"; "labels"] [["display"; "ax_"; "get_legend_handles_labels"]];
    Simple Expr [] [["handles"; "extend"]];
    Simple Expr [] [["labels"; "extend"]];
    Simple Expr [] [["ax"; "legend"]];
    Simple Expr [] [["ax"; "set_title"]];
    Simple Expr [] [["plt"; "show"]]
  ]
|}.

Definition tsne_perplexity : script := {|
  title := "t-SNE: The effect of various perplexity values on the shape";
  source := "unnamed/part_003";
  position := 0;
  objects :=
    [("ax", Canvas "matplotlib");
     ("tsne", Estimator ["sklearn.manifold.TSNE"]);
     ("xx", NdArray);
     ("yy", NdArray)];
  loads :=
    ["plt"; "datasets"; "n_samples"; "y"; "subplots"; "ax"; "X"; "red"; "green";
     "NullFormatter"; "enumerate"; "perplexities"; "i"; "time"; "manifold"; "n_components";
     "perplexity"; "tsne"; "print"; "t1"; "t0"; "Y"; "color"; "np"; "int"; "x"; "xx"; "yy"];
  body := [
    Doc;
    FromImport "time" [("time", "time")];
    Import "matplotlib.pyplot" "plt";
    Import "numpy" "np";
    FromImport "matplotlib.ticker" [("NullFormatter", "NullFormatter")];
    FromImport "sklearn" [("datasets", "datasets"); ("manifold", "manifold")];
    Simple Assign ["n_samples"] [];
    Simple Assign ["n_components"] [];
    Simple Assign ["fig"; "subplots"] [["plt"; "subplots"]];
    Simple Assign ["perplexities"] [];
    Simple Assign ["X"; "y"] [["datasets"; "make_circles"]];
    Simple Assign ["red"] [];
    Simple Assign ["green"] [];
    Simple Assign ["ax"] [];
    Simple Expr [] [["ax"; "scatter"]];
    Simple Expr [] [["ax"; "scatter"]];
    Simple Expr [] [["NullFormatter"]; ["ax"; "xaxis"; "set_major_formatter"]];
    Simple Expr [] [["NullFormatter"]; ["ax"; "yaxis"; "set_major_formatter"]];
    Simple Expr [] [["plt"; "axis"]];
    For ["i"; "perplexity"] [["enumerate"]] [
      Simple Assign ["ax"] [];
      Simple Assign ["t0"] [["time"]];
      Simple Assign ["tsne"] [["manifold"; "TSNE"]];
      Simple Assign ["Y"] [["tsne"; "fit_transform"]];
      Simple Assign ["t1"] [["time"]];
      Simple Expr [] [["print"]];
      Simple Expr [] [["ax"; "set_title"]];
      Simple Expr [] [["ax"; "scatter"]];
      Simple Expr [] [["ax"; "scatter"]];
      Simple Expr [] [["NullFormatter"]; ["ax"; "xaxis"; "set_major_formatter"]];
      Simple Expr [] [["NullFormatter"]; ["ax"; "yaxis"; "set_major_formatter"]];
      Simple Expr [] [["ax"; "axis"]]
    ];
    Simple Assign ["X"; "color"] [["datasets"; "make_s_curve"]];
    Simple Assign ["ax"] [];
    Simple Expr [] [["ax"; "scatter"]];
    Simple Expr [] [["NullFormatter"]; ["ax"; "xaxis"; "set_major_formatter"]];
    Simple Expr [] [["NullFormatter"]; ["ax"; "yaxis"; "set_major_formatter"]];
    For ["i"; "perplexity"] [["enumerate"]] [
      Simple Assign ["ax"] [];
      Simple Assign ["t0"] [["time"]];
      Simple Assign ["tsne"] [["manifold"; "TSNE"]];
      Simple Assign ["Y"] [["tsne"; "fit_transform"]];
      Simple Assign ["t1"] [["time"]];
      Simple Expr [] [["print"]];
      Simple Expr [] [["ax"; "set_title"]];
      Simple Expr [] [["ax"; "scatter"]];
      Simple Expr [] [["NullFormatter"]; ["ax"; "xaxis"; "set_major_formatter"]];
      Simple Expr [] [["NullFormatter"]; ["ax"; "yaxis"; "set_major_formatter"]];
      Simple Expr [] [["ax"; "axis"]]
    ];
    Simple Assign ["x"] [["np"; "sqrt"]; ["int"]; ["np"; "linspace"]];
    Simple Assign ["xx"; "yy"] [["np"; "meshgrid"]];
    Simple Assign ["X"] [["xx"; "ravel"]; ["xx"; "ravel"; "()"; "reshape"]; ["yy"; "ravel"];
        ["yy"; "ravel"; "()"; "reshape"]; ["np"; "hstack"]];
    Simple Assign ["color"] [["xx"; "ravel"]];
    Simple Assign ["ax"] [];
    Simple Expr [] [["ax"; "scatter"]];
    Simple Expr [] [["NullFormatter"]; ["ax"; "xaxis"; "set_major_formatter"]];
    Simple Expr [] [["NullFormatter"]; ["ax"; "yaxis"; "set_major_formatter"]];
    For ["i"; "perplexity"] [["enumerate"]] [
      Simple Assign ["ax"] [];
      Simple Assign ["t0"] [["time"]];
      Simple Assign ["tsne"] [["manifold"; "TSNE"]];
      Simple Assign ["Y"] [["tsne"; "fit_transform"]];
      Simple Assign ["t1"] [["time"]];
      Simple Expr [] [["print"]];
      Simple Expr [] [["ax"; "set_title"]];
      Simple Expr [] [["ax"; "scatter"]];
      Simple Expr [] [["NullFormatter"]; ["ax"; "xaxis"; "set_major_formatter"]];
      Simple Expr [] [["NullFormatter"]; ["ax"; "yaxis"; "set_major_formatter"]];
      Simple Expr [] [["ax"; "axis"]]
    ];
    Simple Expr [] [["plt"; "show"]]
  ]
|}.

Definition image_denoising : script := {|
  title := "Image denoising using dictionary learning";
  source := "unnamed/part_004";
  position := 0;
  objects :=
    [("raccoon_face", NdArray);
     ("data", NdArray);
     ("dico", Estimator ["sklearn.decomposition.MiniBatchDictionaryLearning"]);
     ("comp", NdArray);
     ("patches", NdArray)];
  loads :=
    ["ImportError"; "face"; "raccoon_face"; "print"; "distorted"; "width"; "np"; "height";
     "plt"; "image"; "reference"; "difference"; "title"; "show_with_diff"; "time";
     "extract_patches_2d"; "patch_size"; "data"; "t0"; "MiniBatchDictionaryLearning"; "dico";
     "dt"; "enumerate"; "V"; "i"; "comp"; "len"; "intercept"; "transform_algorithms";
     "reconstructions"; "transform_algorithm"; "kwargs"; "code"; "patches";
     "reconstruct_from_patches_2d"];
  body := [
    Doc;
    Import "numpy" "np";
    Try [
      FromImport "scipy.datasets" [("face", "face")]
    ] [("ImportError", [
        FromImport "scipy.misc" [("face", "face")]
      ])];
    Simple Assign ["raccoon_face"] [["face"]];
    Simple Assign ["raccoon_face"] [];
    Simple Assign ["raccoon_face"] [];
    Simple AugAssign ["raccoon_face"] [];
    Simple Assign ["height"; "width"] [];
    Simple Expr [] [["print"]];
    Simple Assign ["distorted"] [["raccoon_face"; "copy"]];
    Simple AugAssign [] [["np"; "random"; "randn"]];
    Import "matplotlib.pyplot" "plt";
    Def "show_with_diff" ["image"; "reference"; "title"] [] [
      Doc;
      Simple Expr [] [["plt"; "figure"]];
      Simple Expr [] [["plt"; "subplot"]];
      Simple Expr [] [["plt"; "title"]];
      Simple Expr [] [["plt"; "imshow"]];
      Simple Expr [] [["plt"; "xticks"]];
      Simple Expr [] [["plt"; "yticks"]];
      Simple Expr [] [["plt"; "subplot"]];
      Simple Assign ["difference"] [];
      Simple Expr [] [["np"; "sum"]; ["np"; "sqrt"]; ["plt"; "title"]];
      Simple Expr [] [["plt"; "imshow"]];
      Simple Expr [] [["plt"; "xticks"]];
      Simple Expr [] [["plt"; "yticks"]];
      Simple Expr [] [["plt"; "suptitle"]];
      Simple Expr [] [["plt"; "subplots_adjust"]]
    ];
    Simple Expr [] [["show_with_diff"]];
    FromImport "time" [("time", "time")];
    FromImport "sklearn.feature_extraction.image" [("extract_patches_2d", "extract_patches_2d")];
    Simple Expr [] [["print"]];
    Simple Assign ["t0"] [["time"]];
    Simple Assign ["patch_size"] [];
    Simple Assign ["data"] [["extract_patches_2d"]];
    Simple Assign ["data"] [["data"; "reshape"]];
    Simple AugAssign ["data"] [["np"; "mean"]];
    Simple AugAssign ["data"] [["np"; "std"]];
    Simple Expr [] [["time"]; ["print"]];
    FromImport "sklearn.decomposition" [("MiniBatchDictionaryLearning",
        "MiniBatchDictionaryLearning")];
    Simple Expr [] [["print"]];
    Simple Assign ["t0"] [["time"]];
    Simple Assign ["dico"] [["MiniBatchDictionaryLearning"]];
    Simple Assign ["V"] [["dico"; "fit"]];
    Simple Assign ["dt"] [["time"]];
    Simple Expr [] [["print"]];
    Simple Expr [] [["plt"; "figure"]];
    For ["i"; "comp"] [["enumerate"]] [
      Simple Expr [] [["plt"; "subplot"]];
      Simple Expr [] [["comp"; "reshape"]; ["plt"; "imshow"]];
      Simple Expr [] [["plt"; "xticks"]];
      Simple Expr [] [["plt"; "yticks"]]
    ];
    Simple Expr [] [["len"]; ["plt"; "suptitle"]];
    Simple Expr [] [["plt"; "subplots_adjust"]];
    FromImport "sklearn.feature_extraction.image" [("reconstruct_from_patches_2d",
        "reconstruct_from_patches_2d")];
    Simple Expr [] [["print"]];
    Simple Assign ["t0"] [["time"]];
    Simple Assign ["data"] [["extract_patches_2d"]];
    Simple Assign ["data"] [["data"; "reshape"]];
    Simple Assign ["intercept"] [["np"; "mean"]];
    Simple AugAssign ["data"] [];
    Simple Expr [] [["time"]; ["print"]];
    Simple Assign ["transform_algorithms"] [];
    Simple Assign ["reconstructions"] [];
    For ["title"; "transform_algorithm"; "kwargs"] [] [
      Simple Expr [] [["print"]];
      Simple Assign [] [["raccoon_face"; "copy"]];
      Simple Assign ["t0"] [["time"]];
      Simple Expr [] [["dico"; "set_params"]];
      Simple Assign ["code"] [["dico"; "transform"]];
      Simple Assign ["patches"] [["np"; "dot"]];
      Simple AugAssign ["patches"] [];
      Simple Assign ["patches"] [["len"]; ["patches"; "reshape"]];
      If (Equals ["transform_algorithm"] "threshold") [] [
        Simple AugAssign ["patches"] [["patches"; "min"]];
        Simple AugAssign ["patches"] [["patches"; "max"]]
      ] [];
      Simple Assign [] [["reconstruct_from_patches_2d"]];
      Simple Assign ["dt"] [["time"]];
      Simple Expr [] [["print"]];
      Simple Expr [] [["show_with_diff"]]
    ];
    Simple Expr [] [["plt"; "show"]]
  ]
|}.

Definition gpr_co2 : script := {|
  title := "Forecasting of CO2 level on Mona Loa dataset using Gaussian process regression (GPR)";
  source := "unnamed/part_005";
  position := 0;
  objects :=
    [("co2", Frame "pandas");
     ("co2_data", Frame "polars");
     ("y", NdArray);
     ("gaussian_process", Estimator ["sklearn.gaussian_process.GaussianProcessRegressor"]);
     ("X_test", NdArray)];
  loads :=
    ["print"; "__doc__"; "fetch_openml"; "co2"; "pl"; "co2_data"; "plt"; "RBF";
     "ExpSineSquared"; "RationalQuadratic"; "WhiteKernel"; "long_term_trend_kernel";
     "seasonal_kernel"; "irregularities_kernel"; "noise_kernel"; "co2_kernel"; "y";
     "GaussianProcessRegressor"; "gaussian_process"; "X"; "y_mean"; "datetime"; "today"; "np";
     "current_month"; "X_test"; "mean_y_pred"; "std_y_pred"];
  body := [
    Doc;
    Simple Expr [] [["print"]];
    FromImport "sklearn.datasets" [("fetch_openml", "fetch_openml")];
    Simple Assign ["co2"] [["fetch_openml"]];
    Simple Expr [] [["co2"; "frame"; "head"]];
    Import "polars" "pl";
    Simple Assign ["co2_data"] [["pl"; "DataFrame"]; ["pl"; "date"]; ["pl"; "DataFrame"; "()";
        "select"]];
    Simple Expr [] [["co2_data"; "head"]];
    Simple Expr [] [["co2_data"; "[]"; "min"]; ["co2_data"; "[]"; "max"]];
    Import "matplotlib.pyplot" "plt";
    Simple Expr [] [["plt"; "plot"]];
    Simple Expr [] [["plt"; "xlabel"]];
    Simple Expr [] [["plt"; "ylabel"]];
    Simple Assign ["_"] [["plt"; "title"]];
    Simple Assign ["co2_data"] [["co2_data"; "sort"]; ["co2_data"; "sort"; "()";
        "group_by_dynamic"]; ["pl"; "col"]; ["pl"; "col"; "()"; "mean"]; ["co2_data"; "sort"; "()";
        "group_by_dynamic"; "()"; "agg"]; ["co2_data"; "sort"; "()"; "group_by_dynamic"; "()";
        "agg"; "()"; "drop_nulls"]];
    Simple Expr [] [["plt"; "plot"]];
    Simple Expr [] [["plt"; "xlabel"]];
    Simple Expr [] [["plt"; "ylabel"]];
    Simple Assign ["_"] [["plt"; "title"]];
    Simple Assign ["X"] [["pl"; "col"]; ["pl"; "col"; "()"; "dt"; "year"]; ["pl"; "col"]; ["pl";
        "col"; "()"; "dt"; "month"]; ["co2_data"; "select"]; ["co2_data"; "select"; "()";
        "to_numpy"]];
    Simple Assign ["y"] [["co2_data"; "[]"; "to_numpy"]];
    FromImport "sklearn.gaussian_process.kernels" [("RBF", "RBF")];
    Simple Assign ["long_term_trend_kernel"] [["RBF"]];
    FromImport "sklearn.gaussian_process.kernels" [("ExpSineSquared", "ExpSineSquared")];
    Simple Assign ["seasonal_kernel"] [["RBF"]; ["ExpSineSquared"]];
    FromImport "sklearn.gaussian_process.kernels" [("RationalQuadratic", "RationalQuadratic")];
    Simple Assign ["irregularities_kernel"] [["RationalQuadratic"]];
    FromImport "sklearn.gaussian_process.kernels" [("WhiteKernel", "WhiteKernel")];
    Simple Assign ["noise_kernel"] [["RBF"]; ["WhiteKernel"]];
    Simple Assign ["co2_kernel"] [];
    Simple Expr [] [];
    FromImport "sklearn.gaussian_process" [("GaussianProcessRegressor",
        "GaussianProcessRegressor")];
    Simple Assign ["y_mean"] [["y"; "mean"]];
    Simple Assign ["gaussian_process"] [["GaussianProcessRegressor"]];
    Simple Expr [] [["gaussian_process"; "fit"]];
    Import "datetime" "datetime";
    Import "numpy" "np";
    Simple Assign ["today"] [["datetime"; "datetime"; "now"]];
    Simple Assign ["current_month"] [];
    Simple Assign ["X_test"] [["np"; "linspace"]; ["np"; "linspace"; "()"; "reshape"]];
    Simple Assign ["mean_y_pred"; "std_y_pred"] [["gaussian_process"; "predict"]];
    Simple AugAssign ["mean_y_pred"] [];
    Simple Expr [] [["plt"; "plot"]];
    Simple Expr [] [["plt"; "plot"]];
    Simple Expr [] [["X_test"; "ravel"]; ["plt"; "fill_between"]];
    Simple Expr [] [["plt"; "legend"]];
    Simple Expr [] [["plt"; "xlabel"]];
    Simple Expr [] [["plt"; "ylabel"]];
    Simple Assign ["_"] [["plt"; "title"]];
    Simple Expr [] []
  ]
|}.

Definition gpc_probabilities : script := {|
  title := "Probabilistic predictions with Gaussian process classification (GPC)";
  source := "unnamed/part_005";
  position := 1;
  objects :=
    [("rng", Rng);
     ("gp_fix", Estimator ["sklearn.gaussian_process.GaussianProcessClassifier"]);
     ("gp_opt", Estimator ["sklearn.gaussian_process.GaussianProcessClassifier"])];
  loads :=
    ["np"; "rng"; "X"; "int"; "GaussianProcessClassifier"; "RBF"; "gp_fix"; "train_size"; "y";
     "gp_opt"; "print"; "accuracy_score"; "log_loss"; "plt"; "X_"; "theta0"; "theta1"; "Theta0";
     "i"; "j"; "Theta1"; "range"; "LML"];
  body := [
    Doc;
    Import "numpy" "np";
    FromImport "matplotlib" [("pyplot", "plt")];
    FromImport "sklearn.gaussian_process" [("GaussianProcessClassifier",
        "GaussianProcessClassifier")];
    FromImport "sklearn.gaussian_process.kernels" [("RBF", "RBF")];
    FromImport "sklearn.metrics" [("accuracy_score", "accuracy_score"); ("log_loss", "log_loss")];
    Simple Assign ["train_size"] [];
    Simple Assign ["rng"] [["np"; "random"; "RandomState"]];
    Simple Assign ["X"] [["rng"; "uniform"]];
    Simple Assign ["y"] [["np"; "array"]];
    Simple Assign ["gp_fix"] [["RBF"]; ["GaussianProcessClassifier"]];
    Simple Expr [] [["gp_fix"; "fit"]];
    Simple Assign ["gp_opt"] [["RBF"]; ["GaussianProcessClassifier"]];
    Simple Expr [] [["gp_opt"; "fit"]];
    Simple Expr [] [["gp_fix"; "log_marginal_likelihood"]; ["print"]];
    Simple Expr [] [["gp_opt"; "log_marginal_likelihood"]; ["print"]];
    Simple Expr [] [["gp_fix"; "predict"]; ["accuracy_score"]; ["gp_opt"; "predict"];
        ["accuracy_score"]; ["print"]];
    Simple Expr [] [["gp_fix"; "predict_proba"]; ["log_loss"]; ["gp_opt"; "predict_proba"];
        ["log_loss"]; ["print"]];
    Simple Expr [] [["plt"; "figure"]];
    Simple Expr [] [["plt"; "scatter"]];
    Simple Expr [] [["plt"; "scatter"]];
    Simple Assign ["X_"] [["np"; "linspace"]];
    Simple Expr [] [["gp_fix"; "predict_proba"]; ["plt"; "plot"]];
    Simple Expr [] [["gp_opt"; "predict_proba"]; ["plt"; "plot"]];
    Simple Expr [] [["plt"; "xlabel"]];
    Simple Expr [] [["plt"; "ylabel"]];
    Simple Expr [] [["plt"; "xlim"]];
    Simple Expr [] [["plt"; "ylim"]];
    Simple Expr [] [["plt"; "legend"]];
    Simple Expr [] [["plt"; "figure"]];
    Simple Assign ["theta0"] [["np"; "logspace"]];
    Simple Assign ["theta1"] [["np"; "logspace"]];
    Simple Assign ["Theta0"; "Theta1"] [["np"; "meshgrid"]];
    Simple Assign ["LML"; "j"; "i"] [["np"; "log"]; ["gp_opt"; "log_marginal_likelihood"];
        ["range"]; ["range"]];
    Simple Assign ["LML"] [["np"; "array"]];
    Simple Expr [] [["np"; "exp"]; ["np"; "exp"]; ["plt"; "plot"]];
    Simple Expr [] [["np"; "exp"]; ["np"; "exp"]; ["plt"; "plot"]];
    Simple Expr [] [["plt"; "pcolor"]];
    Simple Expr [] [["plt"; "xscale"]];
    Simple Expr [] [["plt"; "yscale"]];
    Simple Expr [] [["plt"; "colorbar"]];
    Simple Expr [] [["plt"; "xlabel"]];
    Simple Expr [] [["plt"; "ylabel"]];
    Simple Expr [] [["plt"; "title"]];
    Simple Expr [] [["plt"; "show"]]
  ]
|}.

Definition all_scaling : script := {|
  title := "Compare the effect of different scalers on data with outliers";
  source := "unnamed/part_005";
  position := 2;
  objects :=
    [("feature_names", Container);
     ("cmap", Canvas "matplotlib");
     ("fig", Canvas "matplotlib");
     ("ax", Canvas "matplotlib");
     ("hist_X1", Canvas "matplotlib");
     ("hist_X0", Canvas "matplotlib");
     ("y_full", NdArray)];
  loads :=
    ["fetch_california_housing"; "dataset"; "feature_names"; "feature"; "features"; "X_full";
     "features_idx"; "X"; "StandardScaler"; "MinMaxScaler"; "MaxAbsScaler"; "RobustScaler";
     "PowerTransformer"; "QuantileTransformer"; "Normalizer"; "minmax_scale"; "y_full";
     "getattr"; "cm"; "plt"; "figsize"; "fig"; "title"; "height"; "left"; "width"; "bottom";
     "bottom_h"; "left_h"; "rect_scatter"; "rect_histx"; "rect_histy"; "rect_colorbar";
     "ax_scatter"; "ax_histy"; "ax_histx"; "ax_scatter_zoom"; "ax_histy_zoom"; "ax_histx_zoom";
     "ax_colorbar"; "axes"; "ax"; "x0_label"; "x1_label"; "cmap"; "y"; "colors"; "hist_X1";
     "hist_nbins"; "hist_X0"; "distributions"; "item_idx"; "create_axes"; "ax_zoom_out";
     "ax_zoom_in"; "plot_distribution"; "axarr"; "feature_mapping"; "np";
     "zoom_in_percentile_range"; "cutoffs_X0"; "cutoffs_X1"; "non_outliers_mask"; "mpl"; "norm";
     "make_plot"];
  body := [
    Doc;
    Import "matplotlib" "mpl";
    Import "numpy" "np";
    FromImport "matplotlib" [("cm", "cm")];
    FromImport "matplotlib" [("pyplot", "plt")];
    FromImport "sklearn.datasets" [("fetch_california_housing", "fetch_california_housing")];
    FromImport "sklearn.preprocessing" [("MaxAbsScaler", "MaxAbsScaler"); ("MinMaxScaler",
        "MinMaxScaler"); ("Normalizer", "Normalizer"); ("PowerTransformer", "PowerTransformer");
        ("QuantileTransformer", "QuantileTransformer"); ("RobustScaler", "RobustScaler");
        ("StandardScaler", "StandardScaler"); ("minmax_scale", "minmax_scale")];
    Simple Assign ["dataset"] [["fetch_california_housing"]];
    Simple Assign ["X_full"; "y_full"] [];
    Simple Assign ["feature_names"] [];
    Simple Assign ["feature_mapping"] [];
    Simple Assign ["features"] [];
    Simple Assign ["features_idx"; "feature"] [["feature_names"; "index"]];
    Simple Assign ["X"] [];
    Simple Assign ["distributions"] [["StandardScaler"]; ["StandardScaler"; "()";
        "fit_transform"]; ["MinMaxScaler"]; ["MinMaxScaler"; "()"; "fit_transform"];
        ["MaxAbsScaler"]; ["MaxAbsScaler"; "()"; "fit_transform"]; ["RobustScaler"];
        ["RobustScaler"; "()"; "fit_transform"]; ["PowerTransformer"]; ["PowerTransformer"; "()";
        "fit_transform"]; ["PowerTransformer"]; ["PowerTransformer"; "()"; "fit_transform"];
        ["QuantileTransformer"]; ["QuantileTransformer"; "()"; "fit_transform"];
        ["QuantileTransformer"]; ["QuantileTransformer"; "()"; "fit_transform"]; ["Normalizer"];
        ["Normalizer"; "()"; "fit_transform"]];
    Simple Assign ["y"] [["minmax_scale"]];
    Simple Assign ["cmap"] [["getattr"]];
    Def "create_axes" ["title"; "figsize"] [] [
      Simple Assign ["fig"] [["plt"; "figure"]];
      Simple Expr [] [["fig"; "suptitle"]];
      Simple Assign ["left"; "width"] [];
      Simple Assign ["bottom"; "height"] [];
      Simple Assign ["bottom_h"] [];
      Simple Assign ["left_h"] [];
      Simple Assign ["rect_scatter"] [];
      Simple Assign ["rect_histx"] [];
      Simple Assign ["rect_histy"] [];
      Simple Assign ["ax_scatter"] [["plt"; "axes"]];
      Simple Assign ["ax_histx"] [["plt"; "axes"]];
      Simple Assign ["ax_histy"] [["plt"; "axes"]];
      Simple Assign ["left"] [];
      Simple Assign ["left_h"] [];
      Simple Assign ["rect_scatter"] [];
      Simple Assign ["rect_histx"] [];
      Simple Assign ["rect_histy"] [];
      Simple Assign ["ax_scatter_zoom"] [["plt"; "axes"]];
      Simple Assign ["ax_histx_zoom"] [["plt"; "axes"]];
      Simple Assign ["ax_histy_zoom"] [["plt"; "axes"]];
      Simple Assign ["left"; "width"] [];
      Simple Assign ["rect_colorbar"] [];
      Simple Assign ["ax_colorbar"] [["plt"; "axes"]];
      Simple Return [] []
    ];
    Def "plot_distribution" ["axes"; "X"; "y"; "hist_nbins"; "title"; "x0_label"; "x1_label"] [] [
      Simple Assign ["ax"; "hist_X1"; "hist_X0"] [];
      Simple Expr [] [["ax"; "set_title"]];
      Simple Expr [] [["ax"; "set_xlabel"]];
      Simple Expr [] [["ax"; "set_ylabel"]];
      Simple Assign ["colors"] [["cmap"]];
      Simple Expr [] [["ax"; "scatter"]];
      Simple Expr [] [["ax"; "spines"; "[]"; "set_visible"]];
      Simple Expr [] [["ax"; "spines"; "[]"; "set_visible"]];
      Simple Expr [] [["ax"; "get_xaxis"]; ["ax"; "get_xaxis"; "()"; "tick_bottom"]];
      Simple Expr [] [["ax"; "get_yaxis"]; ["ax"; "get_yaxis"; "()"; "tick_left"]];
      Simple Expr [] [["ax"; "spines"; "[]"; "set_position"]];
      Simple Expr [] [["ax"; "spines"; "[]"; "set_position"]];
      Simple Expr [] [["ax"; "get_ylim"]; ["hist_X1"; "set_ylim"]];
      Simple Expr [] [["hist_X1"; "hist"]];
      Simple Expr [] [["hist_X1"; "axis"]];
      Simple Expr [] [["ax"; "get_xlim"]; ["hist_X0"; "set_xlim"]];
      Simple Expr [] [["hist_X0"; "hist"]];
      Simple Expr [] [["hist_X0"; "axis"]]
    ];
    Def "make_plot" ["item_idx"] [] [
      Simple Assign ["title"; "X"] [];
      Simple Assign ["ax_zoom_out"; "ax_zoom_in"; "ax_colorbar"] [["create_axes"]];
      Simple Assign ["axarr"] [];
      Simple Expr [] [["plot_distribution"]];
      Simple Assign ["zoom_in_percentile_range"] [];
      Simple Assign ["cutoffs_X0"] [["np"; "percentile"]];
      Simple Assign ["cutoffs_X1"] [["np"; "percentile"]];
      Simple Assign ["non_outliers_mask"] [["np"; "all"]; ["np"; "all"]];
      Simple Expr [] [["plot_distribution"]];
      Simple Assign ["norm"] [["y_full"; "min"]; ["y_full"; "max"]; ["mpl"; "colors"; "Normalize"]];
      Simple Expr [] [["mpl"; "colorbar"; "ColorbarBase"]]
    ];
    Simple Expr [] [["make_plot"]];
    Simple Expr [] [["make_plot"]];
    Simple Expr [] [["make_plot"]];
    Simple Expr [] [["make_plot"]];
    Simple Expr [] [["make_plot"]];
    Simple Expr [] [["make_plot"]];
    Simple Expr [] [["make_plot"]];
    Simple Expr [] [["make_plot"]];
    Simple Expr [] [["make_plot"]];
    Simple Expr [] [["make_plot"]];
    Simple Expr [] [["plt"; "show"]]
  ]
|}.

Definition plot_mahalanobis_distances : script := {|
  title := "Robust covariance estimation and Mahalanobis distances relevance";
  source := "covariance/plot_mahalanobis_distances.ipynb";
  position := 0;
  objects :=
    [("robust_cov", Estimator ["sklearn.covariance.MinCovDet"]);
     ("emp_cov", Estimator ["sklearn.covariance.EmpiricalCovariance"]);
     ("ax", Canvas "matplotlib");
     ("xx", NdArray);
     ("yy", NdArray);
     ("mahal_emp_cov", NdArray);
     ("mahal_robust_cov", NdArray);
     ("ax1", Canvas "matplotlib");
     ("ax2", Canvas "matplotlib")];
  loads :=
    ["np"; "n_features"; "gen_cov"; "n_samples"; "outliers_cov"; "X"; "n_outliers";
     "MinCovDet"; "EmpiricalCovariance"; "print"; "robust_cov"; "emp_cov"; "plt"; "ax"; "xx";
     "yy"; "zz"; "mahal_emp_cov"; "mahal_robust_cov"; "mlines"; "inlier_plot"; "outlier_plot";
     "ax1"; "emp_mahal"; "ax2"; "robust_mahal"];
  body := [
    Doc;
    Import "numpy" "np";
    Simple Expr [] [["np"; "random"; "seed"]];
    Simple Assign ["n_samples"] [];
    Simple Assign ["n_outliers"] [];
    Simple Assign ["n_features"] [];
    Simple Assign ["gen_cov"] [["np"; "eye"]];
    Simple Assign [] [];
    Simple Assign ["X"] [["np"; "random"; "randn"]; ["np"; "dot"]];
    Simple Assign ["outliers_cov"] [["np"; "eye"]];
    Simple Assign [] [["np"; "arange"]; ["np"; "arange"]];
    Simple Assign [] [["np"; "random"; "randn"]; ["np"; "dot"]];
    Import "matplotlib.pyplot" "plt";
    FromImport "sklearn.covariance" [("EmpiricalCovariance", "EmpiricalCovariance");
        ("MinCovDet", "MinCovDet")];
    Simple Assign ["robust_cov"] [["MinCovDet"]; ["MinCovDet"; "()"; "fit"]];
    Simple Assign ["emp_cov"] [["EmpiricalCovariance"]; ["EmpiricalCovariance"; "()"; "fit"]];
    Simple Expr [] [["<str>"; "format"]; ["print"]];
    Import "matplotlib.lines" "mlines";
    Simple Assign ["fig"; "ax"] [["plt"; "subplots"]];
    Simple Assign ["inlier_plot"] [["ax"; "scatter"]];
    Simple Assign ["outlier_plot"] [["ax"; "scatter"]];
    Simple Expr [] [["ax"; "get_xlim"]; ["ax"; "set_xlim"]];
    Simple Expr [] [["ax"; "set_title"]];
    Simple Assign ["xx"; "yy"] [["plt"; "xlim"]; ["plt"; "xlim"]; ["np"; "linspace"]; ["plt";
        "ylim"]; ["plt"; "ylim"]; ["np"; "linspace"]; ["np"; "meshgrid"]];
    Simple Assign ["zz"] [["xx"; "ravel"]; ["yy"; "ravel"]];
    Simple Assign ["mahal_emp_cov"] [["emp_cov"; "mahalanobis"]];
    Simple Assign ["mahal_emp_cov"] [["mahal_emp_cov"; "reshape"]];
    Simple Assign ["emp_cov_contour"] [["np"; "sqrt"]; ["plt"; "contour"]];
    Simple Assign ["mahal_robust_cov"] [["robust_cov"; "mahalanobis"]];
    Simple Assign ["mahal_robust_cov"] [["mahal_robust_cov"; "reshape"]];
    Simple Assign ["robust_contour"] [["np"; "sqrt"]; ["ax"; "contour"]];
    Simple Expr [] [["mlines"; "Line2D"]; ["mlines"; "Line2D"]; ["ax"; "legend"]];
    Simple Expr [] [["plt"; "show"]];
    Simple Assign ["fig"; "ax1"; "ax2"] [["plt"; "subplots"]];
    Simple Expr [] [["plt"; "subplots_adjust"]];
    Simple Assign ["emp_mahal"] [["np"; "mean"]; ["emp_cov"; "mahalanobis"]];
    Simple Expr [] [["ax1"; "boxplot"]];
    Simple Expr [] [["np"; "full"]; ["ax1"; "plot"]];
    Simple Expr [] [["np"; "full"]; ["ax1"; "plot"]];
    Simple Expr [] [["ax1"; "axes"; "set_xticklabels"]];
    Simple Expr [] [["ax1"; "set_ylabel"]];
    Simple Expr [] [["ax1"; "set_title"]];
    Simple Assign ["robust_mahal"] [["robust_cov"; "mahalanobis"]];
    Simple Expr [] [["ax2"; "boxplot"]];
    Simple Expr [] [["np"; "full"]; ["ax2"; "plot"]];
    Simple Expr [] [["np"; "full"]; ["ax2"; "plot"]];
    Simple Expr [] [["ax2"; "axes"; "set_xticklabels"]];
    Simple Expr [] [["ax2"; "set_ylabel"]];
    Simple Expr [] [["ax2"; "set_title"]];
    Simple Expr [] [["plt"; "show"]]
  ]
|}.

Definition sgd_early_stopping : script := {|
  title := "Early stopping of Stochastic Gradient Descent";
  source := "covariance/plot_mahalanobis_distances.ipynb";
  position := 1;
  objects :=
    [("estimator", Estimator ["sklearn.linear_model.SGDClassifier"]);
     ("estimator_dict", Container);
     ("results", Container);
     ("results_df", Frame "pandas");
     ("group_df", Frame "pandas");
     ("ax", Canvas "matplotlib");
     ("fig", Canvas "matplotlib")];
  loads :=
    ["fetch_openml"; "np"; "mnist"; "class_0"; "class_1"; "shuffle"; "mask"; "n_samples"; "X";
     "y"; "ignore_warnings"; "ConvergenceWarning"; "estimator"; "max_iter"; "time"; "X_train";
     "y_train"; "start"; "X_test"; "y_test"; "fit_time"; "n_iter"; "train_score"; "test_score";
     "linear_model"; "load_mnist"; "train_test_split"; "estimator_dict"; "print";
     "estimator_name"; "range"; "sys"; "fit_and_score"; "results"; "pd"; "columns"; "plt";
     "zip"; "axes"; "styles"; "results_df"; "lines"; "group_df"; "x_axis"; "y_axis";
     "criterion"; "ax"; "style"; "fig"];
  body := [
    Doc;
    Import "sys" "sys";
    Import "time" "time";
    Import "matplotlib.pyplot" "plt";
    Import "numpy" "np";
    Import "pandas" "pd";
    FromImport "sklearn" [("linear_model", "linear_model")];
    FromImport "sklearn.datasets" [("fetch_openml", "fetch_openml")];
    FromImport "sklearn.exceptions" [("ConvergenceWarning", "ConvergenceWarning")];
    FromImport "sklearn.model_selection" [("train_test_split", "train_test_split")];
    FromImport "sklearn.utils" [("shuffle", "shuffle")];
    FromImport "sklearn.utils._testing" [("ignore_warnings", "ignore_warnings")];
    Def "load_mnist" ["n_samples"; "class_0"; "class_1"] [] [
      Doc;
      Simple Assign ["mnist"] [["fetch_openml"]];
      Simple Assign ["mask"] [["np"; "logical_or"]];
      Simple Assign ["X"; "y"] [["shuffle"]];
      If (IsNotNone ["n_samples"]) [] [
        Simple Assign ["X"; "y"] []
      ] [];
      Simple Return [] []
    ];
    Def "fit_and_score" ["estimator"; "max_iter"; "X_train"; "X_test"; "y_train"; "y_test"]
        [["ignore_warnings"]] [
      Doc;
      Simple Expr [] [["estimator"; "set_params"]];
      Simple Expr [] [["estimator"; "set_params"]];
      Simple Assign ["start"] [["time"; "time"]];
      Simple Expr [] [["estimator"; "fit"]];
      Simple Assign ["fit_time"] [["time"; "time"]];
      Simple Assign ["n_iter"] [];
      Simple Assign ["train_score"] [["estimator"; "score"]];
      Simple Assign ["test_score"] [["estimator"; "score"]];
      Simple Return [] []
    ];
    Simple Assign ["estimator_dict"] [["linear_model"; "SGDClassifier"]; ["linear_model";
        "SGDClassifier"]; ["linear_model"; "SGDClassifier"]];
    Simple Assign ["X"; "y"] [["load_mnist"]];
    Simple Assign ["X_train"; "X_test"; "y_train"; "y_test"] [["train_test_split"]];
    Simple Assign ["results"] [];
    For ["estimator_name"; "estimator"] [["estimator_dict"; "items"]] [
      Simple Expr [] [["print"]];
      For ["max_iter"] [["range"]] [
        Simple Expr [] [["print"]];
        Simple Expr [] [["sys"; "stdout"; "flush"]];
        Simple Assign ["fit_time"; "n_iter"; "train_score"; "test_score"] [["fit_and_score"]];
        Simple Expr [] [["results"; "append"]]
      ];
      Simple Expr [] [["print"]]
    ];
    Simple Assign ["columns"] [];
    Simple Assign ["results_df"] [["pd"; "DataFrame"]];
    Simple Assign ["lines"] [];
    Simple Assign ["x_axis"] [];
    Simple Assign ["styles"] [];
    Simple Assign ["fig"; "axes"] [["plt"; "subplots"]];
    For ["ax"; "y_axis"] [["zip"]] [
      For ["style"; "criterion"; "group_df"] [["results_df"; "groupby"]; ["zip"]] [
        Simple Expr [] [["group_df"; "plot"]]
      ];
      Simple Expr [] [["ax"; "set_title"]];
      Simple Expr [] [["ax"; "legend"]]
    ];
    Simple Expr [] [["fig"; "tight_layout"]];
    Simple Assign ["fig"; "axes"] [["plt"; "subplots"]];
    For ["ax"; "y_axis"] [["zip"]] [
      For ["style"; "criterion"; "group_df"] [["results_df"; "groupby"]; ["zip"]] [
        Simple Expr [] [["group_df"; "plot"]]
      ];
      Simple Expr [] [["ax"; "set_title"]];
      Simple Expr [] [["ax"; "legend"]]
    ];
    Simple Expr [] [["fig"; "tight_layout"]];
    Simple Expr [] [["plt"; "show"]]
  ]
|}.

Definition plot_forest_hist_grad_boosting_comparison : script := {|
  title := "Comparing Random Forests and Histogram Gradient Boosting models";
  source := "ensemble/plot_forest_hist_grad_boosting_comparison.ipynb";
  position := 0;
  objects :=
    [("models", Container);
     ("param_grids", Container);
     ("results", Container);
     ("result", Frame "pandas");
     ("fig", Canvas "plotly");
     ("scatter_trace", Canvas "plotly");
     ("line_trace", Canvas "plotly")];
  loads :=
    ["fetch_california_housing"; "X"; "print"; "n_samples"; "n_features"; "joblib"; "N_CORES";
     "RandomForestRegressor"; "HistGradientBoostingRegressor"; "KFold"; "models";
     "GridSearchCV"; "model"; "param_grids"; "name"; "cv"; "y"; "pd"; "grid_search"; "results";
     "result"; "make_subplots"; "colors"; "len"; "model_names"; "enumerate"; "list";
     "model_name"; "cv_results"; "param_name"; "px"; "scatter_fig"; "line_fig"; "scatter_trace";
     "dict"; "colors_list"; "idx"; "line_trace"; "fig"];
  body := [
    Doc;
    FromImport "sklearn.datasets" [("fetch_california_housing", "fetch_california_housing")];
    Simple Assign ["X"; "y"] [["fetch_california_housing"]];
    Simple Assign ["n_samples"; "n_features"] [];
    Simple Expr [] [["print"]];
    Import "joblib" "joblib";
    Simple Assign ["N_CORES"] [["joblib"; "cpu_count"]];
    Simple Expr [] [["print"]];
    Import "pandas" "pd";
    FromImport "sklearn.ensemble" [("HistGradientBoostingRegressor",
        "HistGradientBoostingRegressor"); ("RandomForestRegressor", "RandomForestRegressor")];
    FromImport "sklearn.model_selection" [("GridSearchCV", "GridSearchCV"); ("KFold", "KFold")];
    Simple Assign ["models"] [["RandomForestRegressor"]; ["HistGradientBoostingRegressor"]];
    Simple Assign ["param_grids"] [];
    Simple Assign ["cv"] [["KFold"]];
    Simple Assign ["results"] [];
    For ["name"; "model"] [["models"; "items"]] [
      Simple Assign ["grid_search"] [["GridSearchCV"]; ["GridSearchCV"; "()"; "fit"]];
      Simple Assign ["result"] [["pd"; "DataFrame"]];
      Simple Expr [] [["results"; "append"]]
    ];
    Import "plotly.colors" "colors";
    Import "plotly.express" "px";
    FromImport "plotly.subplots" [("make_subplots", "make_subplots")];
    Simple Assign ["fig"] [["make_subplots"]];
    Simple Assign ["model_names"; "result"] [];
    Simple Assign ["colors_list"] [["len"]; ["len"]];
    For ["idx"; "result"] [["enumerate"]] [
      Simple Assign ["cv_results"] [["result"; "[]"; "round"]];
      Simple Assign ["model_name"] [];
      Simple Assign ["param_name"] [["param_grids"; "[]"; "keys"]; ["list"]];
      Simple Assign [] [];
      Simple Assign [] [];
      Simple Assign ["scatter_fig"] [["px"; "scatter"]];
      Simple Assign ["line_fig"] [["px"; "line"]];
      Simple Assign ["scatter_trace"] [];
      Simple Assign ["line_trace"] [];
      Simple Expr [] [["dict"]; ["scatter_trace"; "update"]];
      Simple Expr [] [["dict"]; ["line_trace"; "update"]];
      Simple Expr [] [["fig"; "add_trace"]];
      Simple Expr [] [["fig"; "add_trace"]];
      Simple Assign ["scatter_fig"] [["px"; "scatter"]];
      Simple Assign ["line_fig"] [["px"; "line"]];
      Simple Assign ["scatter_trace"] [];
      Simple Assign ["line_trace"] [];
      Simple Expr [] [["dict"]; ["scatter_trace"; "update"]];
      Simple Expr [] [["dict"]; ["line_trace"; "update"]];
      Simple Expr [] [["fig"; "add_trace"]];
      Simple Expr [] [["fig"; "add_trace"]]
    ];
    Simple Expr [] [["dict"]; ["dict"]; ["dict"]; ["dict"]; ["dict"]; ["fig"; "update_layout"]]
  ]
|}.

Definition plot_multioutput_face_completion : script := {|
  title := "Face completion with a multi-output estimators";
  source := "miscellaneous/plot_multioutput_face_completion.ipynb";
  position := 0;
  objects :=
    [("rng", Rng);
     ("ESTIMATORS", Container);
     ("estimator", Estimator ["sklearn.ensemble.ExtraTreesRegressor"; "sklearn.neighbors.KNeighborsRegressor"; "sklearn.linear_model.LinearRegression"; "sklearn.linear_model.RidgeCV"]);
     ("true_face", NdArray);
     ("completed_face", NdArray);
     ("sub", Canvas "matplotlib")];
  loads :=
    ["fetch_olivetti_faces"; "data"; "targets"; "check_random_state"; "rng"; "test"; "n_faces";
     "face_ids"; "train"; "n_pixels"; "ExtraTreesRegressor"; "KNeighborsRegressor";
     "LinearRegression"; "RidgeCV"; "dict"; "ESTIMATORS"; "estimator"; "X_train"; "y_train";
     "y_test_predict"; "name"; "X_test"; "len"; "plt"; "n_cols"; "range"; "np"; "i"; "y_test";
     "sub"; "true_face"; "image_shape"; "enumerate"; "sorted"; "est"; "j"; "completed_face"];
  body := [
    Doc;
    Import "matplotlib.pyplot" "plt";
    Import "numpy" "np";
    FromImport "sklearn.datasets" [("fetch_olivetti_faces", "fetch_olivetti_faces")];
    FromImport "sklearn.ensemble" [("ExtraTreesRegressor", "ExtraTreesRegressor")];
    FromImport "sklearn.linear_model" [("LinearRegression", "LinearRegression"); ("RidgeCV",
        "RidgeCV")];
    FromImport "sklearn.neighbors" [("KNeighborsRegressor", "KNeighborsRegressor")];
    FromImport "sklearn.utils.validation" [("check_random_state", "check_random_state")];
    Simple Assign ["data"; "targets"] [["fetch_olivetti_faces"]];
    Simple Assign ["train"] [];
    Simple Assign ["test"] [];
    Simple Assign ["n_faces"] [];
    Simple Assign ["rng"] [["check_random_state"]];
    Simple Assign ["face_ids"] [["rng"; "randint"]];
    Simple Assign ["test"] [];
    Simple Assign ["n_pixels"] [];
    Simple Assign ["X_train"] [];
    Simple Assign ["y_train"] [];
    Simple Assign ["X_test"] [];
    Simple Assign ["y_test"] [];
    Simple Assign ["ESTIMATORS"] [["ExtraTreesRegressor"]; ["KNeighborsRegressor"];
        ["LinearRegression"]; ["RidgeCV"]];
    Simple Assign ["y_test_predict"] [["dict"]];
    For ["name"; "estimator"] [["ESTIMATORS"; "items"]] [
      Simple Expr [] [["estimator"; "fit"]];
      Simple Assign [] [["estimator"; "predict"]]
    ];
    Simple Assign ["image_shape"] [];
    Simple Assign ["n_cols"] [["len"]];
    Simple Expr [] [["plt"; "figure"]];
    Simple Expr [] [["plt"; "suptitle"]];
    For ["i"] [["range"]] [
      Simple Assign ["true_face"] [["np"; "hstack"]];
      If (Truthy ["i"]) [] [
        Simple Assign ["sub"] [["plt"; "subplot"]]
      ] [
        Simple Assign ["sub"] [["plt"; "subplot"]]
      ];
      Simple Expr [] [["sub"; "axis"]];
      Simple Expr [] [["true_face"; "reshape"]; ["sub"; "imshow"]];
      For ["j"; "est"] [["sorted"]; ["enumerate"]] [
        Simple Assign ["completed_face"] [["np"; "hstack"]];
        If (Truthy ["i"]) [] [
          Simple Assign ["sub"] [["plt"; "subplot"]]
        ] [
          Simple Assign ["sub"] [["plt"; "subplot"]]
        ];
        Simple Expr [] [["sub"; "axis"]];
        Simple Expr [] [["completed_face"; "reshape"]; ["sub"; "imshow"]]
      ]
    ];
    Simple Expr [] [["plt"; "show"]]
  ]
|}.

Definition partial_dependence : script := {|
  title := "Advanced Plotting With Partial Dependence";
  source := "miscellaneous/plot_multioutput_face_completion.ipynb";
  position := 1;
  objects :=
    [("tree", Estimator ["sklearn.tree.DecisionTreeRegressor"]);
     ("mlp", Estimator ["sklearn.pipeline.Pipeline"]);
     ("ax", Canvas "matplotlib");
     ("ax1", Canvas "matplotlib");
     ("ax2", Canvas "matplotlib");
     ("tree_disp", Display);
     ("mlp_disp", Display)];
  loads :=
    ["load_diabetes"; "pd"; "diabetes"; "DecisionTreeRegressor"; "make_pipeline";
     "StandardScaler"; "MLPRegressor"; "tree"; "X"; "y"; "mlp"; "plt"; "ax";
     "PartialDependenceDisplay"; "tree_disp"; "ax1"; "mlp_disp"; "ax2"];
  body := [
    Doc;
    Import "matplotlib.pyplot" "plt";
    Import "pandas" "pd";
    FromImport "sklearn.datasets" [("load_diabetes", "load_diabetes")];
    FromImport "sklearn.inspection" [("PartialDependenceDisplay", "PartialDependenceDisplay")];
    FromImport "sklearn.neural_network" [("MLPRegressor", "MLPRegressor")];
    FromImport "sklearn.pipeline" [("make_pipeline", "make_pipeline")];
    FromImport "sklearn.preprocessing" [("StandardScaler", "StandardScaler")];
    FromImport "sklearn.tree" [("DecisionTreeRegressor", "DecisionTreeRegressor")];
    Simple Assign ["diabetes"] [["load_diabetes"]];
    Simple Assign ["X"] [["pd"; "DataFrame"]];
    Simple Assign ["y"] [];
    Simple Assign ["tree"] [["DecisionTreeRegressor"]];
    Simple Assign ["mlp"] [["StandardScaler"]; ["MLPRegressor"]; ["make_pipeline"]];
    Simple Expr [] [["tree"; "fit"]];
    Simple Expr [] [["mlp"; "fit"]];
    Simple Assign ["fig"; "ax"] [["plt"; "subplots"]];
    Simple Expr [] [["ax"; "set_title"]];
    Simple Assign ["tree_disp"] [["PartialDependenceDisplay"; "from_estimator"]];
    Simple Assign ["fig"; "ax"] [["plt"; "subplots"]];
    Simple Expr [] [["ax"; "set_title"]];
    Simple Assign ["mlp_disp"] [["PartialDependenceDisplay"; "from_estimator"]];
    Simple Assign ["fig"; "ax1"; "ax2"] [["plt"; "subplots"]];
    Simple Expr [] [["tree_disp"; "plot"]];
    Simple Expr [] [["ax1"; "set_title"]];
    Simple Expr [] [["mlp_disp"; "plot"]];
    Simple Expr [] [["ax2"; "set_title"]];
    Simple Assign ["fig"; "ax1"; "ax2"] [["plt"; "subplots"]];
    Simple Expr [] [["tree_disp"; "plot"]];
    Simple Expr [] [["mlp_disp"; "plot"]];
    Simple Expr [] [["ax1"; "legend"]];
    Simple Expr [] [["ax2"; "legend"]];
    Simple Expr [] [["tree_disp"; "plot"]];
    Simple Expr [] [["mlp_disp"; "plot"]];
    Simple Expr [] [["tree_disp"; "figure_"; "set_size_inches"]];
    Simple Expr [] [["tree_disp"; "axes_"; "[]"; "legend"]];
    Simple Expr [] [["tree_disp"; "axes_"; "[]"; "legend"]];
    Simple Expr [] [["plt"; "show"]];
    Simple Assign ["tree_disp"] [["PartialDependenceDisplay"; "from_estimator"]];
    Simple Assign ["mlp_disp"] [["PartialDependenceDisplay"; "from_estimator"]]
  ]
|}.

Definition plot_gmm_covariances : script := {|
  title := "GMM covariances";
  source := "mixture/plot_gmm_covariances.ipynb";
  position := 0;
  objects :=
    [("ell", Canvas "matplotlib");
     ("ax", Canvas "matplotlib");
     ("skf", Splitter);
     ("estimators", Container);
     ("estimator", Estimator ["sklearn.mixture.GaussianMixture"]);
     ("X_train", NdArray);
     ("y_train", NdArray);
     ("y_test", NdArray);
     ("y_train_pred", NdArray);
     ("y_test_pred", NdArray)];
  loads :=
    ["enumerate"; "colors"; "gmm"; "n"; "np"; "covariances"; "w"; "u"; "angle"; "v"; "mpl";
     "color"; "ell"; "ax"; "datasets"; "StratifiedKFold"; "next"; "iter"; "skf"; "iris";
     "train_index"; "test_index"; "len"; "y_train"; "cov_type"; "GaussianMixture"; "n_classes";
     "estimators"; "plt"; "n_estimators"; "estimator"; "X_train"; "i"; "range"; "index";
     "make_ellipses"; "h"; "data"; "X_test"; "y_test"; "y_train_pred"; "train_accuracy";
     "y_test_pred"; "test_accuracy"; "name"; "dict"];
  body := [
    Doc;
    Import "matplotlib" "mpl";
    Import "matplotlib.pyplot" "plt";
    Import "numpy" "np";
    FromImport "sklearn" [("datasets", "datasets")];
    FromImport "sklearn.mixture" [("GaussianMixture", "GaussianMixture")];
    FromImport "sklearn.model_selection" [("StratifiedKFold", "StratifiedKFold")];
    Simple Assign ["colors"] [];
    Def "make_ellipses" ["gmm"; "ax"] [] [
      For ["n"; "color"] [["enumerate"]] [
        If (Equals ["gmm"; "covariance_type"] "full") [] [
          Simple Assign ["covariances"] []
        ] [
          If (Equals ["gmm"; "covariance_type"] "tied") [] [
            Simple Assign ["covariances"] []
          ] [
            If (Equals ["gmm"; "covariance_type"] "diag") [] [
              Simple Assign ["covariances"] [["np"; "diag"]]
            ] [
              If (Equals ["gmm"; "covariance_type"] "spherical") [] [
                Simple Assign ["covariances"] [["np"; "eye"]]
              ] []
            ]
          ]
        ];
        Simple Assign ["v"; "w"] [["np"; "linalg"; "eigh"]];
        Simple Assign ["u"] [["np"; "linalg"; "norm"]];
        Simple Assign ["angle"] [["np"; "arctan2"]];
        Simple Assign ["angle"] [];
        Simple Assign ["v"] [["np"; "sqrt"]; ["np"; "sqrt"]];
        Simple Assign ["ell"] [["mpl"; "patches"; "Ellipse"]];
        Simple Expr [] [["ell"; "set_clip_box"]];
        Simple Expr [] [["ell"; "set_alpha"]];
        Simple Expr [] [["ax"; "add_artist"]];
        Simple Expr [] [["ax"; "set_aspect"]]
      ]
    ];
    Simple Assign ["iris"] [["datasets"; "load_iris"]];
    Simple Assign ["skf"] [["StratifiedKFold"]];
    Simple Assign ["train_index"; "test_index"] [["skf"; "split"]; ["iter"]; ["next"]];
    Simple Assign ["X_train"] [];
    Simple Assign ["y_train"] [];
    Simple Assign ["X_test"] [];
    Simple Assign ["y_test"] [];
    Simple Assign ["n_classes"] [["np"; "unique"]; ["len"]];
    Simple Assign ["estimators"; "cov_type"] [["GaussianMixture"]];
    Simple Assign ["n_estimators"] [["len"]];
    Simple Expr [] [["plt"; "figure"]];
    Simple Expr [] [["plt"; "subplots_adjust"]];
    For ["index"; "name"; "estimator"] [["estimators"; "items"]; ["enumerate"]] [
      Simple Assign ["i"] [["X_train"; "[]"; "mean"]; ["range"]; ["np"; "array"]];
      Simple Expr [] [["estimator"; "fit"]];
      Simple Assign ["h"] [["plt"; "subplot"]];
      Simple Expr [] [["make_ellipses"]];
      For ["n"; "color"] [["enumerate"]] [
        Simple Assign ["data"] [];
        Simple Expr [] [["plt"; "scatter"]]
      ];
      For ["n"; "color"] [["enumerate"]] [
        Simple Assign ["data"] [];
        Simple Expr [] [["plt"; "scatter"]]
      ];
      Simple Assign ["y_train_pred"] [["estimator"; "predict"]];
      Simple Assign ["train_accuracy"] [["y_train_pred"; "ravel"]; ["y_train"; "ravel"]; ["np";
          "mean"]];
      Simple Expr [] [["plt"; "text"]];
      Simple Assign ["y_test_pred"] [["estimator"; "predict"]];
      Simple Assign ["test_accuracy"] [["y_test_pred"; "ravel"]; ["y_test"; "ravel"]; ["np";
          "mean"]];
      Simple Expr [] [["plt"; "text"]];
      Simple Expr [] [["plt"; "xticks"]];
      Simple Expr [] [["plt"; "yticks"]];
      Simple Expr [] [["plt"; "title"]]
    ];
    Simple Expr [] [["dict"]; ["plt"; "legend"]];
    Simple Expr [] [["plt"; "show"]]
  ]
|}.

Definition plot_roc_crossval : script := {|
  title := "Receiver Operating Characteristic (ROC) with cross validation";
  source := "model_selection/plot_roc_crossval.ipynb";
  position := 0;
  objects :=
    [("random_state", Rng);
     ("cv", Splitter);
     ("classifier", Estimator ["sklearn.svm.SVC"]);
     ("tprs", Container);
     ("aucs", Container);
     ("ax", Canvas "matplotlib")];
  loads :=
    ["load_iris"; "iris"; "X"; "y"; "np"; "random_state"; "n_samples"; "n_features";
     "StratifiedKFold"; "n_splits"; "svm"; "plt"; "enumerate"; "cv"; "classifier"; "train";
     "RocCurveDisplay"; "test"; "fold"; "ax"; "mean_fpr"; "viz"; "interp_tpr"; "tprs"; "aucs";
     "mean_tpr"; "auc"; "mean_auc"; "std_auc"; "std_tpr"; "tprs_lower"; "tprs_upper";
     "target_names"];
  body := [
    Doc;
    Import "numpy" "np";
    FromImport "sklearn.datasets" [("load_iris", "load_iris")];
    Simple Assign ["iris"] [["load_iris"]];
    Simple Assign ["target_names"] [];
    Simple Assign ["X"; "y"] [];
    Simple Assign ["X"; "y"] [];
    Simple Assign ["n_samples"; "n_features"] [];
    Simple Assign ["random_state"] [["np"; "random"; "RandomState"]];
    Simple Assign ["X"] [["random_state"; "randn"]; ["np"; "concatenate"]];
    Import "matplotlib.pyplot" "plt";
    FromImport "sklearn" [("svm", "svm")];
    FromImport "sklearn.metrics" [("RocCurveDisplay", "RocCurveDisplay"); ("auc", "auc")];
    FromImport "sklearn.model_selection" [("StratifiedKFold", "StratifiedKFold")];
    Simple Assign ["n_splits"] [];
    Simple Assign ["cv"] [["StratifiedKFold"]];
    Simple Assign ["classifier"] [["svm"; "SVC"]];
    Simple Assign ["tprs"] [];
    Simple Assign ["aucs"] [];
    Simple Assign ["mean_fpr"] [["np"; "linspace"]];
    Simple Assign ["fig"; "ax"] [["plt"; "subplots"]];
    For ["fold"; "train"; "test"] [["cv"; "split"]; ["enumerate"]] [
      Simple Expr [] [["classifier"; "fit"]];
      Simple Assign ["viz"] [["RocCurveDisplay"; "from_estimator"]];
      Simple Assign ["interp_tpr"] [["np"; "interp"]];
      Simple Assign [] [];
      Simple Expr [] [["tprs"; "append"]];
      Simple Expr [] [["aucs"; "append"]]
    ];
    Simple Assign ["mean_tpr"] [["np"; "mean"]];
    Simple Assign [] [];
    Simple Assign ["mean_auc"] [["auc"]];
    Simple Assign ["std_auc"] [["np"; "std"]];
    Simple Expr [] [["ax"; "plot"]];
    Simple Assign ["std_tpr"] [["np"; "std"]];
    Simple Assign ["tprs_upper"] [["np"; "minimum"]];
    Simple Assign ["tprs_lower"] [["np"; "maximum"]];
    Simple Expr [] [["ax"; "fill_between"]];
    Simple Expr [] [["ax"; "set"]];
    Simple Expr [] [["ax"; "legend"]];
    Simple Expr [] [["plt"; "show"]]
  ]
|}.

Definition gallery : list script :=
  [svm_iris; learning_curves; precision_recall; tsne_perplexity;
   image_denoising; gpr_co2; gpc_probabilities; all_scaling;
   plot_mahalanobis_distances; sgd_early_stopping;
   plot_forest_hist_grad_boosting_comparison; plot_multioutput_face_completion;
   partial_dependence; plot_gmm_covariances; plot_roc_crossval].
(** *** The description of the gallery, as predicates on a script *)






(** The last two statements are a plotting call and then an inspection. *)
Definition ends_in_plot_then_inspection (s : script) : bool :=
  match rev (body s) with
  | st :: before :: _ => is_inspection st && is_plot_call s before
  | _ => false
  end.

(** Directories and files of the repository, as module names. *)
Definition repository_names : list string :=
  ["covariance"; "ensemble"; "miscellaneous"; "mixture"; "model_selection";
   "unnamed"; "plot_mahalanobis_distances";
   "plot_forest_hist_grad_boosting_comparison";
   "plot_multioutput_face_completion"; "plot_gmm_covariances";
   "plot_roc_crossval"; "part_000"; "part_001"; "part_002"; "part_003";
   "part_004"; "part_005"].

(** The estimator families the description lists, each with the classes of
    the library that belong to it among those the scripts use. *)
Definition families : list (string * list string) :=
  [("support-vector classifiers",
    ["sklearn.svm.SVC"; "sklearn.svm.LinearSVC"]);
   ("ensemble trees",
    ["sklearn.ensemble.ExtraTreesRegressor";
     "sklearn.ensemble.RandomForestRegressor";
     "sklearn.ensemble.HistGradientBoostingRegressor"]);
   ("Gaussian processes",
    ["sklearn.gaussian_process.GaussianProcessRegressor";
     "sklearn.gaussian_process.GaussianProcessClassifier"]);
   ("covariance estimators",
    ["sklearn.covariance.MinCovDet"; "sklearn.covariance.EmpiricalCovariance"]);
   ("manifold learning (t-SNE)", ["sklearn.manifold.TSNE"]);
   ("dictionary learning",
    ["sklearn.decomposition.MiniBatchDictionaryLearning"]);
   ("scalers/transformers",
    ["sklearn.preprocessing.StandardScaler";
     "sklearn.preprocessing.MinMaxScaler";
     "sklearn.preprocessing.MaxAbsScaler";
     "sklearn.preprocessing.RobustScaler";
     "sklearn.preprocessing.PowerTransformer";
     "sklearn.preprocessing.QuantileTransformer";
     "sklearn.preprocessing.Normalizer"]);
   ("Gaussian mixture models", ["sklearn.mixture.GaussianMixture"])].

(** A script that constructs and fits an estimator of one of the classes. *)
Definition demonstrates (s : script) (classes : list string) : bool :=
  existsb (fun cls => constructs s cls && fits s cls) classes.

(** A class noted for a variable is one the script builds: by name, or, for
    a pipeline, through [make_pipeline]. *)
Definition built_in (s : script) (cls : string) : bool :=
  constructs s cls ||
  (String.eqb cls "sklearn.pipeline.Pipeline" &&
   existsb (fun c => match qualified s c with
                     | Some q => String.eqb q "sklearn.pipeline.make_pipeline"
                     | None => false
                     end) (calls s)).

Definition noted_estimators (s : script) : list string :=
  flat_map (fun vo => match snd vo with
                      | Estimator cls => cls
                      | _ => []
                      end) (objects s).

End Notebooks.
From Stdlib Require Import Permutation Lqa.


(** ** Plotting calls that can fail, and reshaping *)

Module Plt.

(** [plt.subplot(nrows, ncols, index)]: the cell [index] of the grid,
    counted from 1 along the rows; an index outside the grid raises. *)
Definition subplot (nrows ncols index : nat) : py nat :=
  if ((1 <=? index) && (index <=? nrows * ncols))%nat then Ok index
  else Raise ValueError.

(** [ax.plot(x, y)]: the two sequences must be equally long. *)
Definition plot {A B : Type} (x : list A) (y : list B) : py unit :=
  if (List.length x =? List.length y)%nat then Ok tt else Raise ValueError.

End Plt.

(** ** Python built-ins on sequences *)

Module Py.

(** [enumerate(l)] *)
Definition enumerate {A : Type} (l : list A) : list (nat * A) :=
  combine (seq 0 (List.length l)) l.

End Py.

Module Reshape.

Fixpoint chunks {A : Type} (rows cols : nat) (l : list A) : list (list A) :=
  match rows with
  | O => []
  | S r => firstn cols l :: chunks r cols (skipn cols l)
  end.

(** [a.reshape(shape)] of a 1-D array to two axes, row by row; the number
    of items has to be the product of the shape. *)
Definition reshape {A : Type} (shape : nat * nat) (l : list A) : py (list (list A)) :=
  if (List.length l =? fst shape * snd shape)%nat
  then Ok (chunks (fst shape) (snd shape) l)
  else Raise ValueError.

(** [a.ravel()] of a 2-D array. *)
Definition ravel {A : Type} (a : list (list A)) : list A := concat a.

End Reshape.

(** ** Face completion: the panels of the figure

    The loop over [range(n_faces)] of [plot_multioutput_face_completion]:
    in row [i] of the figure the true face comes first, then one completed
    face per estimator, in the order of [sorted(ESTIMATORS)].  The
    predictions enter as the pairs of an estimator name and
    [y_test_predict[name]], in that order. *)

Module FacePlot.
Section Panels.

Variable pixel : Type.

Record panel := Panel {
  cell : nat;                       (** the subplot index *)
  heading : option string;          (** the [title] keyword, when given *)
  image : list (list pixel)         (** what [imshow] gets *)
}.

Definition image_shape : nat * nat := (64, 64)%nat.

Definition true_panel (n_pixels n_cols : nat) (test : FaceCompletion.faces pixel)
           (i : nat) : py panel :=
  true_face <- FaceCompletion.true_face n_pixels test i ;;
  sub <- Plt.subplot FaceCompletion.n_faces n_cols (i * n_cols + 1) ;;
  img <- Reshape.reshape image_shape true_face ;;
  Ok (Panel sub (if (i =? 0)%nat then Some "true faces"%string else None) img).

Definition completed_panel (n_pixels n_cols : nat)
           (test : FaceCompletion.faces pixel) (i : nat)
           (jest : nat * (string * FaceCompletion.faces pixel)) : py panel :=
  let '(j, (est, predicted)) := jest in
  upper <- getitem (FaceCompletion.X_test n_pixels test) i ;;
  lower <- getitem predicted i ;;
  let completed_face := FaceCompletion.hstack upper lower in
  sub <- Plt.subplot FaceCompletion.n_faces n_cols (i * n_cols + 2 + j) ;;
  img <- Reshape.reshape image_shape completed_face ;;
  Ok (Panel sub (if (i =? 0)%nat then Some est else None) img).

Definition figure_row (n_pixels : nat) (test : FaceCompletion.faces pixel)
           (predictions : list (string * FaceCompletion.faces pixel)) (i : nat)
  : py (list panel) :=
  let n_cols := (1 + List.length predictions)%nat in
  first <- true_panel n_pixels n_cols test i ;;
  rest <- mapM (completed_panel n_pixels n_cols test i) (Py.enumerate predictions) ;;
  Ok (first :: rest).

(** The panels in the order they are drawn. *)
Definition plot_faces (n_pixels : nat) (test : FaceCompletion.faces pixel)
           (predictions : list (string * FaceCompletion.faces pixel))
  : py (list panel) :=
  rows <- mapM (figure_row n_pixels test predictions)
               (seq 0 FaceCompletion.n_faces) ;;
  Ok (concat rows).

(** What an estimator fitted on [X_train], [y_train] predicts for the
    test faces: one row per test face, as wide as the lower halves. *)
Definition prediction_of (n_pixels : nat) (test predicted : FaceCompletion.faces pixel)
  : Prop :=
  List.length predicted = List.length test /\
  FaceCompletion.has_width (n_pixels - n_pixels / 2) predicted.

End Panels.
End FacePlot.

(** ** ROC with cross-validation: a further stand-in *)

Module RocStandIns.

(** A stand-in for the interpolation whose values are rates: one half
    everywhere. *)
Definition level (x : Q) (xp fp : Np.array) : Q := 1 # 2.

End RocStandIns.

(** ** GMM covariances: the grid of panels *)

Module GmmFigure.

(** [h = plt.subplot(2, n_estimators // 2, index + 1)], once for every
    [index] of [enumerate(estimators.items())]. *)
Definition panels (n_estimators : nat) : py (list nat) :=
  mapM (fun index => Plt.subplot 2 (n_estimators / 2) (index + 1))
       (seq 0 n_estimators).

(** A "tied" mixture of two components on two features. *)
Definition two_components : GmmCovariances.gaussian_mixture :=
  GmmCovariances.Gmm "tied" (Nd.matrix [[1; 1 # 2]; [1 # 2; 2]])
                     (Nd.matrix [[0; 0]; [3; 3]]).

(** Stand-ins for the decomposition and for the artist: the ellipse is
    kept as its centre and its colour. *)
Definition no_axes (c : Nd.ndarray) : py unit := Ok tt.
Definition centre_and_colour (centre : Nd.ndarray) (a : unit) (color : string)
  : Nd.ndarray * string := (centre, color).

End GmmFigure.

(** ** Indexing an array with a mask or with row numbers *)

Module Index.

Fixpoint compress {A : Type} (mask : list bool) (a : list A) : list A :=
  match mask, a with
  | m :: mask', x :: a' => if m then x :: compress mask' a' else compress mask' a'
  | _, _ => []
  end.

(** [a[mask]]: the mask must be as long as the array. *)
Definition boolean_index {A : Type} (a : list A) (mask : list bool) : py (list A) :=
  if (List.length mask =? List.length a)%nat then Ok (compress mask a)
  else Raise IndexError.

(** [a[idx]] with an array of row numbers. *)
Definition take {A : Type} (a : list A) (idx : list nat) : py (list A) :=
  mapM (getitem a) idx.

End Index.

(** ** Reductions over all the values of an array *)

Module Reduce.

(** [a.min()] and [a.max()]; an empty array has none. *)
Definition amin (a : list Q) : py Q :=
  match a with
  | [] => Raise ValueError
  | x :: a' => Ok (fold_left Qmin a' x)
  end.

Definition amax (a : list Q) : py Q :=
  match a with
  | [] => Raise ValueError
  | x :: a' => Ok (fold_left Qmax a' x)
  end.

End Reduce.

(** ** Python slices of a sequence *)

Module Slice.

(** The position a slice bound denotes on a sequence of length [n]:
    negative bounds count from the end, and every bound is clipped to
    [0 .. n]. *)
Definition bound (n : nat) (k : Z) : nat :=
  Nat.min n (Z.to_nat (if (k <? 0)%Z then (k + Z.of_nat n)%Z else k)).

(** [a[:k]] *)
Definition to {A : Type} (a : list A) (k : Z) : list A :=
  firstn (bound (List.length a) k) a.

(** [a[k:]] *)
Definition from {A : Type} (a : list A) (k : Z) : list A :=
  skipn (bound (List.length a) k) a.

End Slice.

(** ** SGD early stopping: [load_mnist]

    The data set comes from [fetch_openml] and the permutation from
    [sklearn.utils.shuffle]; both are library code.  The data set enters
    as its two arrays, the permutation as the row numbers [shuffle] draws
    for a given number of rows (with [random_state=42]). *)

Module SgdEarlyStopping.
Section LoadMnist.

Variable image : Type.
Variable shuffled_indices : nat -> list nat.

Record bunch := Bunch { data : list image; target : list string }.

(** [target == c] *)
Definition equals (target : list string) (c : string) : list bool :=
  map (fun t => (t =? c)%string) target.

(** [np.logical_or(a, b)] of two arrays of one shape. *)
Definition logical_or (a b : list bool) : list bool :=
  map (fun p => orb (fst p) (snd p)) (combine a b).

(** [shuffle(X, y, random_state=42)]: the arrays must have one length;
    both are indexed with the same row numbers. *)
Definition shuffle {A B : Type} (X : list A) (y : list B) : py (list A * list B) :=
  if (List.length X =? List.length y)%nat then
    let idx := shuffled_indices (List.length X) in
    X' <- Index.take X idx ;;
    y' <- Index.take y idx ;;
    Ok (X', y')
  else Raise ValueError.

Definition load_mnist (mnist : bunch) (n_samples : option Z) (class_0 class_1 : string)
  : py (list image * list string) :=
  let mask := logical_or (equals (target mnist) class_0)
                         (equals (target mnist) class_1) in
  Xm <- Index.boolean_index (data mnist) mask ;;
  ym <- Index.boolean_index (target mnist) mask ;;
  Xy <- shuffle Xm ym ;;
  match n_samples with
  | Some n => Ok (Slice.to (fst Xy) n, Slice.to (snd Xy) n)
  | None => Ok Xy
  end.

(** The samples of the two classes, in the order of the data set. *)
Definition selected (mnist : bunch) (class_0 class_1 : string)
  : list (image * string) :=
  filter (fun p => ((snd p =? class_0) || (snd p =? class_1))%string)
         (combine (data mnist) (target mnist)).

End LoadMnist.

(** A stand-in for the permutation: the rows in reverse order. *)
Definition reversed (n : nat) : list nat := rev (seq 0 n).

(** A data set of four images, kept as their numbers. *)
Definition four_digits : bunch nat :=
  Bunch [10; 11; 12; 13]%nat ["0"; "3"; "8"; "0"]%string.

End SgdEarlyStopping.

(** ** Mahalanobis distances: the contaminated data set and its two groups

    The rows come from [np.random.randn] and the distances from the fitted
    covariance estimators; both are library code.  A row and a distance
    enter as given values. *)

Module Mahalanobis.

(** [a[k:] = b] on the rows of an array: [b] must have as many rows as the
    slice, or one row, which is then repeated. *)
Definition assign_from {A : Type} (a : list A) (k : Z) (b : list A) : py (list A) :=
  let start := Slice.bound (List.length a) k in
  let n := (List.length a - start)%nat in
  if (List.length b =? n)%nat then Ok (firstn start a ++ b)
  else match b with
       | [r] => Ok (firstn start a ++ repeat r n)
       | _ => Raise ValueError
       end.

(** [X[-n_outliers:] = outliers]: [X] holds the [n_samples] rows drawn
    first, [outliers] the [n_outliers] rows drawn for the last rows. *)
Definition contaminate {A : Type} (X outliers : list A) (n_outliers : nat)
  : py (list A) :=
  assign_from X (- Z.of_nat n_outliers) outliers.

(** [np.full(n, v)] *)
Definition full (n : Z) (v : Q) : py (list Q) :=
  if (n <? 0)%Z then Raise ValueError else Ok (repeat v (Z.to_nat n)).

(** The two [plot] calls that mark the distances of a box plot:
    [ax.plot(np.full(n_samples - n_outliers, 1.26), mahal[:-n_outliers])]
    and [ax.plot(np.full(n_outliers, 2.26), mahal[-n_outliers:])]. *)
Definition marks {A : Type} (n_samples n_outliers : nat) (mahal : list A) : py unit :=
  xs <- full (Z.of_nat n_samples - Z.of_nat n_outliers) (63 # 50) ;;
  _ <- Plt.plot xs (Slice.to mahal (- Z.of_nat n_outliers)) ;;
  xs <- full (Z.of_nat n_outliers) (113 # 50) ;;
  Plt.plot xs (Slice.from mahal (- Z.of_nat n_outliers)).

(** *** The two covariance matrices the points are drawn with *)

Definition matrix := list (list Q).

(** [np.eye(n)] *)
Definition eye (n : nat) : matrix :=
  map (fun i => map (fun j => if (i =? j)%nat then 1 else 0) (seq 0 n)) (seq 0 n).

Fixpoint update {A : Type} (l : list A) (k : nat) (x : A) : list A :=
  match l, k with
  | [], _ => []
  | _ :: l', O => x :: l'
  | a :: l', S k' => a :: update l' k' x
  end.

(** [a[i, j] = v] *)
Definition set_entry (a : matrix) (i j : nat) (v : Q) : py matrix :=
  row <- getitem a i ;;
  if (j <? List.length row)%nat then Ok (update a i (update row j v))
  else Raise IndexError.

(** [a[idx, idx] = v] with an array [idx] of positions. *)
Fixpoint set_diagonal (a : matrix) (idx : list nat) (v : Q) : py matrix :=
  match idx with
  | [] => Ok a
  | k :: idx' => a' <- set_entry a k k v ;; set_diagonal a' idx' v
  end.

(** [np.arange(1, n)] *)
Definition arange1 (n : nat) : list nat := seq 1 (n - 1).

(** [gen_cov = np.eye(n_features)] and [gen_cov[0, 0] = 2.0] *)
Definition gen_cov (n_features : nat) : py matrix :=
  set_entry (eye n_features) 0 0 2.

(** [outliers_cov = np.eye(n_features)] and
    [outliers_cov[np.arange(1, n_features), np.arange(1, n_features)] = 7.0] *)
Definition outliers_cov (n_features : nat) : py matrix :=
  set_diagonal (eye n_features) (arange1 n_features) 7.

(** One row of [np.dot(Z, m)]: the row must be as long as [m] has rows. *)
Definition dot_row (z : list Q) (m : matrix) : py (list Q) :=
  if (List.length z =? List.length m)%nat
  then Ok (map (fun j => Np.sum (map (fun p => fst p * nth j (snd p) 0) (combine z m)))
               (seq 0 (List.length (hd [] m))))
  else Raise ValueError.

End Mahalanobis.

(** ** Image denoising: preparing the image

    [plot_image_denoising]: the image is scaled, reduced by a factor of
    four in each direction and distorted on its right half.  An image is
    the list of its rows; the operations below are exact on arrays with at
    least one row and one column. *)

Module Denoising.

Definition image := list (list Q).

(** [a[::4]] *)
Fixpoint every4 {A : Type} (l : list A) : list A :=
  match l with
  | [] => []
  | x :: l1 =>
      x :: match l1 with
           | _ :: _ :: _ :: l4 => every4 l4
           | _ => []
           end
  end.

(** [a / c] and [a /= c] with a scalar. *)
Definition divide (a : image) (c : Q) : image := map (map (fun x => x / c)) a.

(** [a + b] on 2-D arrays, with numpy's broadcasting of an axis of
    length one. *)
Definition add2 (a b : image) : py image :=
  if (List.length a =? List.length b)%nat
  then mapM (fun p => Np.add (fst p) (snd p)) (combine a b)
  else match a, b with
       | [r], _ => mapM (Np.add r) b
       | _, [r] => mapM (fun x => Np.add x r) a
       | _, _ => Raise ValueError
       end.

(** [raccoon_face = raccoon_face / 255.0], the sum of the four strided
    slices [[::4, ::4]], [[1::4, ::4]], [[::4, 1::4]], [[1::4, 1::4]], and
    [raccoon_face /= 4.0]. *)
Definition downsample (face : image) : py image :=
  let raccoon_face := divide face 255 in
  let a00 := map every4 (every4 raccoon_face) in
  let a10 := map every4 (every4 (tl raccoon_face)) in
  let a01 := map (fun r => every4 (tl r)) (every4 raccoon_face) in
  let a11 := map (fun r => every4 (tl r)) (every4 (tl raccoon_face)) in
  s <- add2 a00 a10 ;;
  s <- add2 s a01 ;;
  s <- add2 s a11 ;;
  Ok (divide s 4).

(** [target += v] on one row, in place: [v] must have the length of the
    target or length one. *)
Definition iadd1 (target v : list Q) : py (list Q) :=
  if (List.length v =? List.length target)%nat then Ok (Np.zip_with Qplus target v)
  else match v with
       | [y] => Ok (map (fun x => x + y) target)
       | _ => Raise ValueError
       end.

(** [distorted = raccoon_face.copy()] and
    [distorted[:, width // 2 :] += noise], where the script draws [noise]
    with [height] rows of [width // 2] values. *)
Definition distort (raccoon_face noise : image) (width : nat) : py image :=
  let half := (width / 2)%nat in
  let on_row (row nrow : list Q) :=
    r <- iadd1 (skipn half row) nrow ;; Ok (firstn half row ++ r) in
  if (List.length noise =? List.length raccoon_face)%nat
  then mapM (fun p => on_row (fst p) (snd p)) (combine raccoon_face noise)
  else match noise with
       | [nrow] => mapM (fun row => on_row row nrow) raccoon_face
       | _ => Raise ValueError
       end.

(** [a - b] on 2-D arrays, with the same broadcasting. *)
Definition sub2 (a b : image) : py image :=
  if (List.length a =? List.length b)%nat
  then mapM (fun p => Np.sub (fst p) (snd p)) (combine a b)
  else match a, b with
       | [r], _ => mapM (Np.sub r) b
       | _, [r] => mapM (fun x => Np.sub x r) a
       | _, _ => Raise ValueError
       end.

(** [show_with_diff(image, reference, title)]: the two panels and
    [difference = image - reference], the array shown in the second. *)
Definition show_with_diff (img reference : image) : py image :=
  _ <- Plt.subplot 1 2 1 ;;
  _ <- Plt.subplot 1 2 2 ;;
  sub2 img reference.

(** The loop that shows the dictionary:
    [for i, comp in enumerate(V[:100])], [plt.subplot(10, 10, i + 1)],
    [comp.reshape(patch_size)] with [patch_size = (7, 7)]. *)
Definition patch_size : nat * nat := (7, 7)%nat.

Definition show_dictionary (V : list (list Q)) : py (list (nat * image)) :=
  mapM (fun ic =>
          sub <- Plt.subplot 10 10 (fst ic + 1) ;;
          img <- Reshape.reshape patch_size (snd ic) ;;
          Ok (sub, img))
       (Py.enumerate (firstn 100 V)).

(** The "threshold" branch: [patches -= patches.min()] and
    [patches /= patches.max()], on all the values of [patches]. *)
Definition rescale (patches : list Q) : py (list Q) :=
  lo <- Reduce.amin patches ;;
  let patches := map (fun x => x - lo) patches in
  hi <- Reduce.amax patches ;;
  Ok (map (fun x => x / hi) patches).

(** One block of 4 x 4 pixels. *)
Definition block : image :=
  [[255; 0; 9; 9]; [510; 255; 9; 9]; [9; 9; 9; 9]; [9; 9; 9; 9]].

(** Noise for the right half of [block]. *)
Definition block_noise : image := [[1; 2]; [3; 4]; [5; 6]; [7; 8]].

(** An image of odd width and noise of [width // 2] columns. *)
Definition odd_block : image := [[1; 2; 3; 4; 5]].
Definition odd_noise : image := [[1; 1]].

End Denoising.

(** ** Grids of points *)

Module Grid.

(** [np.meshgrid(x, y)]: two arrays of [len(y)] rows and [len(x)] columns,
    [xx[i][j] = x[j]] and [yy[i][j] = y[i]]. *)
Definition meshgrid {A : Type} (x y : list A) : list (list A) * list (list A) :=
  (map (fun _ => x) y, map (fun yi => map (fun _ => yi) x) y).

(** [a.shape] of a 2-D array with at least one row. *)
Definition shape {A : Type} (a : list (list A)) : nat * nat :=
  (List.length a, List.length (hd [] a)).

(** [a[i, j]] *)
Definition entry {A : Type} (a : list (list A)) (i j : nat) : py A :=
  row <- getitem a i ;; getitem row j.

(** [a.T] of a 2-D array: row [i] of the result holds the items [i] of
    the rows of [a]. *)
Definition transpose {A : Type} (a : list (list A)) : list (list A) :=
  map (fun i => flat_map (fun row => match nth_error row i with
                                     | Some v => [v]
                                     | None => []
                                     end) a)
      (seq 0 (snd (shape a))).

(** [np.hstack([a, b])] of two 2-D arrays: they must have as many rows. *)
Definition hstack2 {A : Type} (a b : list (list A)) : py (list (list A)) :=
  if (List.length a =? List.length b)%nat
  then Ok (map (fun p => fst p ++ snd p) (combine a b))
  else Raise ValueError.

(** [a.ravel().reshape(-1, 1)] *)
Definition as_column {A : Type} (a : list (list A)) : list (list A) :=
  map (fun v => [v]) (Reshape.ravel a).

End Grid.

(** ** t-SNE perplexity: the uniform grid *)

Module Tsne.

(** [x = np.linspace(0, 1, int(np.sqrt(n_samples)))],
    [xx, yy = np.meshgrid(x, x)], [X = np.hstack([...])] and
    [color = xx.ravel()]. *)
Definition uniform_grid (n_samples : nat) : py (list (list Q) * list Q) :=
  let x := Np.linspace01 (Nat.sqrt n_samples) in
  let xx := fst (Grid.meshgrid x x) in
  let yy := snd (Grid.meshgrid x x) in
  X <- Grid.hstack2 (Grid.as_column xx) (Grid.as_column yy) ;;
  Ok (X, Reshape.ravel xx).

End Tsne.

(** ** GPC: the grid of log-marginal likelihoods

    [gp_opt.log_marginal_likelihood] is library code: it enters as a
    function of the two hyper-parameters.  The grids [theta0] and [theta1]
    come from [np.logspace]; they enter as given. *)

Module Gpc.
Section Landscape.

Variables theta value : Type.
Variable log_marginal_likelihood : theta -> theta -> value.

(** [LML = [[lml(Theta0[i, j], Theta1[i, j]) for i in range(Theta0.shape[0])]
            for j in range(Theta0.shape[1])]] and [LML = np.array(LML).T]. *)
Definition landscape (theta0 theta1 : list theta) : py (list (list value)) :=
  let Theta0 := fst (Grid.meshgrid theta0 theta1) in
  let Theta1 := snd (Grid.meshgrid theta0 theta1) in
  LML <- mapM (fun j =>
                 mapM (fun i =>
                         t0 <- Grid.entry Theta0 i j ;;
                         t1 <- Grid.entry Theta1 i j ;;
                         Ok (log_marginal_likelihood t0 t1))
                      (seq 0 (fst (Grid.shape Theta0))))
              (seq 0 (snd (Grid.shape Theta0))) ;;
  Ok (Grid.transpose LML).

End Landscape.
End Gpc.

(** ** SVM on iris: fitting inside the plotting loop

    [models = (clf.fit(X, y) for clf in models)] is a generator: a model is
    fitted when [zip(models, titles, sub.flatten())] asks for the next
    item.  [zip] asks its arguments in order and stops at the first that
    has no item left. *)

Module SvmIris.

Inductive event : Type :=
| Fit (clf : nat)
| Plot (clf : nat) (title : string) (ax : nat).

(** The events of the [for] loop, in order. *)
Fixpoint plot_loop (models : list nat) (titles : list string) (axes : list nat)
  : list event :=
  match models with
  | [] => []
  | clf :: models' =>
      Fit clf ::
      match titles with
      | [] => []
      | title :: titles' =>
          match axes with
          | [] => []
          | ax :: axes' => Plot clf title ax :: plot_loop models' titles' axes'
          end
      end
  end.

Definition is_fit (e : event) : bool :=
  match e with Fit _ => true | Plot _ _ _ => false end.

Definition is_plot (e : event) : bool := negb (is_fit e).

End SvmIris.

(** ** Precision-recall: the iso-F1 curves *)

Module PrecisionRecall.

(** The value of a float64 expression: a number, an infinity, or
    not-a-number. *)
Inductive value : Type :=
| Finite (q : Q)
| PosInf
| NegInf
| NaN.






End PrecisionRecall.

(** ** GPR on the CO2 data: dates as numbers *)

Module Gpr.

(** [pl.col("date").dt.year() + pl.col("date").dt.month() / 12], and
    [today.year + today.month / 12]. *)
Definition as_year (year month : Z) : Q := inject_Z year + inject_Z month / 12.

End Gpr.

(** ** Scaling: the zoom on the bulk of the data

    [np.percentile] is library code: it enters as a function of a column
    and a percentage. *)

Module Scaling.
Section Zoom.

Variable percentile : list Q -> Q -> Q.

(** [zoom_in_percentile_range = (0, 99)], the cut-offs of the two columns,
    and [non_outliers_mask]: both columns strictly above the lower and
    strictly below the upper cut-offs. *)
Definition non_outliers_mask (X : list (Q * Q)) : list bool :=
  let cutoffs_X0 := (percentile (map fst X) 0, percentile (map fst X) 99) in
  let cutoffs_X1 := (percentile (map snd X) 0, percentile (map snd X) 99) in
  map (fun row =>
         (negb (Qle_bool (fst row) (fst cutoffs_X0)) &&
          negb (Qle_bool (snd row) (fst cutoffs_X1))) &&
         (negb (Qle_bool (snd cutoffs_X0) (fst row)) &&
          negb (Qle_bool (snd cutoffs_X1) (snd row))))
      X.

(** [X[non_outliers_mask]] and [y[non_outliers_mask]], the data of the
    zoomed plot. *)
Definition zoom_in {A : Type} (X : list (Q * Q)) (y : list A)
  : py (list (Q * Q) * list A) :=
  Xz <- Index.boolean_index X (non_outliers_mask X) ;;
  yz <- Index.boolean_index y (non_outliers_mask X) ;;
  Ok (Xz, yz).

End Zoom.

(** A stand-in for the percentiles: the minimum for 0 and the maximum
    otherwise. *)
Definition extremes (col : list Q) (q : Q) : Q :=
  match col with
  | [] => 0
  | x :: rest => if Qeq_bool q 0 then fold_left Qmin rest x else fold_left Qmax rest x
  end.

(** Three blocks, as (median income, average occupancy). *)
Definition three_blocks : list (Q * Q) := [(1, 5); (2, 4); (3, 6)].

End Scaling.

(** ** Forests and boosting: one colour per model *)

Module ForestComparison.

(** [l * k] on a list. *)
Definition times {A : Type} (l : list A) (k : nat) : list A := concat (repeat l k).

(** [colors_list = palette * (len(model_names) // len(palette) + 1)] and
    the [colors_list[idx]] of the loop over [enumerate(results)].  The
    palette is plotly's, it has colours: it is given as its first colour
    and the others. *)
Definition trace_colours {A : Type} (first : A) (others : list A) (n_models : nat)
  : py (list A) :=
  let palette := first :: others in
  let colors_list := times palette (n_models / List.length palette + 1)%nat in
  mapM (getitem colors_list) (seq 0 n_models).

End ForestComparison.

(** * Properties *)

Open Scope nat_scope.
Unset Implicit Arguments.

(** ** Results of sequenced operations *)

Lemma bind_ok {A B : Type} (m : py A) (k : A -> py B) (b : B) :
  bind m k = Ok b -> exists a, m = Ok a /\ k a = Ok b.
Proof.
  destruct m as [a | e]; simpl; intro H.
  - exists a; split; [reflexivity | exact H].
  - discriminate H.
Qed.

Lemma getitem_nth {A : Type} (l : list A) (i : nat) (a : A) :
  nth_error l i = Some a -> getitem l i = Ok a.
Proof. unfold getitem; intros ->; reflexivity. Qed.

Lemma mapM_ok_length {A B : Type} (f : A -> py B) (l : list A) (r : list B) :
  mapM f l = Ok r -> List.length r = List.length l.
Proof.
  revert r; induction l as [| a l IH]; simpl; intros r H.
  - injection H as <-; reflexivity.
  - apply bind_ok in H as (b & _ & H).
    apply bind_ok in H as (bs & Hbs & H).
    injection H as <-; simpl; f_equal; apply IH, Hbs.
Qed.

(** Mapping an operation that returns the [i]-th item of [l] over the
    positions of [l] gives [l] back. *)
Lemma mapM_positions {A : Type} (f : nat -> py A) (l : list A) (start : nat) :
  (forall i a, nth_error l i = Some a -> f (start + i) = Ok a) ->
  mapM f (seq start (List.length l)) = Ok l.
Proof.
  revert start; induction l as [| a l IH]; intros start H; simpl.
  - reflexivity.
  - rewrite <- (Nat.add_0_r start) at 1.
    rewrite (H 0 a eq_refl); simpl.
    rewrite IH; [reflexivity |].
    intros i b Hi. replace (S start + i) with (start + S i) by lia.
    apply H; exact Hi.
Qed.

(** ** Face completion *)

Section FaceCompletionFacts.

Import FaceCompletion.
Variable pixel : Type.

(** For an even width the two bounds of the split coincide. *)
Lemma halves_meet (n : nat) : Nat.even n = true -> ((n + 1) / 2 = n / 2)%nat.
Proof.
  intro He. apply Nat.even_spec in He as [k ->].
  replace (2 * k + 1)%nat with (1 + k * 2)%nat by lia.
  rewrite Nat.div_add by discriminate.
  replace (2 * k)%nat with (0 + k * 2)%nat by lia.
  rewrite Nat.div_add by discriminate.
  reflexivity.
Qed.

(** For an odd width the middle column belongs to both halves. *)
Lemma halves_overlap (n : nat) : Nat.odd n = true -> ((n + 1) / 2 = S (n / 2))%nat.
Proof.
  intro Ho. apply Nat.odd_spec in Ho as [k ->].
  replace (2 * k + 1 + 1)%nat with (0 + (k + 1) * 2)%nat by lia.
  rewrite Nat.div_add by discriminate.
  replace (2 * k + 1)%nat with (1 + k * 2)%nat by lia.
  rewrite Nat.div_add by discriminate.
  simpl; lia.
Qed.

Lemma X_test_row (n : nat) (te : faces pixel) (i : nat) (row : face pixel) :
  nth_error te i = Some row ->
  getitem (X_test n te) i = Ok (firstn ((n + 1) / 2) row).
Proof.
  intro H. apply getitem_nth. unfold X_test, cols_before.
  apply map_nth_error; exact H.
Qed.

Lemma y_test_row (n : nat) (te : faces pixel) (i : nat) (row : face pixel) :
  nth_error te i = Some row ->
  getitem (y_test n te) i = Ok (skipn (n / 2) row).
Proof.
  intro H. apply getitem_nth. unfold y_test, cols_from.
  apply map_nth_error; exact H.
Qed.

(** The widths of the two halves of a row of [n] pixels. *)
Lemma halves_width (n : nat) (row : face pixel) :
  List.length row = n ->
  List.length (firstn ((n + 1) / 2) row) = ((n + 1) / 2)%nat /\
  List.length (skipn (n / 2) row) = (n - n / 2)%nat.
Proof.
  intro Hn; split.
  - rewrite length_firstn, Hn. apply Nat.min_l.
    destruct n as [| m]; [apply Nat.le_refl |].
    apply Nat.Div0.div_le_upper_bound; lia.
  - rewrite length_skipn, Hn; reflexivity.
Qed.

End FaceCompletionFacts.

(** C8.  In the face-completion script, when the number of pixels is even,
    the upper-half columns [0, (n_pixels + 1) // 2) and the lower-half
    columns [n_pixels // 2, n_pixels) split every row exactly: the two
    bounds are equal, the two halves have [n_pixels // 2] columns each, and
    stacking [X_test[i]] and [y_test[i]] gives the test row back. *)
Theorem even_split_rebuilds_test_row :
  forall (pixel : Type) (n_pixels : nat)
         (test : FaceCompletion.faces pixel) (i : nat)
         (row : FaceCompletion.face pixel),
    Nat.even n_pixels = true ->
    FaceCompletion.has_width n_pixels test ->
    nth_error test i = Some row ->
    ((n_pixels + 1) / 2 = n_pixels / 2)%nat /\
    (exists upper lower,
        getitem (FaceCompletion.X_test n_pixels test) i = Ok upper /\
        getitem (FaceCompletion.y_test n_pixels test) i = Ok lower /\
        List.length upper = (n_pixels / 2)%nat /\
        List.length lower = (n_pixels / 2)%nat /\
        upper ++ lower = row) /\
    FaceCompletion.true_face n_pixels test i = Ok row.
Proof.
  intros pixel n te i row He Hw Hi.
  pose proof (@halves_meet n He) as Hm.
  assert (Hrow : List.length row = n).
  { unfold FaceCompletion.has_width in Hw. rewrite Forall_forall in Hw.
    apply Hw. eapply nth_error_In; exact Hi. }
  destruct (@halves_width pixel n row Hrow) as [Hu Hl].
  assert (Hcat : firstn ((n + 1) / 2) row ++ skipn (n / 2) row = row).
  { rewrite Hm. apply firstn_skipn. }
  split; [exact Hm | split].
  - exists (firstn ((n + 1) / 2) row), (skipn (n / 2) row).
    repeat split.
    + apply X_test_row; exact Hi.
    + apply y_test_row; exact Hi.
    + rewrite Hu; exact Hm.
    + rewrite Hl. apply Nat.even_spec in He as [k ->].
      replace (2 * k)%nat with (0 + k * 2)%nat by lia.
      rewrite Nat.div_add by discriminate. simpl; lia.
    + exact Hcat.
  - unfold FaceCompletion.true_face.
    rewrite (@X_test_row pixel n te i row Hi), (@y_test_row pixel n te i row Hi); cbn [bind].
    unfold FaceCompletion.hstack. rewrite Hcat; reflexivity.
Qed.

Lemma even_split_rebuilds_test_row_witness :
  FaceCompletion.true_face 4 [[1; 2; 3; 4]; [5; 6; 7; 8]]%nat 1 = Ok [5; 6; 7; 8]%nat.
Proof.
  refine (proj2 (proj2 (@even_split_rebuilds_test_row
            nat 4 [[1; 2; 3; 4]; [5; 6; 7; 8]]%nat 1 [5; 6; 7; 8]%nat _ _ _))).
  - reflexivity.
  - repeat constructor.
  - reflexivity.
Defined.

(** The whole preparation of the script, for an even width: the true faces
    it draws are the selected test rows themselves. *)
Lemma true_faces_are_test_rows (pixel : Type) (n_pixels : nat)
      (data : FaceCompletion.faces pixel) (targets face_ids : list nat) :
  Nat.even n_pixels = true ->
  List.length face_ids = FaceCompletion.n_faces ->
  FaceCompletion.true_faces n_pixels data targets face_ids =
  FaceCompletion.rows_at face_ids (FaceCompletion.test_people data targets).
Proof.
  intros He Hids. unfold FaceCompletion.true_faces. rewrite <- Hids.
  destruct (FaceCompletion.rows_at face_ids _) as [te | e] eqn:Hte; cbn [bind];
    [| reflexivity].
  rewrite <- (@mapM_ok_length _ _ _ _ _ Hte).
  apply mapM_positions. intros i row Hi; cbn [Nat.add].
  unfold FaceCompletion.true_face.
  rewrite (@X_test_row pixel n_pixels te i row Hi), (@y_test_row pixel n_pixels te i row Hi); cbn [bind].
  unfold FaceCompletion.hstack.
  rewrite (@halves_meet n_pixels He), firstn_skipn; reflexivity.
Qed.

(** With an odd width the middle pixel is drawn twice. *)
Example odd_split_repeats_the_middle :
  FaceCompletion.true_face 5 [[1; 2; 3; 4; 5]]%nat 0 = Ok [1; 2; 3; 3; 4; 5]%nat.
Proof. reflexivity. Qed.

(** ** Item assignment and reductions on 1-D arrays *)

Section NpFacts.

Import Np.

Lemma length_replace_at (a : array) (k : nat) (v : Q) :
  List.length (replace_at a k v) = List.length a.
Proof.
  revert k; induction a as [| x a IH]; intros [| k]; simpl; auto.
Qed.

Lemma nth_replace_at (a : array) (k : nat) (v : Q) :
  k < List.length a -> nth_error (replace_at a k v) k = Some v.
Proof.
  revert k; induction a as [| x a IH]; intros [| k] Hk; simpl in *;
    try lia; [reflexivity | apply IH; lia].
Qed.

Lemma position_first (n : nat) : 0 < n -> position n 0 = Some 0.
Proof.
  intro Hn. unfold position. simpl.
  destruct (0 <? Z.of_nat n)%Z eqn:E; [reflexivity |].
  apply Z.ltb_ge in E; exfalso; lia.
Qed.

Lemma position_last (n : nat) : 0 < n -> position n (-1) = Some (n - 1).
Proof.
  intro Hn. unfold position.
  replace (-1 <? 0)%Z with true by reflexivity.
  replace (0 <=? -1 + Z.of_nat n)%Z with true by (symmetry; apply Z.leb_le; lia).
  replace (-1 + Z.of_nat n <? Z.of_nat n)%Z with true
    by (symmetry; apply Z.ltb_lt; lia).
  cbn [andb]. f_equal. lia.
Qed.

(** After [a[i] = v] on a non-empty array, for the first and the last
    position: the shape is kept and [a[i]] reads [v]. *)
Lemma setitem_first (a : array) (v : Q) :
  0 < List.length a ->
  exists a', setitem a 0 v = Ok a' /\
             List.length a' = List.length a /\ item a' 0 = Ok v.
Proof.
  intro Hn. exists (replace_at a 0 v). unfold setitem, item.
  rewrite length_replace_at, (position_first _ Hn).
  split; [reflexivity | split; [reflexivity |]].
  apply getitem_nth, nth_replace_at, Hn.
Qed.

Lemma setitem_last (a : array) (v : Q) :
  0 < List.length a ->
  exists a', setitem a (-1) v = Ok a' /\
             List.length a' = List.length a /\ item a' (-1) = Ok v.
Proof.
  intro Hn. exists (replace_at a (List.length a - 1) v). unfold setitem, item.
  rewrite length_replace_at, (position_last _ Hn).
  split; [reflexivity | split; [reflexivity |]].
  apply getitem_nth, nth_replace_at; lia.
Qed.

Lemma reduce_axis0_ok (f : array -> Q) (rows : list array) (w : nat) :
  rows <> [] ->
  Forall (fun r => List.length r = w) rows ->
  exists out, reduce_axis0 f rows = Ok out /\ List.length out = w.
Proof.
  intros Hne Hw. destruct rows as [| r rs]; [contradiction |].
  inversion Hw as [| ? ? Hr Hrs]; subst.
  unfold reduce_axis0.
  replace (forallb (fun r' => List.length r' =? List.length r) rs) with true.
  - eexists; split; [reflexivity |].
    rewrite length_map, length_seq; reflexivity.
  - symmetry. apply forallb_forall. intros r' Hin.
    rewrite Forall_forall in Hrs. rewrite (Hrs r' Hin). apply Nat.eqb_refl.
Qed.

Lemma nth_error_replace_at_other (a : array) (k j : nat) (v : Q) :
  k <> j -> nth_error (replace_at a k v) j = nth_error a j.
Proof.
  revert k j; induction a as [| x a IH]; intros [| k] [| j] H; simpl;
    try reflexivity; [contradiction | apply IH; congruence].
Qed.

Lemma reduce_axis0_explicit (f : array -> Q) (rows : list array) (w : nat) :
  rows <> [] ->
  Forall (fun r => List.length r = w) rows ->
  reduce_axis0 f rows = Ok (map (fun j => f (column rows j)) (seq 0 w)).
Proof.
  intros Hne Hw. destruct rows as [| r rs]; [contradiction |].
  inversion Hw as [| ? ? Hr Hrs]; subst.
  unfold reduce_axis0.
  replace (forallb (fun r' => List.length r' =? List.length r) rs) with true;
    [reflexivity |].
  symmetry. apply forallb_forall. intros r' Hin.
  rewrite Forall_forall in Hrs. rewrite (Hrs r' Hin). apply Nat.eqb_refl.
Qed.

Lemma nth_error_map_seq (h : nat -> Q) (n j : nat) :
  j < n -> nth_error (map h (seq 0 n)) j = Some (h j).
Proof.
  intro Hj.
  rewrite (nth_error_nth' _ (h 0)) by (rewrite length_map, length_seq; exact Hj).
  rewrite (map_nth h), seq_nth by exact Hj. reflexivity.
Qed.

Lemma nth_error_map_nth (h : Q -> Q) (a : array) (j : nat) :
  j < List.length a -> nth_error (map h a) j = Some (h (nth j a 0%Q)).
Proof.
  intro Hj. apply map_nth_error, nth_error_nth', Hj.
Qed.

Lemma nth_error_zip_with (f : Q -> Q -> Q) (a b : array) (j : nat) :
  List.length a = List.length b -> j < List.length a ->
  nth_error (zip_with f a b) j = Some (f (nth j a 0%Q) (nth j b 0%Q)).
Proof.
  revert b j; induction a as [| x a IH]; intros [| y b] [| j] Hl Hj;
    simpl in *; try discriminate; try lia; [reflexivity |].
  apply IH; [congruence | lia].
Qed.

Lemma length_zip_with (f : Q -> Q -> Q) (a b : array) :
  List.length a = List.length b -> List.length (zip_with f a b) = List.length a.
Proof.
  revert b; induction a as [| x a IH]; intros [| y b] H; simpl in *;
    try discriminate; auto.
Qed.

Lemma elementwise_same_shape (f : Q -> Q -> Q) (a b : array) :
  List.length a = List.length b -> elementwise f a b = Ok (zip_with f a b).
Proof.
  intro H. unfold elementwise. rewrite H, Nat.eqb_refl. reflexivity.
Qed.

Lemma minimum_below (a : array) (c : Q) : Forall (fun x => (x <= c)%Q) (minimum a c).
Proof.
  unfold minimum. apply Forall_forall. intros x Hx.
  apply in_map_iff in Hx as (y & <- & _). apply Q.le_min_r.
Qed.

Lemma maximum_above (a : array) (c : Q) : Forall (fun x => (c <= x)%Q) (maximum a c).
Proof.
  unfold maximum. apply Forall_forall. intros x Hx.
  apply in_map_iff in Hx as (y & <- & _). apply Q.le_max_r.
Qed.

End NpFacts.

(** ** ROC with cross-validation *)

Section RocFacts.

Import RocCrossval.

Variable interp1 : Q -> Np.array -> Np.array -> Q.
Variable std1 : Np.array -> Q.

Lemma mean_fpr_points : List.length mean_fpr = grid.
Proof. unfold mean_fpr, Np.linspace01. rewrite length_map, length_seq. reflexivity. Qed.

Lemma fold_step_pins (acc : list Np.array) (viz : roc_display) :
  exists t, fold_step interp1 acc viz = Ok (acc ++ [t]) /\ pinned t.
Proof.
  unfold fold_step.
  destruct (@setitem_first (np_interp interp1 mean_fpr (fpr viz) (tpr viz)) 0%Q)
    as (t & Hset & Hlen & Hit).
  { unfold np_interp. rewrite length_map, mean_fpr_points. unfold grid; lia. }
  exists t. rewrite Hset; cbn [bind]. split; [reflexivity | split].
  - rewrite Hlen. unfold np_interp. rewrite length_map. apply mean_fpr_points.
  - exact Hit.
Qed.

Lemma fold_loop_pins (folds : list roc_display) (acc : list Np.array) :
  Forall pinned acc ->
  exists out, fold_loop interp1 acc folds = Ok out /\
              Forall pinned out /\
              List.length out = List.length acc + List.length folds.
Proof.
  revert acc; induction folds as [| viz rest IH]; intros acc Hacc;
    cbn [fold_loop List.length].
  - exists acc; repeat split; [exact Hacc | lia].
  - destruct (fold_step_pins acc viz) as (t & Hstep & Ht).
    rewrite Hstep; cbn [bind].
    destruct (IH (acc ++ [t])) as (out & Hout & Hpin & Hlen).
    { apply Forall_app; split; [exact Hacc | constructor; [exact Ht | constructor]]. }
    exists out; repeat split; [exact Hout | exact Hpin |].
    rewrite Hlen, length_app; simpl; lia.
Qed.

Lemma fold_loop_explicit (folds : list roc_display) (acc : list Np.array) :
  fold_loop interp1 acc folds
  = Ok (acc ++ map (fun viz =>
                      Np.replace_at (np_interp interp1 mean_fpr (fpr viz) (tpr viz)) 0 0%Q)
                   folds).
Proof.
  revert acc; induction folds as [| viz rest IH]; intro acc; cbn [fold_loop map].
  - rewrite app_nil_r; reflexivity.
  - unfold fold_step, Np.setitem.
    rewrite position_first
      by (unfold np_interp; rewrite length_map, mean_fpr_points; unfold grid; lia).
    cbn [bind]. rewrite IH, <- app_assoc. reflexivity.
Qed.

End RocFacts.

(** C9.  In the ROC cross-validation script, whatever curves the folds
    give: the aggregation runs to the end; every per-fold interpolated TPR
    array has its first element set to 0.0; the mean TPR array has its last
    element set to 1.0; and at every point of the grid the upper curve of
    the band is at most 1 and the lower curve at least 0.  The arrays are
    the ones the script computes: the array kept for a fold is, after its
    first item, the interpolation of that fold's curve at the points of
    the grid; the mean TPR array is, before its last item, the mean over
    the folds at each point; the upper curve is the smaller of 1 and mean
    plus standard deviation, the lower curve the larger of 0 and mean
    minus standard deviation, the mean being the array with its last item
    set to 1.0. *)
Theorem mean_roc_pinned_and_clipped :
  forall (interp1 : Q -> Np.array -> Np.array -> Q) (std1 : Np.array -> Q)
         (folds : list RocCrossval.roc_display),
    folds <> [] ->
    exists r,
      RocCrossval.mean_roc interp1 std1 folds = Ok r /\
      List.length (RocCrossval.tprs r) = List.length folds /\
      Forall (fun t => List.length t = RocCrossval.grid /\ Np.item t 0 = Ok 0%Q)
             (RocCrossval.tprs r) /\
      List.length (RocCrossval.mean_tpr r) = RocCrossval.grid /\
      Np.item (RocCrossval.mean_tpr r) (-1) = Ok 1%Q /\
      List.length (RocCrossval.tprs_upper r) = RocCrossval.grid /\
      Forall (fun u => (u <= 1)%Q) (RocCrossval.tprs_upper r) /\
      List.length (RocCrossval.tprs_lower r) = RocCrossval.grid /\
      Forall (fun l => (0 <= l)%Q) (RocCrossval.tprs_lower r) /\
      Forall2 (fun viz t =>
                 forall j, 0 < j < RocCrossval.grid ->
                   nth_error t j
                   = Some (interp1 (nth j RocCrossval.mean_fpr 0%Q)
                                   (RocCrossval.fpr viz) (RocCrossval.tpr viz)))
              folds (RocCrossval.tprs r) /\
      (forall j, j < RocCrossval.grid - 1 ->
         nth_error (RocCrossval.mean_tpr r) j
         = Some (Np.mean1 (Np.column (RocCrossval.tprs r) j))) /\
      (forall j, j < RocCrossval.grid ->
         nth_error (RocCrossval.tprs_upper r) j
         = Some (Qmin (nth j (RocCrossval.mean_tpr r) 0%Q
                       + std1 (Np.column (RocCrossval.tprs r) j)) 1) /\
         nth_error (RocCrossval.tprs_lower r) j
         = Some (Qmax (nth j (RocCrossval.mean_tpr r) 0%Q
                       - std1 (Np.column (RocCrossval.tprs r) j)) 0)).
Proof.
  intros interp1 std1 folds Hne.
  destruct (@fold_loop_pins interp1 folds [] (Forall_nil _))
    as (ts & Hloop & Hpin & Hlen).
  simpl in Hlen.
  assert (Hexp : ts = map (fun viz =>
                   Np.replace_at (RocCrossval.np_interp interp1 RocCrossval.mean_fpr
                                    (RocCrossval.fpr viz) (RocCrossval.tpr viz)) 0 0%Q)
                   folds).
  { rewrite fold_loop_explicit in Hloop. cbn [app] in Hloop.
    injection Hloop as <-. reflexivity. }
  assert (Hts : ts <> []).
  { intros ->. destruct folds; [contradiction | discriminate]. }
  assert (Hw : Forall (fun r => List.length r = RocCrossval.grid) ts).
  { eapply Forall_impl; [| exact Hpin]. intros t [H _]; exact H. }
  pose proof (@reduce_axis0_explicit Np.mean1 ts RocCrossval.grid Hts Hw) as Hm.
  remember (map (fun j => Np.mean1 (Np.column ts j)) (seq 0 RocCrossval.grid))
    as m eqn:Em.
  assert (Hml : List.length m = RocCrossval.grid)
    by (rewrite Em, length_map, length_seq; reflexivity).
  remember (Np.replace_at m (RocCrossval.grid - 1) 1%Q) as m' eqn:Em'.
  assert (Hset : Np.setitem m (-1) 1%Q = Ok m').
  { unfold Np.setitem. rewrite position_last by (rewrite Hml; unfold RocCrossval.grid; lia).
    rewrite Hml, Em'. reflexivity. }
  destruct (@setitem_last m 1%Q) as (m2 & Hset' & Hml' & Hlast).
  { rewrite Hml; unfold RocCrossval.grid; lia. }
  rewrite Hset in Hset'. injection Hset' as <-.
  pose proof (@reduce_axis0_explicit std1 ts RocCrossval.grid Hts Hw) as Hsd.
  remember (map (fun j => std1 (Np.column ts j)) (seq 0 RocCrossval.grid))
    as sd eqn:Esd.
  assert (Hsdl : List.length sd = RocCrossval.grid)
    by (rewrite Esd, length_map, length_seq; reflexivity).
  assert (Hsame : List.length m' = List.length sd) by congruence.
  assert (Hsdj : forall j, j < RocCrossval.grid ->
                   nth j sd 0%Q = std1 (Np.column ts j)).
  { intros j Hj. apply nth_error_nth. rewrite Esd.
    apply (@nth_error_map_seq (fun j => std1 (Np.column ts j))), Hj. }
  exists (RocCrossval.Curves ts m'
            (Np.minimum (Np.zip_with Qplus m' sd) 1)
            (Np.maximum (Np.zip_with Qminus m' sd) 0)).
  unfold RocCrossval.mean_roc.
  rewrite Hloop; cbn [bind].
  unfold Np.mean_axis0. rewrite Hm; cbn [bind].
  rewrite Hset; cbn [bind].
  unfold RocCrossval.np_std_axis0. rewrite Hsd; cbn [bind].
  unfold Np.add, Np.sub.
  rewrite !(@elementwise_same_shape _ m' sd Hsame); cbn [bind].
  cbn [RocCrossval.tprs RocCrossval.mean_tpr RocCrossval.tprs_upper
       RocCrossval.tprs_lower].
  split; [reflexivity |].
  split; [exact Hlen |].
  split; [exact Hpin |].
  split; [congruence |].
  split; [exact Hlast |].
  split.
  { unfold Np.minimum. rewrite length_map, length_zip_with by exact Hsame.
    congruence. }
  split; [apply minimum_below |].
  split.
  { unfold Np.maximum. rewrite length_map, length_zip_with by exact Hsame.
    congruence. }
  split; [apply maximum_above |].
  split.
  { rewrite Hexp. clear. induction folds as [| viz rest IH]; constructor; [| exact IH].
    intros j Hj.
    rewrite nth_error_replace_at_other by lia.
    unfold RocCrossval.np_interp.
    apply (@nth_error_map_nth (fun xi => interp1 xi (RocCrossval.fpr viz)
                                           (RocCrossval.tpr viz))).
    rewrite mean_fpr_points. lia. }
  split.
  { intros j Hj. rewrite Em'.
    rewrite nth_error_replace_at_other by lia.
    rewrite Em. apply (@nth_error_map_seq (fun j => Np.mean1 (Np.column ts j))).
    lia. }
  intros j Hj. split.
  - unfold Np.minimum.
    rewrite (@nth_error_map_nth (fun x => Qmin x 1))
      by (rewrite length_zip_with by exact Hsame; lia).
    f_equal. f_equal.
    rewrite <- (Hsdj j Hj).
    apply nth_error_nth.
    apply nth_error_zip_with; [exact Hsame | lia].
  - unfold Np.maximum.
    rewrite (@nth_error_map_nth (fun x => Qmax x 0))
      by (rewrite length_zip_with by exact Hsame; lia).
    f_equal. f_equal.
    rewrite <- (Hsdj j Hj).
    apply nth_error_nth.
    apply nth_error_zip_with; [exact Hsame | lia].
Qed.

(** ** Shapes of n-dimensional arrays *)

Section NdFacts.

Import Nd.

Lemma has_shape_vector (a : ndarray) (d : nat) :
  has_shape [d] a ->
  exists xs, a = vector xs /\ List.length xs = d.
Proof.
  destruct a as [x | items]; simpl; [contradiction |].
  intros [Hlen Hall]. revert d Hlen.
  induction items as [| a items IH]; intros d Hlen.
  - exists []; split; [reflexivity | exact Hlen].
  - inversion Hall as [| ? ? Ha Hitems]; subst.
    destruct a as [x | ?]; [| contradiction].
    destruct (IH Hitems _ eq_refl) as (xs & Hxs & Hl).
    exists (x :: xs). unfold vector in *. simpl.
    injection Hxs as ->. split; [reflexivity |].
    simpl; rewrite Hl. rewrite length_map; reflexivity.
Qed.

Lemma has_shape_items (a : ndarray) (n : nat) (sh : list nat) :
  has_shape (n :: sh) a ->
  exists items, a = Arr items /\ List.length items = n /\
                Forall (has_shape sh) items.
Proof.
  destruct a as [x | items]; simpl; [contradiction |].
  intros [Hlen Hall]. exists items; auto.
Qed.

Lemma index_in_shape (a : ndarray) (k n : nat) (sh : list nat) :
  has_shape (k :: sh) a -> n < k ->
  exists c, index a n = Ok c /\ has_shape sh c.
Proof.
  intros Ha Hn. apply has_shape_items in Ha as (items & -> & Hlen & Hall).
  destruct (nth_error items n) as [c |] eqn:E.
  - exists c; split; [apply getitem_nth; exact E |].
    rewrite Forall_forall in Hall. apply Hall. eapply nth_error_In; exact E.
  - apply nth_error_None in E; lia.
Qed.

(** [shape] reads the shape of a matrix with at least one row. *)
Lemma shape_of_matrix (a : ndarray) (k d : nat) :
  has_shape [k; d] a -> 0 < k -> shape a = [k; d].
Proof.
  intros Ha Hk. apply has_shape_items in Ha as (items & -> & Hlen & Hall).
  destruct items as [| r rs]; simpl in *; [lia |].
  inversion Hall as [| ? ? Hr _]; subst.
  apply has_shape_vector in Hr as (xs & -> & Hxs).
  unfold vector; simpl. rewrite length_map, Hxs.
  destruct xs; reflexivity.
Qed.

(** The first two items of a vector of at least two. *)
Lemma head_vector (xs : list Q) :
  2 <= List.length xs ->
  exists x y, head 2 (vector xs) = Ok (vector [x; y]) /\
              nth_error xs 0 = Some x /\ nth_error xs 1 = Some y.
Proof.
  destruct xs as [| x [| y xs]]; simpl; try lia. intros _.
  exists x, y. repeat split.
Qed.

(** The upper-left 2 x 2 block of a matrix of at least that size. *)
Lemma head2_block (a : ndarray) (d : nat) :
  has_shape [d; d] a -> 2 <= d ->
  exists x00 x01 x10 x11,
    head2 2 a = Ok (matrix [[x00; x01]; [x10; x11]]) /\
    entries2 a x00 x01 x10 x11.
Proof.
  intros Ha Hd. apply has_shape_items in Ha as (rows & -> & Hlen & Hall).
  destruct rows as [| r0 [| r1 rows]]; simpl in Hlen; try lia.
  inversion Hall as [| ? ? H0 Hall']; subst.
  inversion Hall' as [| ? ? H1 _]; subst.
  apply has_shape_vector in H0 as (xs & -> & Hxs).
  apply has_shape_vector in H1 as (ys & -> & Hys).
  destruct xs as [| x00 [| x01 xs]]; simpl in Hxs; try lia.
  destruct ys as [| x10 [| x11 ys]]; simpl in Hys; try lia.
  exists x00, x01, x10, x11. split; [reflexivity | repeat split].
Qed.

Lemma matrix2_shape (x00 x01 x10 x11 : Q) :
  has_shape [2; 2] (matrix [[x00; x01]; [x10; x11]]).
Proof. simpl. repeat constructor. Qed.

Lemma matrix2_entry (x00 x01 x10 x11 : Q) (i j : nat) :
  entry (matrix [[x00; x01]; [x10; x11]]) i j =
  match i, j with
  | 0, 0 => Some x00
  | 0, 1 => Some x01
  | 1, 0 => Some x10
  | 1, 1 => Some x11
  | _, _ => None
  end.
Proof.
  destruct i as [| [| i]]; destruct j as [| [| j]]; try reflexivity;
    simpl; try (destruct j; reflexivity); destruct i; reflexivity.
Qed.

Lemma matrix2_symmetric (x00 x01 x11 : Q) :
  symmetric (matrix [[x00; x01]; [x01; x11]]).
Proof.
  intros i j. rewrite !matrix2_entry.
  destruct i as [| [| i]]; destruct j as [| [| j]]; reflexivity.
Qed.

(** The block of a symmetric matrix is symmetric. *)
Lemma head2_symmetric (a : ndarray) (d : nat) :
  has_shape [d; d] a -> symmetric a -> 2 <= d ->
  exists c, head2 2 a = Ok c /\ has_shape [2; 2] c /\ symmetric c.
Proof.
  intros Ha Hs Hd.
  destruct (@head2_block a d Ha Hd) as (x00 & x01 & x10 & x11 & Hh & E00 & E01 & E10 & E11).
  assert (x10 = x01) as ->.
  { pose proof (Hs 0 1) as H. rewrite E01, E10 in H. congruence. }
  eexists; split; [exact Hh | split].
  - apply matrix2_shape.
  - apply matrix2_symmetric.
Qed.

(** [np.diag] of a vector of two. *)
Lemma diag_pair (x y : Q) :
  diag (vector [x; y]) = Ok (matrix [[x; 0]; [0; y]])%Q.
Proof. reflexivity. Qed.

Lemma has_shape_scale_r (sh : list nat) (a : ndarray) (c : Q) :
  has_shape sh a -> has_shape sh (scale_r a c).
Proof.
  revert a; induction sh as [| n sh IH]; intros [x | items]; simpl; auto.
  intros [Hlen Hall]; split; [rewrite length_map; exact Hlen |].
  apply Forall_map. eapply Forall_impl; [| exact Hall]. intros a Ha; apply IH, Ha.
Qed.

Lemma nth_error_seq0 (d i : nat) :
  nth_error (seq 0 d) i = if i <? d then Some i else None.
Proof.
  destruct (i <? d) eqn:E.
  - apply Nat.ltb_lt in E.
    rewrite (nth_error_nth' (seq 0 d) 0) by (rewrite length_seq; exact E).
    rewrite seq_nth by exact E. reflexivity.
  - apply Nat.ltb_ge in E. apply nth_error_None. rewrite length_seq; exact E.
Qed.

Lemma eye_shape (d : nat) : has_shape [d; d] (eye d).
Proof.
  unfold eye; simpl. split; [rewrite length_map, length_seq; reflexivity |].
  apply Forall_map, Forall_forall. intros i _; simpl.
  split; [rewrite length_map, length_seq; reflexivity |].
  apply Forall_map, Forall_forall. intros j _; exact I.
Qed.

(** The entries of [np.eye(d) * c]. *)
Lemma scaled_eye_entry (d : nat) (c : Q) (i j : nat) :
  entry (scale_r (eye d) c) i j =
  if (i <? d) && (j <? d)
  then Some ((if i =? j then 1 else 0) * c)%Q
  else None.
Proof.
  unfold eye; simpl.
  rewrite !nth_error_map, nth_error_seq0.
  destruct (i <? d); simpl; [| reflexivity].
  rewrite !nth_error_map, nth_error_seq0.
  destruct (j <? d); reflexivity.
Qed.

Lemma scaled_eye_symmetric (d : nat) (c : Q) : symmetric (scale_r (eye d) c).
Proof.
  intros i j. rewrite !scaled_eye_entry.
  rewrite (Nat.eqb_sym i j), andb_comm. reflexivity.
Qed.

End NdFacts.

(** ** GMM covariances *)

Section GmmFacts.

Import Nd GmmCovariances.
Local Open Scope string_scope.

Lemma not_listed (t : string) :
  ~ In t covariance_types ->
  (t =? "full") = false /\ (t =? "tied") = false /\
  (t =? "diag") = false /\ (t =? "spherical") = false.
Proof.
  intro H. repeat split; apply String.eqb_neq; intros ->; apply H; simpl; auto.
Qed.

(** Outside the four branches the variable is left as it was. *)
Lemma no_branch_assigns (gmm : gaussian_mixture) (n : nat) (v : option ndarray) :
  ~ In (covariance_type gmm) covariance_types ->
  assign_covariances gmm n v = Ok v.
Proof.
  intro H. destruct (@not_listed (covariance_type gmm) H) as (F & T & D & S).
  unfold assign_covariances. rewrite F, T, D, S. reflexivity.
Qed.

Lemma full_branch (gmm : gaussian_mixture) (k d n : nat) (v : option ndarray) :
  covariance_type gmm = "full" -> fitted k d gmm -> 2 <= d -> n < k ->
  exists c, covariances_at gmm n v = Ok c /\ has_shape [2; 2] c /\ symmetric c.
Proof.
  intros Ht [_ Hf] Hd Hn. unfold covariances_at, assign_covariances.
  rewrite Ht in *. cbn [String.eqb Ascii.eqb Bool.eqb] in *.
  destruct (covariances_ gmm) as [x | ms]; [contradiction |].
  destruct Hf as [Hlen Hall].
  destruct (nth_error ms n) as [m |] eqn:E;
    [| apply nth_error_None in E; lia].
  rewrite Forall_forall in Hall.
  destruct (Hall m (@nth_error_In _ ms n m E)) as [Hm Hs].
  destruct (@head2_symmetric _ d Hm Hs Hd) as (c & Hc & Hsh & Hsym).
  exists c. unfold index. rewrite (@getitem_nth _ ms n m E); cbn [bind].
  rewrite Hc; cbn [bind read_local]. auto.
Qed.

Lemma tied_branch (gmm : gaussian_mixture) (k d n : nat) (v : option ndarray) :
  covariance_type gmm = "tied" -> fitted k d gmm -> 2 <= d ->
  exists c, covariances_at gmm n v = Ok c /\ has_shape [2; 2] c /\ symmetric c.
Proof.
  intros Ht [_ Hf] Hd. unfold covariances_at, assign_covariances.
  rewrite Ht in *. cbn [String.eqb Ascii.eqb Bool.eqb] in *.
  destruct Hf as [Hm Hs].
  destruct (@head2_symmetric _ d Hm Hs Hd) as (c & Hc & Hsh & Hsym).
  exists c. rewrite Hc; cbn [bind read_local]. auto.
Qed.

Lemma diag_branch (gmm : gaussian_mixture) (k d n : nat) (v : option ndarray) :
  covariance_type gmm = "diag" -> fitted k d gmm -> 2 <= d -> n < k ->
  exists c, covariances_at gmm n v = Ok c /\ has_shape [2; 2] c /\ symmetric c.
Proof.
  intros Ht [_ Hf] Hd Hn. unfold covariances_at, assign_covariances.
  rewrite Ht in *. cbn [String.eqb Ascii.eqb Bool.eqb] in *.
  destruct (@index_in_shape _ k n [d] Hf Hn) as (row & Hrow & Hsh).
  apply has_shape_vector in Hsh as (xs & -> & Hxs).
  destruct (@head_vector xs) as (x & y & Hh & _); [lia |].
  exists (matrix [[x; 0]; [0; y]])%Q.
  rewrite Hrow; cbn [bind]. rewrite Hh; cbn [bind].
  rewrite diag_pair; cbn [bind read_local].
  split; [reflexivity | split; [apply matrix2_shape | apply matrix2_symmetric]].
Qed.

(** The "spherical" branch multiplies the identity on all [d] features. *)
Lemma spherical_branch (gmm : gaussian_mixture) (k d n : nat) (v : option ndarray) :
  covariance_type gmm = "spherical" -> fitted k d gmm -> n < k ->
  exists c var,
    covariances_at gmm n v = Ok c /\
    index (covariances_ gmm) n = Ok (Num var) /\
    c = scale_r (eye d) var /\ has_shape [d; d] c /\ symmetric c.
Proof.
  intros Ht [Hmeans Hf] Hn. unfold covariances_at, assign_covariances.
  rewrite Ht in *. cbn [String.eqb Ascii.eqb Bool.eqb] in *.
  destruct (@index_in_shape _ k n [] Hf Hn) as (c0 & Hc0 & Hsh).
  destruct c0 as [var | ?]; [| contradiction].
  exists (scale_r (eye d) var), var.
  unfold shape1. rewrite (@shape_of_matrix _ k d Hmeans) by lia.
  cbn [getitem nth_error bind]. rewrite Hc0; cbn [bind].
  split; [reflexivity | split; [reflexivity | split; [reflexivity | split]]].
  - apply has_shape_scale_r, eye_shape.
  - apply scaled_eye_symmetric.
Qed.

Section Drawn.

Variables axes artist : Type.
Variable principal_axes : ndarray -> py axes.
Variable ellipse : ndarray -> axes -> string -> artist.

(** With no branch taken, the first iteration reads an unbound
    variable. *)
Lemma unbound_at_first_ellipse (gmm : gaussian_mixture) :
  ~ In (covariance_type gmm) covariance_types ->
  make_ellipses principal_axes ellipse gmm = Raise UnboundLocalError.
Proof.
  intro H. unfold make_ellipses, colors.
  cbn [ellipse_loop]. unfold ellipse_step. cbn [fst].
  rewrite (@no_branch_assigns gmm 0 None H). reflexivity.
Qed.

End Drawn.

End GmmFacts.

(** C10 as the code has it.  [make_ellipses] assigns [covariances] only in
    the branches for "full", "tied", "diag" and "spherical"; with any other
    [covariance_type] the variable is never bound and the function fails
    with an unbound-variable error instead of drawing.  For a mixture
    fitted on [d >= 2] features, "full", "tied" and "diag" give a symmetric
    2 x 2 matrix, and "spherical" gives the symmetric [d x d] matrix
    [variance * identity]. *)
Theorem make_ellipses_covariances :
  (forall (gmm : GmmCovariances.gaussian_mixture),
      ~ In (GmmCovariances.covariance_type gmm) GmmCovariances.covariance_types ->
      (forall n v, GmmCovariances.assign_covariances gmm n v = Ok v) /\
      (forall (axes artist : Type) (principal_axes : Nd.ndarray -> py axes)
              (ellipse : Nd.ndarray -> axes -> string -> artist),
          GmmCovariances.make_ellipses principal_axes ellipse gmm
          = Raise UnboundLocalError)) /\
  (forall (gmm : GmmCovariances.gaussian_mixture) (k d n : nat)
          (v : option Nd.ndarray),
      GmmCovariances.fitted k d gmm -> 2 <= d -> n < k ->
      exists c,
        GmmCovariances.covariances_at gmm n v = Ok c /\
        Nd.symmetric c /\
        if (GmmCovariances.covariance_type gmm =? "spherical")%string
        then Nd.has_shape [d; d] c /\
             exists var, Nd.index (GmmCovariances.covariances_ gmm) n = Ok (Nd.Num var) /\
                         c = Nd.scale_r (Nd.eye d) var
        else Nd.has_shape [2; 2] c).
Proof.
  split.
  - intros gmm H; split.
    + intros n v; apply no_branch_assigns, H.
    + intros; apply unbound_at_first_ellipse, H.
  - intros gmm k d n v Hf Hd Hn.
    pose proof Hf as [_ Hcase].
    destruct (GmmCovariances.covariance_type gmm =? "full")%string eqn:F.
    { apply String.eqb_eq in F.
      destruct (@full_branch gmm k d n v F Hf Hd Hn) as (c & Hc & Hsh & Hsym).
      exists c. rewrite F. cbn. auto. }
    destruct (GmmCovariances.covariance_type gmm =? "tied")%string eqn:T.
    { apply String.eqb_eq in T.
      destruct (@tied_branch gmm k d n v T Hf Hd) as (c & Hc & Hsh & Hsym).
      exists c. rewrite T. cbn. auto. }
    destruct (GmmCovariances.covariance_type gmm =? "diag")%string eqn:D.
    { apply String.eqb_eq in D.
      destruct (@diag_branch gmm k d n v D Hf Hd Hn) as (c & Hc & Hsh & Hsym).
      exists c. rewrite D. cbn. auto. }
    destruct (GmmCovariances.covariance_type gmm =? "spherical")%string eqn:S;
      [| contradiction].
    apply String.eqb_eq in S.
    destruct (@spherical_branch gmm k d n v S Hf Hn) as (c & var & Hc & Hvar & Heq & Hsh & Hsym).
    exists c. split; [exact Hc | split; [exact Hsym | split; [exact Hsh |]]].
    exists var; auto.
Qed.

(** The "spherical" estimator of the script is fitted on the four features
    of the iris data: the matrix handed to the eigen-decomposition is 4 x 4,
    not 2 x 2. *)
Lemma spherical_covariance_is_not_2x2 :
  GmmCovariances.fitted 3 4 GmmCovariances.spherical_on_iris /\
  In (GmmCovariances.covariance_type GmmCovariances.spherical_on_iris)
     GmmCovariances.covariance_types /\
  exists c,
    GmmCovariances.covariances_at GmmCovariances.spherical_on_iris 0 None = Ok c /\
    Nd.shape c = [4; 4] /\ ~ Nd.has_shape [2; 2] c.
Proof.
  split; [| split].
  - split; simpl; repeat constructor.
  - simpl; auto.
  - eexists; split; [reflexivity | split; [reflexivity |]].
    simpl. intros [H _]. discriminate H.
Qed.

Lemma make_ellipses_covariances_witness :
  (~ In (GmmCovariances.covariance_type GmmCovariances.unlisted_type)
        GmmCovariances.covariance_types /\
   GmmCovariances.assign_covariances GmmCovariances.unlisted_type 0 None = Ok None) /\
  (GmmCovariances.fitted 3 4 GmmCovariances.spherical_on_iris /\ 2 <= 4 /\ 0 < 3 /\
   exists c,
     GmmCovariances.covariances_at GmmCovariances.spherical_on_iris 0 None = Ok c /\
     Nd.symmetric c /\ Nd.has_shape [4; 4] c).
Proof.
  assert (U : ~ In (GmmCovariances.covariance_type GmmCovariances.unlisted_type)
                   GmmCovariances.covariance_types).
  { simpl. intros [H | [H | [H | [H | []]]]]; discriminate H. }
  assert (F : GmmCovariances.fitted 3 4 GmmCovariances.spherical_on_iris).
  { split; simpl; repeat constructor. }
  assert (D : 2 <= 4) by lia.
  assert (N : 0 < 3) by lia.
  split.
  - split; [exact U |].
    exact (proj1 (proj1 make_ellipses_covariances _ U) 0 None).
  - split; [exact F | split; [exact D | split; [exact N |]]].
    destruct (proj2 make_ellipses_covariances
                    GmmCovariances.spherical_on_iris 3 4 0 None F D N)
      as (c & Hc & Hsym & Hsh & _).
    exists c. auto.
Defined.

Lemma mean_roc_pinned_and_clipped_witness :
  RocCrossval.two_folds <> [] /\
  exists r,
    RocCrossval.mean_roc RocCrossval.diagonal RocCrossval.tenth
                         RocCrossval.two_folds = Ok r /\
    Np.item (RocCrossval.mean_tpr r) (-1) = Ok 1%Q /\
    Forall (fun u => (u <= 1)%Q) (RocCrossval.tprs_upper r) /\
    Forall (fun l => (0 <= l)%Q) (RocCrossval.tprs_lower r).
Proof.
  assert (H : RocCrossval.two_folds <> []) by discriminate.
  split; [exact H |].
  destruct (@mean_roc_pinned_and_clipped RocCrossval.diagonal RocCrossval.tenth
              RocCrossval.two_folds H)
    as (r & Hr & _ & _ & _ & Hlast & _ & Hup & _ & Hlo & _).
  exists r. auto.
Defined.

(** ** The gallery *)

Section GalleryFacts.

Import Gallery Notebooks.
Local Open Scope string_scope.

Lemma mem_In (x : string) (l : list string) : mem x l = true <-> In x l.
Proof.
  unfold mem. rewrite existsb_exists. split.
  - intros (y & Hy & E). apply String.eqb_eq in E; subst; exact Hy.
  - intro H. exists x; split; [exact H | apply String.eqb_refl].
Qed.

Lemma same_eq (a b : category) : same a b = true <-> a = b.
Proof.
  unfold same. destruct (category_eq_dec a b); split; auto; discriminate.
Qed.

(** A check that holds of each of the fifteen notebooks holds of every
    member of the gallery. *)
Lemma gallery_forall (P : script -> bool) :
  forallb P gallery = true -> forall s, In s gallery -> P s = true.
Proof. intros H s Hs. rewrite forallb_forall in H. apply H, Hs. Qed.

Lemma calls_forall (P : callee -> bool) (s : script) :
  forallb P (calls s) = true -> forall c, In c (calls s) -> P c = true.
Proof. intros H c Hc. rewrite forallb_forall in H. apply H, Hc. Qed.

End GalleryFacts.

Ltac split_checks H :=
  repeat match type of H with
         | (_ && _)%bool = true =>
             let H1 := fresh "Hc" in
             apply andb_prop in H as [H1 H]; split_checks H1
         end.

Ltac member := vm_compute; repeat (first [left; reflexivity | right]).







(** C3, the claim on the notebook of the CO2 forecast.  Its last statement
    is the bare expression [gaussian_process.kernel_], after the last
    plotting call. *)
Lemma gpr_ends_in_an_inspection :
  In Notebooks.gpr_co2 Notebooks.gallery /\
  Gallery.final_statement Notebooks.gpr_co2
  = Some (Gallery.Simple Gallery.Expr [] []) /\
  Gallery.ends_in_plot Notebooks.gpr_co2 = false.
Proof.
  split; [member | split; reflexivity].
Qed.

(** C3 as the code has it.  The last statement of every script is a
    plotting or plot-display call, except in the notebook of the CO2
    forecast, where one bare expression inspecting the fitted kernel follows
    the last plotting call. *)
Theorem scripts_end_in_plot_or_inspection :
  forall s, In s Notebooks.gallery ->
    Gallery.ends_in_plot s = true \/
    (s = Notebooks.gpr_co2 /\ Notebooks.ends_in_plot_then_inspection s = true).
Proof.
  intros s Hs. unfold Notebooks.gallery in Hs. simpl in Hs.
  repeat (destruct Hs as [<- | Hs]); try contradiction;
    first [ left; reflexivity | right; split; reflexivity ].
Qed.

Lemma scripts_end_in_plot_or_inspection_witness :
  In Notebooks.gpr_co2 Notebooks.gallery /\
  (Gallery.ends_in_plot Notebooks.gpr_co2 = true \/
   (Notebooks.gpr_co2 = Notebooks.gpr_co2 /\
    Notebooks.ends_in_plot_then_inspection Notebooks.gpr_co2 = true)).
Proof.
  assert (H : In Notebooks.gpr_co2 Notebooks.gallery) by member.
  split; [exact H |].
  exact (scripts_end_in_plot_or_inspection Notebooks.gpr_co2 H).
Defined.

(** C4.  No script defines a class.  Every object a script instantiates
    is of a class imported from the ML library, or is one of eight
    auxiliary objects of other libraries that are no estimators; every
    call of [fit], [fit_transform], [transform], [predict],
    [predict_proba], [decision_function] or [score] is on an instance of a
    class of the ML library; and every estimator class noted for a
    variable belongs to that library and is built by the script. *)
Theorem estimators_are_library_classes :
  forall s, In s Notebooks.gallery ->
    Gallery.classes s = [] /\
    (forall c, In c (Gallery.calls s) ->
       Gallery.capitalised (Gallery.attr c) = true ->
       exists q, Gallery.resolve s c = Gallery.Imported q /\
                 (Gallery.package q = "sklearn"%string \/
                  In (Gallery.attr c) Gallery.auxiliary_classes)) /\
    (forall c, In c (Gallery.calls s) ->
       In (Gallery.attr c) Gallery.estimator_api ->
       Gallery.library_estimator s c = true) /\
    (forall cls, In cls (Notebooks.noted_estimators s) ->
       Gallery.package cls = "sklearn"%string /\ Notebooks.built_in s cls = true).
Proof.
  intros s Hs.
  pose (check := fun s =>
    (match Gallery.classes s with [] => true | _ => false end
     && forallb (fun c =>
          negb (Gallery.capitalised (Gallery.attr c)) ||
          match Gallery.resolve s c with
          | Gallery.Imported q =>
              String.eqb (Gallery.package q) "sklearn" ||
              Gallery.mem (Gallery.attr c) Gallery.auxiliary_classes
          | _ => false
          end) (Gallery.calls s)
     && forallb (fun c =>
          negb (Gallery.mem (Gallery.attr c) Gallery.estimator_api) ||
          Gallery.library_estimator s c) (Gallery.calls s)
     && forallb (fun cls =>
          String.eqb (Gallery.package cls) "sklearn" && Notebooks.built_in s cls)
          (Notebooks.noted_estimators s))%bool).
  assert (H : check s = true) by (apply gallery_forall; [reflexivity | exact Hs]).
  unfold check in H.
  apply andb_prop in H as [H H4]. apply andb_prop in H as [H H3].
  apply andb_prop in H as [H1 H2].
  split; [| split; [| split]].
  - destruct (Gallery.classes s); [reflexivity | discriminate].
  - intros c Hc Hcap. rewrite forallb_forall in H2. specialize (H2 c Hc).
    rewrite Hcap in H2. simpl in H2.
    destruct (Gallery.resolve s c) as [q | | | | |]; try discriminate.
    exists q; split; [reflexivity |].
    apply orb_prop in H2 as [H2 | H2];
      [left; apply String.eqb_eq, H2 | right; apply mem_In, H2].
  - intros c Hc Hapi. rewrite forallb_forall in H3. specialize (H3 c Hc).
    apply mem_In in Hapi. rewrite Hapi in H3. exact H3.
  - intros cls Hcls. rewrite forallb_forall in H4. specialize (H4 cls Hcls).
    apply andb_prop in H4 as [Hp Hb]. apply String.eqb_eq in Hp. auto.
Qed.

Lemma estimators_are_library_classes_witness :
  In Notebooks.plot_multioutput_face_completion Notebooks.gallery /\
  Gallery.classes Notebooks.plot_multioutput_face_completion = [].
Proof.
  assert (H : In Notebooks.plot_multioutput_face_completion Notebooks.gallery)
    by member.
  split; [exact H |].
  exact (proj1 (estimators_are_library_classes
                  Notebooks.plot_multioutput_face_completion H)).
Defined.

(** C5.  Every name a script reads is bound in the script itself (by an
    import, an assignment, a loop, a function definition or its docstring)
    or is a built-in of the language; every import is from a third-party
    package or the standard library, never from a directory or a file of
    the repository. *)
Theorem scripts_are_self_contained :
  forall s, In s Notebooks.gallery ->
    (forall n, In n (Gallery.loads s) ->
       In n (Gallery.bound s) \/ In n Gallery.builtins) /\
    (forall m, In m (Gallery.imported_modules s) ->
       In (Gallery.package m) Gallery.external_packages /\
       ~ In (Gallery.package m) Notebooks.repository_names).
Proof.
  intros s Hs.
  pose (check := fun s =>
    (Gallery.names_resolved s
     && forallb (fun m =>
          Gallery.mem (Gallery.package m) Gallery.external_packages &&
          negb (Gallery.mem (Gallery.package m) Notebooks.repository_names))
          (Gallery.imported_modules s))%bool).
  assert (H : check s = true) by (apply gallery_forall; [reflexivity | exact Hs]).
  unfold check in H. apply andb_prop in H as [H1 H2]. split.
  - intros n Hn. unfold Gallery.names_resolved in H1.
    rewrite forallb_forall in H1. specialize (H1 n Hn).
    apply orb_prop in H1 as [H1 | H1]; [left | right]; apply mem_In, H1.
  - intros m Hm. rewrite forallb_forall in H2. specialize (H2 m Hm).
    apply andb_prop in H2 as [He Hr]. split; [apply mem_In, He |].
    intro Hin. apply mem_In in Hin. rewrite Hin in Hr. discriminate Hr.
Qed.

Lemma scripts_are_self_contained_witness :
  In Notebooks.sgd_early_stopping Notebooks.gallery /\
  (In "load_mnist"%string (Gallery.bound Notebooks.sgd_early_stopping) \/
   In "load_mnist"%string Gallery.builtins).
Proof.
  assert (H : In Notebooks.sgd_early_stopping Notebooks.gallery) by member.
  split; [exact H |].
  apply (proj1 (scripts_are_self_contained Notebooks.sgd_early_stopping H)).
  member.
Defined.

(** C6, the claim on the notebook of the image denoising.  The import of
    [face] is wrapped in a [try] with a handler written in the script; no
    library supplies it. *)
Lemma denoising_handles_import_error :
  In Notebooks.image_denoising Notebooks.gallery /\
  Gallery.handlings Notebooks.image_denoising
  = [Gallery.Except
       [Gallery.FromImport "scipy.datasets" [("face", "face")]]
       [("ImportError", [Gallery.FromImport "scipy.misc" [("face", "face")]])]]%string /\
  forallb (Gallery.library_provided Notebooks.image_denoising)
          (Gallery.handlings Notebooks.image_denoising) = false.
Proof.
  split; [member | split; reflexivity].
Qed.

(** C6 as the code has it.  The only exception handling in the gallery is
    an import with a fallback ([try] to import a function, [except
    ImportError] import the same function of the same package from its
    older module), and the only warning suppression is the decorator
    [ignore_warnings] of the ML library; no script has a [raise], [with],
    [assert] or [while] statement. *)
Theorem handling_is_fallback_or_library :
  forall s, In s Notebooks.gallery ->
    Gallery.others s = [] /\
    (forall h, In h (Gallery.handlings s) ->
       Gallery.import_fallback h = true \/
       (Gallery.library_provided s h = true /\
        Gallery.library_suppression s h = true)) /\
    (Gallery.handlings s <> [] ->
     In s [Notebooks.image_denoising; Notebooks.sgd_early_stopping]).
Proof.
  intros s Hs. unfold Notebooks.gallery in Hs. simpl in Hs.
  repeat (destruct Hs as [<- | Hs]); try contradiction;
    (split; [reflexivity | split]);
    try (intros h Hh; vm_compute in Hh; contradiction);
    try (intro Hne; exfalso; apply Hne; reflexivity);
    try (intros _; simpl; tauto).
  - intros h Hh. vm_compute in Hh. destruct Hh as [<- | []].
    left; reflexivity.
  - intros h Hh. vm_compute in Hh. destruct Hh as [<- | []].
    right; split; reflexivity.
Qed.

Lemma handling_is_fallback_or_library_witness :
  In Notebooks.sgd_early_stopping Notebooks.gallery /\
  Gallery.others Notebooks.sgd_early_stopping = [].
Proof.
  assert (H : In Notebooks.sgd_early_stopping Notebooks.gallery) by member.
  split; [exact H |].
  exact (proj1 (handling_is_fallback_or_library Notebooks.sgd_early_stopping H)).
Defined.

(** C7.  For each estimator family of the description (support-vector
    classifiers, ensemble trees, Gaussian processes, covariance estimators,
    t-SNE, dictionary learning, scalers and transformers, Gaussian
    mixtures) some script of the gallery constructs an estimator of a class
    of the family and fits it. *)
Theorem every_family_is_demonstrated :
  forall family classes, In (family, classes) Notebooks.families ->
    exists s cls,
      In s Notebooks.gallery /\ In cls classes /\
      Gallery.constructs s cls = true /\ Gallery.fits s cls = true.
Proof.
  intros family classes Hf. unfold Notebooks.families in Hf. simpl in Hf.
  repeat (destruct Hf as [Hf | Hf]); try contradiction;
    injection Hf as <- <-.
  - exists Notebooks.svm_iris, "sklearn.svm.SVC"%string.
    split; [member | split; [member | split; reflexivity]].
  - exists Notebooks.plot_multioutput_face_completion,
      "sklearn.ensemble.ExtraTreesRegressor"%string.
    split; [member | split; [member | split; reflexivity]].
  - exists Notebooks.gpr_co2,
      "sklearn.gaussian_process.GaussianProcessRegressor"%string.
    split; [member | split; [member | split; reflexivity]].
  - exists Notebooks.plot_mahalanobis_distances, "sklearn.covariance.MinCovDet"%string.
    split; [member | split; [member | split; reflexivity]].
  - exists Notebooks.tsne_perplexity, "sklearn.manifold.TSNE"%string.
    split; [member | split; [member | split; reflexivity]].
  - exists Notebooks.image_denoising,
      "sklearn.decomposition.MiniBatchDictionaryLearning"%string.
    split; [member | split; [member | split; reflexivity]].
  - exists Notebooks.all_scaling, "sklearn.preprocessing.StandardScaler"%string.
    split; [member | split; [member | split; reflexivity]].
  - exists Notebooks.plot_gmm_covariances, "sklearn.mixture.GaussianMixture"%string.
    split; [member | split; [member | split; reflexivity]].
Qed.

Lemma every_family_is_demonstrated_witness :
  In ("Gaussian mixture models", ["sklearn.mixture.GaussianMixture"])%string
     Notebooks.families /\
  exists s cls,
    In s Notebooks.gallery /\ In cls ["sklearn.mixture.GaussianMixture"]%string /\
    Gallery.constructs s cls = true /\ Gallery.fits s cls = true.
Proof.
  assert (H : In ("Gaussian mixture models", ["sklearn.mixture.GaussianMixture"])%string
                 Notebooks.families) by member.
  split; [exact H |].
  exact (every_family_is_demonstrated _ _ H).
Defined.

(** * Further properties of the scripts *)

(** ** Sequences *)

Lemma mapM_pointwise {A B : Type} (f : A -> py B) (g : A -> B) (l : list A) :
  (forall x, In x l -> f x = Ok (g x)) -> mapM f l = Ok (map g l).
Proof.
  induction l as [| a l IH]; intro H; simpl; [reflexivity |].
  rewrite (H a (or_introl eq_refl)); cbn [bind].
  rewrite IH by (intros x Hx; apply H; right; exact Hx). reflexivity.
Qed.

Lemma mapM_raises_first {A B : Type} (f : A -> py B) (a : A) (l : list A) (e : exn) :
  f a = Raise e -> mapM f (a :: l) = Raise e.
Proof. intro H; simpl; rewrite H; reflexivity. Qed.

Lemma mapM_raises_at {A : Type} (f : nat -> py A) (start n rest : nat) (e : exn) :
  (forall i, In i (seq start n) -> exists a, f i = Ok a) ->
  f (start + n) = Raise e ->
  mapM f (seq start (n + 1 + rest)) = Raise e.
Proof.
  revert start; induction n as [| n IH]; intros start Hok Hbad.
  - rewrite Nat.add_0_r in Hbad. simpl. rewrite Hbad. reflexivity.
  - cbn [Nat.add seq mapM].
    destruct (Hok start (or_introl eq_refl)) as (a & Ha). rewrite Ha; cbn [bind].
    rewrite IH; [reflexivity | |].
    + intros i Hi. apply Hok. right. exact Hi.
    + replace (S start + n) with (start + S n) by lia. exact Hbad.
Qed.

Lemma In_firstn {A : Type} (n : nat) (l : list A) (x : A) :
  In x (firstn n l) -> In x l.
Proof.
  intro H. rewrite <- (firstn_skipn n l). apply in_or_app. left; exact H.
Qed.

Lemma concat_seq_rows (c n start : nat) :
  concat (map (fun i => seq (start + i * c) c) (seq 0 n)) = seq start (n * c).
Proof.
  revert start; induction n as [| n IH]; intro start; [reflexivity |].
  rewrite seq_S, map_app, concat_app. simpl.
  rewrite IH, app_nil_r.
  replace (n * c + c) with (c + n * c) by lia.
  rewrite (Nat.add_comm c (n * c)), seq_app. reflexivity.
Qed.

(** ** Reshaping *)

Section ReshapeFacts.

Variable A : Type.

Lemma concat_chunks (rows cols : nat) (l : list A) :
  List.length l = rows * cols -> concat (Reshape.chunks rows cols l) = l.
Proof.
  revert l; induction rows as [| r IH]; intros l H; simpl in *.
  - destruct l; [reflexivity | discriminate].
  - rewrite IH; [apply firstn_skipn |].
    rewrite length_skipn, H. lia.
Qed.

Lemma chunks_shape (rows cols : nat) (l : list A) :
  List.length l = rows * cols ->
  List.length (Reshape.chunks rows cols l) = rows /\
  Forall (fun r => List.length r = cols) (Reshape.chunks rows cols l).
Proof.
  revert l; induction rows as [| r IH]; intros l H; simpl in *.
  - split; [reflexivity | constructor].
  - destruct (IH (skipn cols l)) as [Hl Hw].
    { rewrite length_skipn, H. lia. }
    split; [rewrite Hl; reflexivity |].
    constructor; [| exact Hw].
    rewrite length_firstn, H. lia.
Qed.

(** Reshaping succeeds exactly on the right number of items, and
    flattening the result gives the array back. *)
Lemma reshape_ravel (shape : nat * nat) (l : list A) :
  List.length l = fst shape * snd shape ->
  exists img, Reshape.reshape shape l = Ok img /\
              Reshape.ravel img = l /\
              List.length img = fst shape /\
              Forall (fun r => List.length r = snd shape) img.
Proof.
  intro H. exists (Reshape.chunks (fst shape) (snd shape) l).
  unfold Reshape.reshape. rewrite H, Nat.eqb_refl.
  destruct (chunks_shape _ _ l H) as [Hl Hw].
  repeat split; [apply concat_chunks, H | exact Hl | exact Hw].
Qed.

Lemma reshape_wrong_size (shape : nat * nat) (l : list A) :
  List.length l <> fst shape * snd shape ->
  Reshape.reshape shape l = Raise ValueError.
Proof.
  intro H. unfold Reshape.reshape.
  destruct (List.length l =? fst shape * snd shape) eqn:E; [| reflexivity].
  apply Nat.eqb_eq in E. contradiction.
Qed.

End ReshapeFacts.

Lemma mapM_Forall2 {A B : Type} (f : A -> py B) (R : A -> B -> Prop) (l : list A) :
  (forall x, In x l -> exists y, f x = Ok y /\ R x y) ->
  exists ys, mapM f l = Ok ys /\ Forall2 R l ys.
Proof.
  induction l as [| a l IH]; intro H; simpl.
  - exists []; split; [reflexivity | constructor].
  - destruct (H a (or_introl eq_refl)) as (y & Hy & Ry).
    destruct IH as (ys & Hys & Rys); [intros x Hx; apply H; right; exact Hx |].
    exists (y :: ys). rewrite Hy; cbn [bind]. rewrite Hys; cbn [bind].
    split; [reflexivity | constructor; assumption].
Qed.

Lemma Forall2_map_eq {A B C : Type} (g : A -> C) (h : B -> C) (l : list A) (ys : list B) :
  Forall2 (fun x y => h y = g x) l ys -> map h ys = map g l.
Proof. induction 1; simpl; congruence. Qed.

Lemma map_add_seq (a k : nat) : map (fun j => a + j) (seq 0 k) = seq a k.
Proof.
  revert a; induction k as [| k IH]; intro a; [reflexivity |].
  simpl. rewrite Nat.add_0_r. f_equal.
  rewrite <- seq_shift, map_map, <- (IH (S a)).
  apply map_ext. intro j; lia.
Qed.

Lemma enumerate_fst {A : Type} (l : list A) :
  map fst (Py.enumerate l) = seq 0 (List.length l).
Proof.
  unfold Py.enumerate. generalize 0.
  induction l as [| a l IH]; intro s; simpl; [reflexivity |].
  rewrite IH; reflexivity.
Qed.

Lemma enumerate_snd {A : Type} (l : list A) : map snd (Py.enumerate l) = l.
Proof.
  unfold Py.enumerate. generalize 0.
  induction l as [| a l IH]; intro s; simpl; [reflexivity |].
  rewrite IH; reflexivity.
Qed.

Lemma enumerate_In {A : Type} (l : list A) (j : nat) (x : A) :
  In (j, x) (Py.enumerate l) -> nth_error l j = Some x.
Proof.
  unfold Py.enumerate.
  assert (G : forall s, In (j, x) (combine (seq s (List.length l)) l) ->
                        s <= j /\ nth_error l (j - s) = Some x).
  { induction l as [| a l IH]; intros s H; simpl in H; [contradiction |].
    destruct H as [H | H].
    - injection H as <- <-. rewrite Nat.sub_diag. split; [lia | reflexivity].
    - destruct (IH _ H) as [Hle Hn]. split; [lia |].
      replace (j - s) with (S (j - S s)) by lia. exact Hn. }
  intro H. destruct (G 0 H) as [_ Hn]. rewrite Nat.sub_0_r in Hn. exact Hn.
Qed.

Lemma stacked_size {pixel : Type} (n_pixels : nat) (row lower : FaceCompletion.face pixel) :
  List.length row = n_pixels ->
  List.length lower = n_pixels - n_pixels / 2 ->
  List.length (FaceCompletion.hstack (firstn ((n_pixels + 1) / 2) row) lower)
  = n_pixels + n_pixels mod 2.
Proof.
  intros Hr Hl. unfold FaceCompletion.hstack. rewrite length_app, length_firstn, Hr, Hl.
  pose proof (Nat.div_mod_eq n_pixels 2) as E.
  pose proof (Nat.div_mod_eq (n_pixels + 1) 2) as E1.
  pose proof (Nat.mod_upper_bound n_pixels 2 ltac:(discriminate)) as B.
  pose proof (Nat.mod_upper_bound (n_pixels + 1) 2 ltac:(discriminate)) as B1.
  destruct (Nat.min_spec ((n_pixels + 1) / 2) n_pixels) as [[? ->] | [? ->]]; lia.
Qed.

(** ** Face completion: the figure *)

Section FacePlotFacts.

Import FaceCompletion FacePlot.

Variable pixel : Type.
Variable n_pixels : nat.
Variable test : faces pixel.
Variable predictions : list (string * faces pixel).

Hypothesis Hwidth : has_width n_pixels test.
Hypothesis Hpred :
  Forall (fun p => prediction_of n_pixels test (snd p)) predictions.

Lemma test_row_width (i : nat) (row : face pixel) :
  nth_error test i = Some row -> List.length row = n_pixels.
Proof.
  intro H. unfold has_width in Hwidth. rewrite Forall_forall in Hwidth.
  apply Hwidth. eapply nth_error_In; exact H.
Qed.

Lemma true_face_stacked (i : nat) (row : face pixel) :
  nth_error test i = Some row ->
  true_face n_pixels test i
  = Ok (hstack (firstn ((n_pixels + 1) / 2) row) (skipn (n_pixels / 2) row)).
Proof.
  intro H. unfold true_face.
  rewrite (X_test_row pixel n_pixels test i row H),
          (y_test_row pixel n_pixels test i row H).
  reflexivity.
Qed.

Lemma subplot_in_grid (i k : nat) :
  i < n_faces -> k < (1 + List.length predictions) ->
  Plt.subplot n_faces (1 + List.length predictions) (i * (1 + List.length predictions) + 1 + k) = Ok (i * (1 + List.length predictions) + 1 + k).
Proof.
  intros Hi Hk. unfold Plt.subplot.
  replace (1 <=? i * (1 + List.length predictions) + 1 + k) with true by (symmetry; apply Nat.leb_le; lia).
  replace (i * (1 + List.length predictions) + 1 + k <=? n_faces * (1 + List.length predictions)) with true; [reflexivity |].
  symmetry; apply Nat.leb_le. nia.
Qed.

Lemma predicted_row (i : nat) (est : string) (predicted : faces pixel) :
  i < List.length test -> In (est, predicted) predictions ->
  exists lower, nth_error predicted i = Some lower /\
                List.length lower = n_pixels - n_pixels / 2.
Proof.
  intros Hi Hin. rewrite Forall_forall in Hpred.
  destruct (Hpred _ Hin) as [Hlen Hw]. simpl in Hlen, Hw.
  destruct (nth_error predicted i) as [lower |] eqn:E.
  - exists lower; split; [reflexivity |].
    unfold has_width in Hw. rewrite Forall_forall in Hw.
    apply Hw. eapply nth_error_In; exact E.
  - apply nth_error_None in E. lia.
Qed.

Hypothesis Hsize : n_pixels + n_pixels mod 2 = fst image_shape * snd image_shape.

(** One row of the figure. *)
Lemma figure_row_drawn (i : nat) (row : face pixel) :
  i < n_faces ->
  nth_error test i = Some row ->
  exists first rest,
    figure_row n_pixels test predictions i = Ok (first :: rest) /\
    cell first = i * (1 + List.length predictions) + 1 /\
    heading first = (if i =? 0 then Some "true faces"%string else None) /\
    Reshape.ravel (image first)
    = firstn ((n_pixels + 1) / 2) row ++ skipn (n_pixels / 2) row /\
    Forall2 (fun (jp : nat * (string * faces pixel)) q =>
               cell q = i * (1 + List.length predictions) + 2 + fst jp /\
               heading q = (if i =? 0 then Some (fst (snd jp)) else None) /\
               exists lower,
                 nth_error (snd (snd jp)) i = Some lower /\
                 Reshape.ravel (image q)
                 = firstn ((n_pixels + 1) / 2) row ++ lower)
            (Py.enumerate predictions) rest.
Proof.
  intros Hi Hrow.
  assert (Hit : i < List.length test).
  { apply nth_error_Some. rewrite Hrow; discriminate. }
  pose proof (test_row_width i row Hrow) as Hlen.
  destruct (reshape_ravel pixel image_shape
              (hstack (firstn ((n_pixels + 1) / 2) row) (skipn (n_pixels / 2) row)))
    as (img & Himg & Hrav & _).
  { rewrite (stacked_size n_pixels); [exact Hsize | exact Hlen |].
    rewrite length_skipn, Hlen; reflexivity. }
  destruct (mapM_Forall2
              (completed_panel n_pixels (1 + List.length predictions) test i)
              (fun (jp : nat * (string * faces pixel)) q =>
                 cell q = i * (1 + List.length predictions) + 2 + fst jp /\
                 heading q = (if i =? 0 then Some (fst (snd jp)) else None) /\
                 exists lower,
                   nth_error (snd (snd jp)) i = Some lower /\
                   Reshape.ravel (image q)
                   = firstn ((n_pixels + 1) / 2) row ++ lower)
              (Py.enumerate predictions)) as (rest & Hrest & Hall).
  { intros [j [est predicted]] Hin.
    pose proof (enumerate_In predictions j (est, predicted) Hin) as Hn.
    assert (Hj : j < List.length predictions).
    { apply nth_error_Some. rewrite Hn; discriminate. }
    destruct (predicted_row i est predicted Hit (nth_error_In _ _ Hn))
      as (lower & Hlow & Hlowlen).
    destruct (reshape_ravel pixel image_shape
                (hstack (firstn ((n_pixels + 1) / 2) row) lower))
      as (img' & Himg' & Hrav' & _).
    { rewrite (stacked_size n_pixels); [exact Hsize | exact Hlen | exact Hlowlen]. }
    exists (@Panel pixel (i * (1 + List.length predictions) + 2 + j)
                  (if i =? 0 then Some est else None) img').
    split.
    - unfold completed_panel.
      rewrite (X_test_row pixel n_pixels test i row Hrow); cbn [bind].
      rewrite (getitem_nth _ _ _ Hlow); cbn [bind].
      replace (i * (1 + List.length predictions) + 2 + j) with (i * (1 + List.length predictions) + 1 + S j) by lia.
      rewrite subplot_in_grid by lia. cbn [bind].
      rewrite Himg'; cbn [bind]. reflexivity.
    - cbn [cell heading image fst snd]. repeat split.
      exists lower; split; [exact Hlow | exact Hrav']. }
  exists (@Panel pixel (i * (1 + List.length predictions) + 1)
                (if i =? 0 then Some "true faces"%string else None) img), rest.
  split.
  - unfold figure_row, true_panel.
    rewrite (true_face_stacked i row Hrow); cbn [bind].
    replace (i * (1 + List.length predictions) + 1) with (i * (1 + List.length predictions) + 1 + 0) at 1 by lia.
    rewrite subplot_in_grid by lia.
    rewrite Nat.add_0_r. cbn [bind].
    rewrite Himg; cbn [bind]. rewrite Hrest; cbn [bind]. reflexivity.
  - cbn [cell heading image]. repeat split; [exact Hrav | exact Hall].
Qed.

End FacePlotFacts.

Lemma Forall2_enumerate {A B : Type} (P : A -> B -> Prop) (l : list A) (ys : list B) :
  Forall2 (fun (jx : nat * A) y => P (snd jx) y) (Py.enumerate l) ys ->
  Forall2 P l ys.
Proof.
  unfold Py.enumerate. generalize 0. revert ys.
  induction l as [| a l IH]; intros ys s H; simpl in H.
  - inversion H; constructor.
  - inversion H as [| ? y ? ys' Hy Hys]; subst. constructor; [exact Hy |].
    apply (IH _ _ Hys).
Qed.

Lemma rows_where_partition {pixel : Type} (keep : nat -> bool)
      (targets : list nat) (a : FaceCompletion.faces pixel) :
  List.length targets = List.length a ->
  Permutation
    (FaceCompletion.rows_where keep targets a ++
     FaceCompletion.rows_where (fun t => negb (keep t)) targets a) a.
Proof.
  revert a; induction targets as [| t ts IH]; intros [| r rs] H;
    simpl in H; try discriminate; simpl; [constructor |].
  injection H as H. specialize (IH rs H).
  destruct (keep t); simpl.
  - constructor; exact IH.
  - apply Permutation_sym, Permutation_cons_app, Permutation_sym; exact IH.
Qed.

Lemma rows_where_ext {pixel : Type} (f g : nat -> bool)
      (targets : list nat) (a : FaceCompletion.faces pixel) :
  (forall t, f t = g t) ->
  FaceCompletion.rows_where f targets a = FaceCompletion.rows_where g targets a.
Proof.
  intro H. revert a; induction targets as [| t ts IH]; intros [| r rs]; simpl;
    try reflexivity.
  rewrite (H t), IH; reflexivity.
Qed.

(** X1.  The figure of the face-completion script: when every test row has
    [n_pixels] pixels with [n_pixels + n_pixels mod 2 = 64 * 64], there are
    at least [n_faces] test rows and every estimator predicted one lower
    half per test row, all the [plt.subplot] and [reshape] calls succeed and
    the panels drawn occupy the cells [1 .. n_faces * n_cols] of the grid,
    each once, in order. *)
Theorem face_figure_fills_the_grid :
  forall (pixel : Type) (n_pixels : nat) (test : FaceCompletion.faces pixel)
         (predictions : list (string * FaceCompletion.faces pixel)),
    FaceCompletion.has_width n_pixels test ->
    FaceCompletion.n_faces <= List.length test ->
    Forall (fun p => FacePlot.prediction_of n_pixels test (snd p)) predictions ->
    n_pixels + n_pixels mod 2 = 64 * 64 ->
    exists panels,
      FacePlot.plot_faces n_pixels test predictions = Ok panels /\
      map (@FacePlot.cell pixel) panels
      = seq 1 (FaceCompletion.n_faces * (1 + List.length predictions)).
Proof.
  intros pixel n test predictions Hw Hrows Hpred Hsize.
  set (c := 1 + List.length predictions).
  destruct (mapM_Forall2
              (FacePlot.figure_row n test predictions)
              (fun i ps => map (@FacePlot.cell pixel) ps = seq (1 + i * c) c)
              (seq 0 FaceCompletion.n_faces)) as (rows & Hrows_ok & Hall).
  { intros i Hi. apply in_seq in Hi.
    destruct (nth_error test i) as [row |] eqn:Hrow;
      [| apply nth_error_None in Hrow; lia].
    destruct (figure_row_drawn pixel n test predictions Hw Hpred Hsize
                               i row ltac:(lia) Hrow)
      as (first & rest & Hfig & Hcell & _ & _ & Hrest).
    exists (first :: rest); split; [exact Hfig |].
    cbn [map]. rewrite Hcell. fold c.
    assert (E : map (@FacePlot.cell pixel) rest = seq (i * c + 2) (List.length predictions)).
    { rewrite <- (map_add_seq (i * c + 2) (List.length predictions)).
      rewrite <- enumerate_fst, map_map.
      apply Forall2_map_eq.
      eapply Forall2_impl; [| exact Hrest].
      intros jp q (Hq & _). fold c in Hq. exact Hq. }
    rewrite E.
    replace (seq (1 + i * c) c) with (seq (i * c + 1) (S (List.length predictions)))
      by (f_equal; lia).
    cbn [seq]. replace (S (i * c + 1)) with (i * c + 2) by lia. reflexivity. }
  exists (concat rows). split.
  - unfold FacePlot.plot_faces. rewrite Hrows_ok; reflexivity.
  - rewrite concat_map.
    rewrite (Forall2_map_eq (fun i => seq (1 + i * c) c) (map (@FacePlot.cell pixel))
                            (seq 0 FaceCompletion.n_faces) rows Hall).
    apply concat_seq_rows.
Qed.

Lemma face_figure_fills_the_grid_witness :
  exists panels,
    FacePlot.plot_faces (64 * 64) (repeat (repeat 0 (64 * 64)) 5)
      [("ridge"%string, repeat (repeat 0 (32 * 64)) 5)] = Ok panels /\
    map (@FacePlot.cell nat) panels = seq 1 (FaceCompletion.n_faces * 2).
Proof.
  apply (face_figure_fills_the_grid nat (64 * 64) (repeat (repeat 0 (64 * 64)) 5)
           [("ridge"%string, repeat (repeat 0 (32 * 64)) 5)]).
  - apply Forall_forall; intros r Hr. apply repeat_spec in Hr; subst r.
    apply repeat_length.
  - rewrite repeat_length. apply Nat.le_refl.
  - constructor; [| constructor]. split.
    + cbn [snd]. rewrite !repeat_length; reflexivity.
    + apply Forall_forall; intros r Hr. cbn [snd] in Hr.
      apply repeat_spec in Hr; subst r. rewrite repeat_length.
      vm_compute; reflexivity.
  - vm_compute; reflexivity.
Defined.

(** X2.  What one row of that figure shows, for 64 x 64 images: the first
    panel is the test row itself, reshaped; the panel of each estimator is
    the upper half of the same test row followed by that estimator's
    predicted lower half; every image has 64 rows of 64 pixels; the titles
    ("true faces", then the estimator names) are put on the first row of
    the figure only. *)
Theorem face_figure_row_content :
  forall (pixel : Type) (n_pixels : nat) (test : FaceCompletion.faces pixel)
         (predictions : list (string * FaceCompletion.faces pixel))
         (i : nat) (row : FaceCompletion.face pixel),
    FaceCompletion.has_width n_pixels test ->
    Forall (fun p => FacePlot.prediction_of n_pixels test (snd p)) predictions ->
    n_pixels = 64 * 64 ->
    i < FaceCompletion.n_faces ->
    nth_error test i = Some row ->
    exists first rest,
      FacePlot.figure_row n_pixels test predictions i = Ok (first :: rest) /\
      FacePlot.heading first = (if i =? 0 then Some "true faces"%string else None) /\
      Reshape.ravel (FacePlot.image first) = row /\
      Forall2 (fun (p : string * FaceCompletion.faces pixel) q =>
                 FacePlot.heading q = (if i =? 0 then Some (fst p) else None) /\
                 exists lower,
                   nth_error (snd p) i = Some lower /\
                   Reshape.ravel (FacePlot.image q)
                   = firstn (n_pixels / 2) row ++ lower)
              predictions rest.
Proof.
  intros pixel n test predictions i row Hw Hpred Hn Hi Hrow.
  assert (He : Nat.even n = true) by (rewrite Hn; vm_compute; reflexivity).
  assert (Hsize : n + n mod 2 = 64 * 64).
  { rewrite Hn at 2. replace ((64 * 64) mod 2) with 0 by (vm_compute; reflexivity).
    rewrite Nat.add_0_r; exact Hn. }
  destruct (figure_row_drawn pixel n test predictions Hw Hpred Hsize i row Hi Hrow)
    as (first & rest & Hfig & _ & Hhead & Hrav & Hrest).
  exists first, rest. rewrite (halves_meet n He) in Hrav, Hrest.
  split; [exact Hfig | split; [exact Hhead | split]].
  - rewrite Hrav. apply firstn_skipn.
  - apply Forall2_enumerate.
    eapply Forall2_impl; [| exact Hrest].
    intros jp q (_ & Hh & Hl). split; [exact Hh | exact Hl].
Qed.

Lemma face_figure_row_content_witness :
  exists first rest,
    FacePlot.figure_row (64 * 64) (repeat (repeat 7 (64 * 64)) 5)
      [("ridge"%string, repeat (repeat 9 (32 * 64)) 5)] 0 = Ok (first :: rest) /\
    FacePlot.heading first = Some "true faces"%string /\
    Reshape.ravel (FacePlot.image first) = repeat 7 (64 * 64) /\
    Forall2 (fun (p : string * FaceCompletion.faces nat) q =>
               FacePlot.heading q = Some (fst p) /\
               exists lower,
                 nth_error (snd p) 0 = Some lower /\
                 Reshape.ravel (FacePlot.image q)
                 = firstn (64 * 64 / 2) (repeat 7 (64 * 64)) ++ lower)
            [("ridge"%string, repeat (repeat 9 (32 * 64)) 5)] rest.
Proof.
  apply (face_figure_row_content nat (64 * 64) (repeat (repeat 7 (64 * 64)) 5)
           [("ridge"%string, repeat (repeat 9 (32 * 64)) 5)] 0 (repeat 7 (64 * 64))).
  - apply Forall_forall; intros r Hr. apply repeat_spec in Hr; subst r.
    apply repeat_length.
  - constructor; [| constructor]. split.
    + cbn [snd]. rewrite !repeat_length; reflexivity.
    + apply Forall_forall; intros r Hr. cbn [snd] in Hr.
      apply repeat_spec in Hr; subst r. rewrite repeat_length.
      vm_compute; reflexivity.
  - reflexivity.
  - unfold FaceCompletion.n_faces; lia.
  - reflexivity.
Defined.

(** X3.  With any other width the figure is not drawn: when
    [n_pixels + n_pixels mod 2] differs from [64 * 64], the first
    [reshape(image_shape)] of the plotting loop raises [ValueError]. *)
Theorem face_figure_rejects_other_widths :
  forall (pixel : Type) (n_pixels : nat) (test : FaceCompletion.faces pixel)
         (predictions : list (string * FaceCompletion.faces pixel)),
    FaceCompletion.has_width n_pixels test ->
    test <> [] ->
    n_pixels + n_pixels mod 2 <> 64 * 64 ->
    FacePlot.plot_faces n_pixels test predictions = Raise ValueError.
Proof.
  intros pixel n test predictions Hw Hne Hsize.
  destruct test as [| row test']; [contradiction |].
  assert (Hrow : nth_error (row :: test') 0 = Some row) by reflexivity.
  pose proof (test_row_width pixel n (row :: test') Hw 0 row Hrow) as Hlen.
  unfold FacePlot.plot_faces.
  change (seq 0 FaceCompletion.n_faces) with (0 :: seq 1 4).
  rewrite (mapM_raises_first (FacePlot.figure_row n (row :: test') predictions)
             0 (seq 1 4) ValueError); [reflexivity |].
  unfold FacePlot.figure_row, FacePlot.true_panel.
  rewrite (true_face_stacked pixel n (row :: test') 0 row Hrow); cbn [bind].
  replace (0 * (1 + List.length predictions) + 1)
    with (0 * (1 + List.length predictions) + 1 + 0) by lia.
  rewrite subplot_in_grid by (unfold FaceCompletion.n_faces; lia). cbn [bind].
  rewrite reshape_wrong_size; [reflexivity |].
  rewrite (stacked_size n row (skipn (n / 2) row) Hlen).
  - exact Hsize.
  - rewrite length_skipn, Hlen; reflexivity.
Qed.

Lemma face_figure_rejects_other_widths_witness :
  FacePlot.plot_faces 4 [[1; 2; 3; 4]] [] = Raise ValueError.
Proof.
  apply (face_figure_rejects_other_widths nat 4 [[1; 2; 3; 4]] []).
  - repeat constructor.
  - discriminate.
  - vm_compute; discriminate.
Defined.

(** X4.  [train = data[targets < 30]] and [test = data[targets >= 30]]
    partition the faces: when there is one target per face, the rows of
    the two arrays together are the rows of [data], each once. *)
Theorem train_and_test_partition_the_faces :
  forall (pixel : Type) (data : FaceCompletion.faces pixel) (targets : list nat),
    List.length targets = List.length data ->
    Permutation
      (FaceCompletion.train data targets ++ FaceCompletion.test_people data targets)
      data.
Proof.
  intros pixel data targets H.
  unfold FaceCompletion.train, FaceCompletion.test_people.
  rewrite (rows_where_ext (fun t => 30 <=? t) (fun t => negb (t <? 30)) targets data).
  - apply rows_where_partition; exact H.
  - intro t. destruct (Nat.ltb_spec t 30) as [L | L]; cbn [negb].
    + apply Nat.leb_gt; exact L.
    + apply Nat.leb_le; exact L.
Qed.

Lemma train_and_test_partition_the_faces_witness :
  Permutation
    (FaceCompletion.train [[1]; [2]; [3]] [31; 4; 30] ++
     FaceCompletion.test_people [[1]; [2]; [3]] [31; 4; 30])
    [[1]; [2]; [3]].
Proof.
  apply (train_and_test_partition_the_faces nat [[1]; [2]; [3]] [31; 4; 30]).
  reflexivity.
Defined.

(** ** ROC with cross-validation: the mean curve inside its band *)

Section RocBandFacts.

Import Np RocCrossval.

Local Open Scope Q_scope.

Lemma replace_at_Forall (P : Q -> Prop) (a : array) (k : nat) (v : Q) :
  P v -> Forall P a -> Forall P (replace_at a k v).
Proof.
  intros Hv. revert k; induction a as [| x a IH]; intros k Ha; [destruct k; constructor |].
  inversion Ha; subst. destruct k; simpl; constructor; auto.
Qed.

Lemma sum_bounds (a : array) :
  Forall (fun x => 0 <= x <= 1) a ->
  0 <= sum a <= inject_Z (Z.of_nat (List.length a)).
Proof.
  induction 1 as [| x a Hx Ha IH]; [split; apply Qle_refl |].
  cbn [sum fold_right List.length]. fold (sum a).
  rewrite Nat2Z.inj_succ. unfold Z.succ. rewrite inject_Z_plus.
  change (inject_Z 1) with 1. lra.
Qed.

Lemma mean1_bounds (a : array) :
  a <> [] -> Forall (fun x => 0 <= x <= 1) a -> 0 <= mean1 a <= 1.
Proof.
  intros Hne Ha. pose proof (sum_bounds a Ha) as [Hlo Hhi].
  assert (Hn : 0 < inject_Z (Z.of_nat (List.length a))).
  { change 0 with (inject_Z 0). rewrite <- Zlt_Qlt.
    destruct a; [contradiction | simpl; lia]. }
  unfold mean1. split.
  - apply Qle_shift_div_l; [exact Hn | lra].
  - apply Qle_shift_div_r; [exact Hn | lra].
Qed.

Lemma sum_zero (a : array) : Forall (fun x => x = 0) a -> sum a == 0.
Proof.
  induction 1 as [| x a Hx Ha IH]; [reflexivity |].
  cbn [sum fold_right]. fold (sum a). rewrite IH, Hx. reflexivity.
Qed.

Lemma mean1_zero (a : array) : Forall (fun x => x = 0) a -> mean1 a == 0.
Proof.
  intro H. unfold mean1, Qdiv. rewrite (sum_zero a H). apply Qmult_0_l.
Qed.

Lemma column_Forall (P : Q -> Prop) (rows : list array) (j : nat) :
  P 0 -> Forall (Forall P) rows -> Forall P (column rows j).
Proof.
  intros H0 H. unfold column. apply Forall_forall. intros x Hx.
  apply in_map_iff in Hx as (r & <- & Hr).
  rewrite Forall_forall in H. specialize (H r Hr).
  destruct (nth_in_or_default j r 0) as [Hin | ->]; [| exact H0].
  rewrite Forall_forall in H. apply H; exact Hin.
Qed.

Lemma band_lower (m sd : array) :
  List.length m = List.length sd ->
  Forall (fun x => 0 <= x <= 1) m -> Forall (fun s => 0 <= s) sd ->
  Forall2 Qle (maximum (zip_with Qminus m sd) 0) m.
Proof.
  revert sd; induction m as [| x m IH]; intros [| s sd] Hl Hm Hs;
    simpl in Hl; try discriminate; [constructor |].
  inversion Hm; inversion Hs; subst. unfold maximum; simpl. constructor.
  - apply Q.max_lub; lra.
  - apply IH; [congruence | assumption | assumption].
Qed.

Lemma band_upper (m sd : array) :
  List.length m = List.length sd ->
  Forall (fun x => 0 <= x <= 1) m -> Forall (fun s => 0 <= s) sd ->
  Forall2 Qle m (minimum (zip_with Qplus m sd) 1).
Proof.
  revert sd; induction m as [| x m IH]; intros [| s sd] Hl Hm Hs;
    simpl in Hl; try discriminate; [constructor |].
  inversion Hm; inversion Hs; subst. unfold minimum; simpl. constructor.
  - apply Q.min_glb; lra.
  - apply IH; [congruence | assumption | assumption].
Qed.

End RocBandFacts.

(** X5.  The mean ROC curve and its band.  When the interpolated rates of
    every fold lie in [0, 1] and the standard deviation is never negative,
    the mean curve starts at 0, stays within [0, 1], and at every point of
    the grid lies between the lower and the upper curve of the band. *)
Theorem mean_roc_band_contains_the_mean :
  forall (interp1 : Q -> Np.array -> Np.array -> Q) (std1 : Np.array -> Q)
         (folds : list RocCrossval.roc_display),
    folds <> [] ->
    (forall viz x, In viz folds ->
       (0 <= interp1 x (RocCrossval.fpr viz) (RocCrossval.tpr viz) <= 1)%Q) ->
    (forall sample, (0 <= std1 sample)%Q) ->
    exists r first,
      RocCrossval.mean_roc interp1 std1 folds = Ok r /\
      Np.item (RocCrossval.mean_tpr r) 0 = Ok first /\ (first == 0)%Q /\
      Forall (fun m => (0 <= m <= 1)%Q) (RocCrossval.mean_tpr r) /\
      Forall2 Qle (RocCrossval.tprs_lower r) (RocCrossval.mean_tpr r) /\
      Forall2 Qle (RocCrossval.mean_tpr r) (RocCrossval.tprs_upper r).
Proof.
  intros interp1 std1 folds Hne Hrate Hstd.
  set (pin := fun viz : RocCrossval.roc_display =>
                Np.replace_at
                  (RocCrossval.np_interp interp1 RocCrossval.mean_fpr
                     (RocCrossval.fpr viz) (RocCrossval.tpr viz)) 0 0%Q).
  set (ts := map pin folds).
  assert (Hts : ts <> []) by (unfold ts; destruct folds; [contradiction | discriminate]).
  assert (Hw : Forall (fun r => List.length r = RocCrossval.grid) ts).
  { unfold ts. apply Forall_forall. intros t Ht.
    apply in_map_iff in Ht as (viz & <- & _). unfold pin.
    rewrite length_replace_at. unfold RocCrossval.np_interp.
    rewrite length_map. apply mean_fpr_points. }
  assert (Hin01 : Forall (Forall (fun x => (0 <= x <= 1)%Q)) ts).
  { unfold ts. apply Forall_forall. intros t Ht.
    apply in_map_iff in Ht as (viz & <- & Hviz). unfold pin.
    apply replace_at_Forall; [split; [apply Qle_refl | discriminate] |].
    unfold RocCrossval.np_interp. apply Forall_forall. intros y Hy.
    apply in_map_iff in Hy as (x & <- & _). apply Hrate; exact Hviz. }
  assert (Hcol0 : Forall (fun x => x = 0%Q) (Np.column ts 0)).
  { unfold Np.column, ts. rewrite map_map. apply Forall_forall. intros y Hy.
    apply in_map_iff in Hy as (viz & <- & _). unfold pin.
    destruct (RocCrossval.np_interp interp1 RocCrossval.mean_fpr
                (RocCrossval.fpr viz) (RocCrossval.tpr viz)); reflexivity. }
  set (m := map (fun j => Np.mean1 (Np.column ts j)) (seq 0 RocCrossval.grid)).
  set (sd := map (fun j => std1 (Np.column ts j)) (seq 0 RocCrossval.grid)).
  set (m' := Np.replace_at m (RocCrossval.grid - 1) 1%Q).
  assert (Hm : Forall (fun x => (0 <= x <= 1)%Q) m).
  { unfold m. apply Forall_forall. intros y Hy.
    apply in_map_iff in Hy as (j & <- & _). apply mean1_bounds.
    - unfold Np.column. destruct ts; [contradiction | discriminate].
    - apply column_Forall; [split; [apply Qle_refl | discriminate] | exact Hin01]. }
  assert (Hm' : Forall (fun x => (0 <= x <= 1)%Q) m').
  { apply replace_at_Forall; [split; [discriminate | apply Qle_refl] | exact Hm]. }
  assert (Hsd : Forall (fun s => (0 <= s)%Q) sd).
  { unfold sd. apply Forall_forall. intros y Hy.
    apply in_map_iff in Hy as (j & <- & _). apply Hstd. }
  assert (Hlm : List.length m = RocCrossval.grid)
    by (unfold m; rewrite length_map, length_seq; reflexivity).
  assert (Hlsd : List.length sd = RocCrossval.grid)
    by (unfold sd; rewrite length_map, length_seq; reflexivity).
  assert (Hlm' : List.length m' = List.length sd)
    by (unfold m'; rewrite length_replace_at; congruence).
  exists (RocCrossval.Curves ts m'
            (Np.minimum (Np.zip_with Qplus m' sd) 1)
            (Np.maximum (Np.zip_with Qminus m' sd) 0)),
         (Np.mean1 (Np.column ts 0)).
  split; [| split; [| split; [| split; [| split]]]].
  - unfold RocCrossval.mean_roc.
    rewrite fold_loop_explicit. cbn [app bind]. fold pin. fold ts.
    unfold Np.mean_axis0.
    rewrite (reduce_axis0_explicit Np.mean1 ts RocCrossval.grid Hts Hw). cbn [bind].
    fold m. unfold Np.setitem.
    rewrite (position_last (List.length m)) by (rewrite Hlm; unfold RocCrossval.grid; lia).
    rewrite Hlm. cbn [bind]. fold m'.
    unfold RocCrossval.np_std_axis0.
    rewrite (reduce_axis0_explicit std1 ts RocCrossval.grid Hts Hw). cbn [bind].
    fold sd. unfold Np.add, Np.sub.
    rewrite !(elementwise_same_shape _ m' sd Hlm'). reflexivity.
  - cbn [RocCrossval.mean_tpr]. unfold Np.item.
    rewrite position_first by (rewrite Hlm', Hlsd; unfold RocCrossval.grid; lia).
    apply getitem_nth. unfold m'.
    rewrite nth_error_replace_at_other by (unfold RocCrossval.grid; lia).
    unfold m. change (seq 0 RocCrossval.grid) with (0%nat :: seq 1 99). reflexivity.
  - apply mean1_zero; exact Hcol0.
  - exact Hm'.
  - cbn [RocCrossval.tprs_lower RocCrossval.mean_tpr].
    apply band_lower; assumption.
  - cbn [RocCrossval.tprs_upper RocCrossval.mean_tpr].
    apply band_upper; assumption.
Qed.

Lemma mean_roc_band_contains_the_mean_witness :
  exists r first,
    RocCrossval.mean_roc RocStandIns.level RocCrossval.tenth RocCrossval.two_folds = Ok r /\
    Np.item (RocCrossval.mean_tpr r) 0 = Ok first /\ (first == 0)%Q /\
    Forall (fun m => (0 <= m <= 1)%Q) (RocCrossval.mean_tpr r) /\
    Forall2 Qle (RocCrossval.tprs_lower r) (RocCrossval.mean_tpr r) /\
    Forall2 Qle (RocCrossval.mean_tpr r) (RocCrossval.tprs_upper r).
Proof.
  apply (mean_roc_band_contains_the_mean RocStandIns.level RocCrossval.tenth
           RocCrossval.two_folds).
  - discriminate.
  - intros viz x _. unfold RocStandIns.level. split; discriminate.
  - intro sample. unfold RocCrossval.tenth. discriminate.
Defined.

(** ** GMM covariances: the ellipses drawn *)

Section GmmDrawnFacts.

Import Nd GmmCovariances.
Local Open Scope string_scope.
Local Open Scope list_scope.

Lemma fitted_listed (k d : nat) (gmm : gaussian_mixture) :
  fitted k d gmm -> In (covariance_type gmm) covariance_types.
Proof.
  intros [_ H]. unfold covariance_types.
  destruct (covariance_type gmm =? "full") eqn:F;
    [apply String.eqb_eq in F; rewrite F; simpl; auto |].
  destruct (covariance_type gmm =? "tied") eqn:T;
    [apply String.eqb_eq in T; rewrite T; simpl; auto |].
  destruct (covariance_type gmm =? "diag") eqn:D;
    [apply String.eqb_eq in D; rewrite D; simpl; auto |].
  destruct (covariance_type gmm =? "spherical") eqn:S;
    [apply String.eqb_eq in S; rewrite S; simpl; auto | contradiction].
Qed.

(** In a listed branch the assignment does not look at the old value. *)
Lemma assign_ignores_old (gmm : gaussian_mixture) (n : nat) (v : option ndarray) :
  In (covariance_type gmm) covariance_types ->
  assign_covariances gmm n v = assign_covariances gmm n None.
Proof.
  intro H. unfold assign_covariances.
  destruct (covariance_type gmm =? "full") eqn:F; [reflexivity |].
  destruct (covariance_type gmm =? "tied") eqn:T; [reflexivity |].
  destruct (covariance_type gmm =? "diag") eqn:D; [reflexivity |].
  destruct (covariance_type gmm =? "spherical") eqn:S; [reflexivity |].
  exfalso. simpl in H.
  destruct H as [H | [H | [H | [H | []]]]]; rewrite <- H in *; discriminate.
Qed.

Lemma covariances_bound (gmm : gaussian_mixture) (k d n : nat) :
  fitted k d gmm -> 2 <= d -> n < k ->
  exists c, forall v, assign_covariances gmm n v = Ok (Some c).
Proof.
  intros Hf Hd Hn.
  pose proof (fitted_listed k d gmm Hf) as Hin.
  assert (H : exists c, covariances_at gmm n None = Ok c).
  { simpl in Hin. destruct Hin as [T | [T | [T | [T | []]]]]; symmetry in T.
    - destruct (full_branch gmm k d n None T Hf Hd Hn) as (c & Hc & _); eauto.
    - destruct (tied_branch gmm k d n None T Hf Hd) as (c & Hc & _); eauto.
    - destruct (diag_branch gmm k d n None T Hf Hd Hn) as (c & Hc & _); eauto.
    - destruct (spherical_branch gmm k d n None T Hf Hn) as (c & var & Hc & _); eauto. }
  destruct H as (c & Hc). exists c. intro v.
  rewrite (assign_ignores_old gmm n v Hin).
  unfold covariances_at in Hc.
  destruct (assign_covariances gmm n None) as [[c' |] | e]; simpl in Hc;
    try discriminate.
  injection Hc as ->. reflexivity.
Qed.

Lemma centre_of_mean (gmm : gaussian_mixture) (k d n : nat) :
  fitted k d gmm -> 2 <= d -> n < k ->
  exists xs x y,
    index (means_ gmm) n = Ok (vector xs) /\ List.length xs = d /\
    head 2 (vector xs) = Ok (vector [x; y]) /\
    nth_error xs 0 = Some x /\ nth_error xs 1 = Some y.
Proof.
  intros [Hm _] Hd Hn.
  destruct (index_in_shape (means_ gmm) k n [d] Hm Hn) as (row & Hrow & Hsh).
  apply has_shape_vector in Hsh as (xs & -> & Hxs).
  destruct (head_vector xs) as (x & y & Hh & H0 & H1); [lia |].
  exists xs, x, y. auto.
Qed.

Lemma index_past_the_end (a : ndarray) (k n : nat) (sh : list nat) :
  has_shape (k :: sh) a -> k <= n -> index a n = Raise IndexError.
Proof.
  intros Ha Hn. apply has_shape_items in Ha as (items & -> & Hlen & _).
  unfold index, getitem.
  replace (nth_error items n) with (@None ndarray); [reflexivity |].
  symmetry; apply nth_error_None; lia.
Qed.

Variables axes artist : Type.
Variable principal_axes : ndarray -> py axes.
Variable ellipse : ndarray -> axes -> string -> artist.

Hypothesis decomposed : forall c, exists a, principal_axes c = Ok a.

Lemma ellipse_step_draws (gmm : gaussian_mixture) (k d n : nat) :
  fitted k d gmm -> 2 <= d -> n < k ->
  exists c a xs x y,
    covariances_at gmm n None = Ok c /\
    principal_axes c = Ok a /\
    index (means_ gmm) n = Ok (vector xs) /\
    nth_error xs 0 = Some x /\ nth_error xs 1 = Some y /\
    forall st color,
      ellipse_step principal_axes ellipse gmm st n color
      = Ok (Some c, snd st ++ [ellipse (vector [x; y]) a color]).
Proof.
  intros Hf Hd Hn.
  destruct (covariances_bound gmm k d n Hf Hd Hn) as (c & Hc).
  destruct (decomposed c) as (a & Ha).
  destruct (centre_of_mean gmm k d n Hf Hd Hn) as (xs & x & y & Hrow & _ & Hh & H0 & H1).
  exists c, a, xs, x, y.
  split; [unfold covariances_at; rewrite Hc; reflexivity |].
  split; [exact Ha | split; [exact Hrow | split; [exact H0 | split; [exact H1 |]]]].
  intros st color. unfold ellipse_step.
  rewrite Hc; cbn [bind read_local]. rewrite Ha; cbn [bind].
  rewrite Hrow; cbn [bind]. rewrite Hh; cbn [bind]. reflexivity.
Qed.

Lemma ellipse_step_past_the_end (gmm : gaussian_mixture) (k d n : nat)
      (st : option ndarray * list artist) (color : string) :
  fitted k d gmm -> 2 <= d -> 0 < k -> k <= n ->
  ellipse_step principal_axes ellipse gmm st n color = Raise IndexError.
Proof.
  intros Hf Hd Hk Hn.
  pose proof (fitted_listed k d gmm Hf) as Hin.
  destruct Hf as [Hm Hf]. unfold ellipse_step, assign_covariances.
  simpl in Hin. destruct Hin as [T | [T | [T | [T | []]]]]; rewrite <- T in *;
    cbn [String.eqb Ascii.eqb Bool.eqb] in *.
  - destruct (covariances_ gmm) as [x | ms]; [contradiction |].
    destruct Hf as [Hlen _]. unfold index, getitem.
    replace (nth_error ms n) with (@None ndarray); [reflexivity |].
    symmetry; apply nth_error_None; lia.
  - destruct Hf as [Hsh Hsym].
    destruct (head2_symmetric _ d Hsh Hsym Hd) as (c & Hc & _).
    rewrite Hc; cbn [bind read_local].
    destruct (decomposed c) as (a & Ha). rewrite Ha; cbn [bind].
    rewrite (index_past_the_end (means_ gmm) k n [d] Hm Hn). reflexivity.
  - rewrite (index_past_the_end (covariances_ gmm) k n [d] Hf Hn). reflexivity.
  - unfold shape1. rewrite (shape_of_matrix _ k d Hm Hk).
    cbn [getitem nth_error bind].
    rewrite (index_past_the_end (covariances_ gmm) k n [] Hf Hn). reflexivity.
Qed.

End GmmDrawnFacts.

(** X6.  [make_ellipses] on a fitted mixture of at least three components
    on at least two features, when the eigen-decomposition succeeds: it
    adds exactly one ellipse per colour, in the order of [colors]; the
    ellipse of colour [n] is drawn from the covariance matrix chosen for
    component [n] and centred on the first two coordinates of
    [gmm.means_[n]]. *)
Theorem make_ellipses_draws_one_per_colour :
  forall (axes artist : Type) (principal_axes : Nd.ndarray -> py axes)
         (ellipse : Nd.ndarray -> axes -> string -> artist)
         (gmm : GmmCovariances.gaussian_mixture) (k d : nat),
    (forall c, exists a, principal_axes c = Ok a) ->
    GmmCovariances.fitted k d gmm -> 3 <= k -> 2 <= d ->
    exists arts,
      GmmCovariances.make_ellipses principal_axes ellipse gmm = Ok arts /\
      Forall2 (fun (nc : nat * string) art =>
                 exists c a xs x y,
                   GmmCovariances.covariances_at gmm (fst nc) None = Ok c /\
                   principal_axes c = Ok a /\
                   Nd.index (GmmCovariances.means_ gmm) (fst nc) = Ok (Nd.vector xs) /\
                   nth_error xs 0 = Some x /\ nth_error xs 1 = Some y /\
                   art = ellipse (Nd.vector [x; y]) a (snd nc))
              (combine (seq 0 (List.length GmmCovariances.colors)) GmmCovariances.colors)
              arts.
Proof.
  intros axes artist principal_axes ellipse gmm k d Hdec Hf Hk Hd.
  destruct (ellipse_step_draws axes artist principal_axes ellipse Hdec gmm k d 0 Hf Hd
              ltac:(lia)) as (c0 & a0 & xs0 & x0 & y0 & C0 & A0 & R0 & P0 & Q0 & S0).
  destruct (ellipse_step_draws axes artist principal_axes ellipse Hdec gmm k d 1 Hf Hd
              ltac:(lia)) as (c1 & a1 & xs1 & x1 & y1 & C1 & A1 & R1 & P1 & Q1 & S1).
  destruct (ellipse_step_draws axes artist principal_axes ellipse Hdec gmm k d 2 Hf Hd
              ltac:(lia)) as (c2 & a2 & xs2 & x2 & y2 & C2 & A2 & R2 & P2 & Q2 & S2).
  eexists. split.
  - unfold GmmCovariances.make_ellipses, GmmCovariances.colors.
    cbn [GmmCovariances.ellipse_loop].
    rewrite S0; cbn [bind]. rewrite S1; cbn [bind]. rewrite S2; cbn [bind snd app].
    reflexivity.
  - unfold GmmCovariances.colors. cbn [List.length seq combine].
    constructor; [exists c0, a0, xs0, x0, y0; auto 10 |].
    constructor; [exists c1, a1, xs1, x1, y1; auto 10 |].
    constructor; [exists c2, a2, xs2, x2, y2; auto 10 | constructor].
Qed.

Lemma make_ellipses_draws_one_per_colour_witness :
  exists arts,
    GmmCovariances.make_ellipses GmmFigure.no_axes GmmFigure.centre_and_colour
      GmmCovariances.spherical_on_iris = Ok arts /\
    List.length arts = 3.
Proof.
  destruct (make_ellipses_draws_one_per_colour unit (Nd.ndarray * string)
              GmmFigure.no_axes GmmFigure.centre_and_colour
              GmmCovariances.spherical_on_iris 3 4) as (arts & Hrun & Hall).
  - intro c. exists tt. reflexivity.
  - split; simpl; repeat constructor.
  - lia.
  - lia.
  - exists arts. split; [exact Hrun |].
    apply Forall2_length in Hall. rewrite <- Hall. reflexivity.
Defined.

(** X7.  [make_ellipses] loops over the three colours whatever the number
    of components: on a fitted mixture of one or two components it fails
    with [IndexError] when it reaches the first colour without a
    component. *)
Theorem make_ellipses_needs_three_components :
  forall (axes artist : Type) (principal_axes : Nd.ndarray -> py axes)
         (ellipse : Nd.ndarray -> axes -> string -> artist)
         (gmm : GmmCovariances.gaussian_mixture) (k d : nat),
    (forall c, exists a, principal_axes c = Ok a) ->
    GmmCovariances.fitted k d gmm -> 0 < k < 3 -> 2 <= d ->
    GmmCovariances.make_ellipses principal_axes ellipse gmm = Raise IndexError.
Proof.
  intros axes artist principal_axes ellipse gmm k d Hdec Hf Hk Hd.
  unfold GmmCovariances.make_ellipses, GmmCovariances.colors.
  cbn [GmmCovariances.ellipse_loop].
  destruct (ellipse_step_draws axes artist principal_axes ellipse Hdec gmm k d 0 Hf Hd
              ltac:(lia)) as (c0 & a0 & xs0 & x0 & y0 & _ & _ & _ & _ & _ & S0).
  rewrite S0; cbn [bind].
  assert (Hcase : k = 1 \/ k = 2) by lia.
  destruct Hcase as [-> | ->].
  - rewrite (ellipse_step_past_the_end axes artist principal_axes ellipse Hdec
               gmm 1 d 1 _ _ Hf Hd); [reflexivity | lia | lia].
  - destruct (ellipse_step_draws axes artist principal_axes ellipse Hdec gmm 2 d 1 Hf Hd
                ltac:(lia)) as (c1 & a1 & xs1 & x1 & y1 & _ & _ & _ & _ & _ & S1).
    rewrite S1; cbn [bind].
    rewrite (ellipse_step_past_the_end axes artist principal_axes ellipse Hdec
               gmm 2 d 2 _ _ Hf Hd); [reflexivity | lia | lia].
Qed.

Lemma make_ellipses_needs_three_components_witness :
  GmmCovariances.make_ellipses GmmFigure.no_axes GmmFigure.centre_and_colour
    GmmFigure.two_components = Raise IndexError.
Proof.
  apply (make_ellipses_needs_three_components unit (Nd.ndarray * string)
           GmmFigure.no_axes GmmFigure.centre_and_colour
           GmmFigure.two_components 2 2).
  - intro c. exists tt. reflexivity.
  - split; [simpl; repeat constructor |].
    split; [simpl; repeat constructor | apply matrix2_symmetric].
  - lia.
  - lia.
Defined.

(** X8.  The panels of the GMM figure: [plt.subplot(2, n_estimators // 2,
    index + 1)] succeeds for every estimator exactly when their number is
    even; with an odd number the grid has one cell too few and a
    [plt.subplot] call raises [ValueError]. *)
Theorem gmm_panels_need_an_even_number :
  forall n_estimators : nat,
    GmmFigure.panels n_estimators
    = if Nat.even n_estimators then Ok (seq 1 n_estimators) else Raise ValueError.
Proof.
  intro n. unfold GmmFigure.panels.
  destruct (Nat.even n) eqn:E.
  - apply Nat.even_spec in E as [h ->].
    replace (2 * h / 2) with h by (symmetry; rewrite Nat.mul_comm; apply Nat.div_mul; discriminate).
    rewrite (mapM_pointwise _ (fun index => index + 1)).
    + f_equal. rewrite <- (map_add_seq 1 (2 * h)). apply map_ext. intro j; lia.
    + intros index Hin. apply in_seq in Hin. unfold Plt.subplot.
      replace (1 <=? index + 1) with true by (symmetry; apply Nat.leb_le; lia).
      replace (index + 1 <=? 2 * h) with true by (symmetry; apply Nat.leb_le; lia).
      reflexivity.
  - assert (O : Nat.odd n = true) by (unfold Nat.odd; rewrite E; reflexivity).
    apply Nat.odd_spec in O as [h ->].
    replace ((2 * h + 1) / 2) with h.
    + replace (seq 0 (2 * h + 1)) with (seq 0 (2 * h + 1 + 0)) by (f_equal; lia).
      apply mapM_raises_at.
      * intros index Hin. apply in_seq in Hin. unfold Plt.subplot.
        replace (1 <=? index + 1) with true by (symmetry; apply Nat.leb_le; lia).
        replace (index + 1 <=? 2 * h) with true by (symmetry; apply Nat.leb_le; lia).
        eexists; reflexivity.
      * unfold Plt.subplot.
        destruct (0 + 2 * h + 1 <=? 2 * h) eqn:L;
          [apply Nat.leb_le in L; lia | rewrite andb_false_r; reflexivity].
    + symmetry. replace (2 * h + 1) with (1 + h * 2) by lia.
      rewrite Nat.div_add by discriminate. reflexivity.
Qed.

(** ** SGD early stopping: [load_mnist] *)

Section LoadMnistFacts.

Import Index SgdEarlyStopping.

Lemma logical_or_pointwise (f g : string -> bool) (l : list string) :
  logical_or (map f l) (map g l) = map (fun t => f t || g t) l.
Proof.
  unfold logical_or. induction l as [| t l IH]; simpl; [reflexivity |].
  rewrite IH; reflexivity.
Qed.

Lemma compress_combine {A B : Type} (mask : list bool) (a : list A) (b : list B) :
  combine (compress mask a) (compress mask b) = compress mask (combine a b).
Proof.
  revert a b; induction mask as [| m mask IH]; intros [| x a] [| y b]; simpl;
    try reflexivity.
  - destruct m; simpl; [reflexivity | destruct (compress mask a); reflexivity].
  - destruct m; simpl; rewrite IH; reflexivity.
Qed.

Lemma compress_length {A B : Type} (mask : list bool) (a : list A) (b : list B) :
  List.length a = List.length b ->
  List.length (compress mask a) = List.length (compress mask b).
Proof.
  revert a b; induction mask as [| m mask IH]; intros [| x a] [| y b] H;
    simpl in *; try discriminate; try reflexivity.
  injection H as H. destruct m; simpl; rewrite (IH a b H); reflexivity.
Qed.

Lemma compress_filter {A : Type} (g : string -> bool) (a : list A) (t : list string) :
  List.length a = List.length t ->
  compress (map g t) (combine a t) = filter (fun p => g (snd p)) (combine a t).
Proof.
  revert t; induction a as [| x a IH]; intros [| y t] H; simpl in *;
    try discriminate; try reflexivity.
  injection H as H. rewrite (IH t H). reflexivity.
Qed.

Lemma take_Forall2 {A : Type} (a : list A) (idx : list nat) :
  Forall (fun i => i < List.length a) idx ->
  exists out, take a idx = Ok out /\
              Forall2 (fun i x => nth_error a i = Some x) idx out.
Proof.
  intro H. unfold take. apply mapM_Forall2. intros i Hi.
  rewrite Forall_forall in H. specialize (H i Hi).
  destruct (nth_error a i) as [x |] eqn:E.
  - exists x. split; [apply getitem_nth; exact E | reflexivity].
  - apply nth_error_None in E. lia.
Qed.

Lemma nth_error_combine {A B : Type} (a : list A) (b : list B) (i : nat) (x : A) (y : B) :
  nth_error a i = Some x -> nth_error b i = Some y ->
  nth_error (combine a b) i = Some (x, y).
Proof.
  revert a b; induction i as [| i IH]; intros [| x' a] [| y' b] Ha Hb;
    simpl in *; try discriminate.
  - congruence.
  - apply IH; assumption.
Qed.

Lemma taken_pairs {A B : Type} (a : list A) (b : list B) (idx : list nat)
      (a' : list A) (b' : list B) :
  Forall2 (fun i x => nth_error a i = Some x) idx a' ->
  Forall2 (fun i y => nth_error b i = Some y) idx b' ->
  Forall2 (fun i p => nth_error (combine a b) i = Some p) idx (combine a' b').
Proof.
  intro Ha. revert b'. induction Ha as [| i x idx a' Hx Ha IH]; intros b' Hb;
    inversion Hb; subst; simpl; constructor.
  - apply nth_error_combine; assumption.
  - apply IH; assumption.
Qed.

Lemma nth_error_all {A : Type} (l : list A) :
  map (nth_error l) (seq 0 (List.length l)) = map Some l.
Proof.
  induction l as [| x l IH]; [reflexivity |].
  cbn [List.length seq map nth_error]. f_equal.
  rewrite <- seq_shift, map_map. exact IH.
Qed.

Lemma map_Some_inj {A : Type} (l l' : list A) : map Some l = map Some l' -> l = l'.
Proof.
  revert l'; induction l as [| x l IH]; intros [| y l'] H; simpl in H;
    try discriminate; [reflexivity |].
  injection H as -> H. f_equal. apply IH; exact H.
Qed.

(** Rows taken at a permutation of all the row numbers are a permutation
    of the rows. *)
Lemma taken_permutation {A : Type} (l : list A) (idx : list nat) (out : list A) :
  Permutation idx (seq 0 (List.length l)) ->
  Forall2 (fun i x => nth_error l i = Some x) idx out ->
  Permutation out l.
Proof.
  intros Hp Hall.
  assert (E : map Some out = map (nth_error l) idx).
  { clear Hp. induction Hall as [| i x idx' out' Hx _ IH]; simpl; [reflexivity |].
    rewrite Hx, IH. reflexivity. }
  pose proof (Permutation_map (nth_error l) Hp) as Hm.
  rewrite nth_error_all, <- E in Hm.
  apply Permutation_sym, Permutation_map_inv in Hm as (l3 & Hl3 & Hperm).
  apply map_Some_inj in Hl3. subst l3. exact Hperm.
Qed.

Lemma slice_bound_same (n : nat) (k : Z) : Slice.bound n k <= n.
Proof. unfold Slice.bound. apply Nat.le_min_l. Qed.

Variable image : Type.
Variable shuffled_indices : nat -> list nat.

Hypothesis shuffled :
  forall n, Permutation (shuffled_indices n) (seq 0 n).

(** The run of [load_mnist] up to the slices. *)
Lemma load_mnist_shuffled (mnist : bunch image) (class_0 class_1 : string) :
  List.length (data mnist) = List.length (target mnist) ->
  exists X y,
    (forall n_samples,
        load_mnist shuffled_indices mnist n_samples class_0 class_1
        = match n_samples with
          | Some n => Ok (Slice.to X n, Slice.to y n)
          | None => Ok (X, y)
          end) /\
    List.length X = List.length y /\
    Permutation (combine X y) (selected mnist class_0 class_1).
Proof.
  intro Hlen.
  set (g := fun t => ((t =? class_0) || (t =? class_1))%string).
  set (mask := map g (target mnist)).
  set (Xm := compress mask (data mnist)).
  set (ym := compress mask (target mnist)).
  assert (Hm : List.length Xm = List.length ym)
    by (apply compress_length; exact Hlen).
  assert (Hsel : combine Xm ym = selected mnist class_0 class_1).
  { unfold Xm, ym, selected. rewrite compress_combine.
    apply (compress_filter g). exact Hlen. }
  pose proof (shuffled (List.length Xm)) as Hperm.
  assert (Hidx : Forall (fun i => i < List.length Xm) (shuffled_indices (List.length Xm))).
  { apply Forall_forall. intros i Hi.
    apply (Permutation_in _ Hperm) in Hi. apply in_seq in Hi. lia. }
  destruct (take_Forall2 Xm _ Hidx) as (X & HX & HXall).
  assert (Hidy : Forall (fun i => i < List.length ym) (shuffled_indices (List.length Xm)))
    by (rewrite <- Hm; exact Hidx).
  destruct (take_Forall2 ym _ Hidy) as (y & Hy & Hyall).
  exists X, y. split; [| split].
  - intro n_samples. unfold load_mnist, equals.
    rewrite (logical_or_pointwise (fun t => (t =? class_0)%string)
                                  (fun t => (t =? class_1)%string)).
    fold g. fold mask. unfold boolean_index.
    replace (List.length mask) with (List.length (target mnist))
      by (unfold mask; rewrite length_map; reflexivity).
    rewrite <- Hlen, Nat.eqb_refl; cbn [bind]. fold Xm. fold ym.
    unfold shuffle. rewrite Hm, Nat.eqb_refl. rewrite <- Hm.
    rewrite HX; cbn [bind]. rewrite Hy; cbn [bind fst snd].
    destruct n_samples; reflexivity.
  - apply Forall2_length in HXall, Hyall. congruence.
  - rewrite <- Hsel.
    apply (taken_permutation (combine Xm ym) (shuffled_indices (List.length Xm))).
    + rewrite length_combine, <- Hm, Nat.min_id. exact Hperm.
    + apply taken_pairs; assumption.
Qed.

End LoadMnistFacts.

(** X9.  [load_mnist] keeps the samples and their labels aligned and
    returns only the two classes: when the data set has one label per
    image and [shuffle] applies a permutation, whatever [n_samples] is, the
    two arrays returned have one length and every returned pair (image,
    label) is a pair of the data set whose label is [class_0] or
    [class_1]. *)
Theorem load_mnist_keeps_pairs_of_two_classes :
  forall (image : Type) (shuffled_indices : nat -> list nat)
         (mnist : SgdEarlyStopping.bunch image) (n_samples : option Z)
         (class_0 class_1 : string),
    (forall n, Permutation (shuffled_indices n) (seq 0 n)) ->
    List.length (SgdEarlyStopping.data mnist)
    = List.length (SgdEarlyStopping.target mnist) ->
    exists X y,
      SgdEarlyStopping.load_mnist shuffled_indices mnist n_samples class_0 class_1
      = Ok (X, y) /\
      List.length X = List.length y /\
      Forall (fun p =>
                In p (combine (SgdEarlyStopping.data mnist)
                              (SgdEarlyStopping.target mnist)) /\
                (snd p = class_0 \/ snd p = class_1))
             (combine X y).
Proof.
  intros image shuffled_indices mnist n_samples class_0 class_1 Hsh Hlen.
  destruct (load_mnist_shuffled image shuffled_indices Hsh mnist class_0 class_1 Hlen)
    as (X & y & Hrun & Hxy & Hperm).
  assert (Hall : forall p, In p (combine X y) ->
                 In p (combine (SgdEarlyStopping.data mnist)
                               (SgdEarlyStopping.target mnist)) /\
                 (snd p = class_0 \/ snd p = class_1)).
  { intros p Hp. apply (Permutation_in _ Hperm) in Hp.
    unfold SgdEarlyStopping.selected in Hp. apply filter_In in Hp as [Hin Hc].
    split; [exact Hin |].
    apply orb_true_iff in Hc as [Hc | Hc]; apply String.eqb_eq in Hc; auto. }
  destruct n_samples as [n |].
  - exists (Slice.to X n), (Slice.to y n).
    split; [apply Hrun | split].
    + unfold Slice.to. rewrite !length_firstn, Hxy. reflexivity.
    + apply Forall_forall. intros p Hp. apply Hall.
      unfold Slice.to in Hp. rewrite Hxy in Hp. rewrite <- combine_firstn in Hp.
      apply In_firstn in Hp. exact Hp.
  - exists X, y. split; [apply (Hrun None) | split; [exact Hxy |]].
    apply Forall_forall. exact Hall.
Qed.

Lemma load_mnist_keeps_pairs_of_two_classes_witness :
  exists X y,
    SgdEarlyStopping.load_mnist SgdEarlyStopping.reversed
      SgdEarlyStopping.four_digits (Some 2%Z) "0" "8" = Ok (X, y) /\
    List.length X = List.length y /\
    Forall (fun p =>
              In p (combine (SgdEarlyStopping.data SgdEarlyStopping.four_digits)
                            (SgdEarlyStopping.target SgdEarlyStopping.four_digits)) /\
              (snd p = "0"%string \/ snd p = "8"%string))
           (combine X y).
Proof.
  apply (load_mnist_keeps_pairs_of_two_classes nat SgdEarlyStopping.reversed
           SgdEarlyStopping.four_digits (Some 2%Z) "0" "8").
  - intro n. unfold SgdEarlyStopping.reversed.
    apply Permutation_sym, Permutation_rev.
  - reflexivity.
Defined.

(** X10.  How many samples [load_mnist] returns.  With [m] samples in the
    two classes: without [n_samples] all [m] are returned, in a permuted
    order; with [n_samples >= 0] the first [min(n_samples, m)] of them;
    with a negative [n_samples] the slice drops the last [-n_samples]
    instead, so [m + n_samples] samples are returned (none when that is
    negative). *)
Theorem load_mnist_sample_count :
  forall (image : Type) (shuffled_indices : nat -> list nat)
         (mnist : SgdEarlyStopping.bunch image) (class_0 class_1 : string),
    (forall n, Permutation (shuffled_indices n) (seq 0 n)) ->
    List.length (SgdEarlyStopping.data mnist)
    = List.length (SgdEarlyStopping.target mnist) ->
    let m := List.length (SgdEarlyStopping.selected mnist class_0 class_1) in
    (exists X y,
        SgdEarlyStopping.load_mnist shuffled_indices mnist None class_0 class_1
        = Ok (X, y) /\
        Permutation (combine X y) (SgdEarlyStopping.selected mnist class_0 class_1)) /\
    (forall n : Z,
        exists X y,
          SgdEarlyStopping.load_mnist shuffled_indices mnist (Some n) class_0 class_1
          = Ok (X, y) /\
          List.length y = List.length X /\
          ((0 <= n)%Z -> List.length X = Nat.min (Z.to_nat n) m) /\
          ((n < 0)%Z -> List.length X = m - Z.to_nat (- n))).
Proof.
  intros image shuffled_indices mnist class_0 class_1 Hsh Hlen m.
  destruct (load_mnist_shuffled image shuffled_indices Hsh mnist class_0 class_1 Hlen)
    as (X & y & Hrun & Hxy & Hperm).
  assert (Hm : List.length X = m).
  { unfold m. rewrite <- (Permutation_length Hperm), length_combine, <- Hxy.
    symmetry; apply Nat.min_id. }
  split.
  - exists X, y. split; [apply (Hrun None) | exact Hperm].
  - intro n. exists (Slice.to X n), (Slice.to y n).
    split; [apply (Hrun (Some n)) |].
    unfold Slice.to. rewrite !length_firstn, <- Hxy, Hm.
    pose proof (slice_bound_same m n) as Hb. unfold Slice.bound in *.
    split; [reflexivity | split]; intro Hn.
    + replace (n <? 0)%Z with false by (symmetry; apply Z.ltb_ge; lia). lia.
    + replace (n <? 0)%Z with true by (symmetry; apply Z.ltb_lt; lia). lia.
Qed.

Lemma load_mnist_sample_count_witness :
  exists X y,
    SgdEarlyStopping.load_mnist SgdEarlyStopping.reversed
      SgdEarlyStopping.four_digits (Some (-1)%Z) "0" "8" = Ok (X, y) /\
    List.length X = 2.
Proof.
  destruct (load_mnist_sample_count nat SgdEarlyStopping.reversed
              SgdEarlyStopping.four_digits "0" "8") as [_ H].
  - intro n. unfold SgdEarlyStopping.reversed.
    apply Permutation_sym, Permutation_rev.
  - reflexivity.
  - destruct (H (-1)%Z) as (X & y & Hrun & _ & _ & Hneg).
    exists X, y. split; [exact Hrun |].
    rewrite Hneg by lia. reflexivity.
Defined.

(** ** Mahalanobis distances: inliers and outliers *)

Section MahalanobisFacts.

Import Mahalanobis.

Lemma bound_from_the_end (n k : nat) :
  0 < k -> k <= n -> Slice.bound n (- Z.of_nat k) = n - k.
Proof.
  intros Hk Hn. unfold Slice.bound.
  replace (- Z.of_nat k <? 0)%Z with true by (symmetry; apply Z.ltb_lt; lia).
  lia.
Qed.

Lemma bound_minus_zero (n : nat) : Slice.bound n (- Z.of_nat 0) = 0.
Proof. unfold Slice.bound. simpl. apply Nat.min_0_r. Qed.

Lemma full_length (n : nat) (v : Q) : full (Z.of_nat n) v = Ok (repeat v n).
Proof.
  unfold full.
  replace (Z.of_nat n <? 0)%Z with false by (symmetry; apply Z.ltb_ge; lia).
  rewrite Nat2Z.id. reflexivity.
Qed.

End MahalanobisFacts.

(** X11.  The contaminated data set.  With [0 < n_outliers <= n_samples],
    [X[-n_outliers:] = outliers] replaces the last [n_outliers] rows and
    leaves the first [n_samples - n_outliers] rows as they were drawn;
    afterwards [X[-n_outliers:]] (the points scattered in red) is exactly
    the array of outliers and [X[:-n_outliers]] the untouched rows. *)
Theorem contaminate_replaces_the_last_rows :
  forall (A : Type) (X outliers : list A) (n_outliers : nat),
    0 < n_outliers <= List.length X ->
    List.length outliers = n_outliers ->
    exists X',
      Mahalanobis.contaminate X outliers n_outliers = Ok X' /\
      List.length X' = List.length X /\
      X' = firstn (List.length X - n_outliers) X ++ outliers /\
      Slice.from X' (- Z.of_nat n_outliers) = outliers /\
      Slice.to X' (- Z.of_nat n_outliers) = firstn (List.length X - n_outliers) X.
Proof.
  intros A X outliers k [Hk Hn] Hout.
  set (n := List.length X) in *.
  set (X' := firstn (n - k) X ++ outliers).
  assert (Hlen : List.length X' = n).
  { unfold X'. rewrite length_app, length_firstn. fold n. lia. }
  assert (Hinl : List.length (firstn (n - k) X) = n - k).
  { rewrite length_firstn. fold n. lia. }
  exists X'. split; [| split; [exact Hlen | split; [reflexivity | split]]].
  - unfold Mahalanobis.contaminate, Mahalanobis.assign_from. fold n.
    rewrite (bound_from_the_end n k Hk Hn).
    replace (List.length outliers =? n - (n - k)) with true; [reflexivity |].
    symmetry; apply Nat.eqb_eq; lia.
  - unfold Slice.from. rewrite Hlen, (bound_from_the_end n k Hk Hn).
    unfold X'. rewrite skipn_app, Hinl, Nat.sub_diag.
    rewrite skipn_all2 by lia. reflexivity.
  - unfold Slice.to. rewrite Hlen, (bound_from_the_end n k Hk Hn).
    unfold X'. rewrite firstn_app, Hinl, Nat.sub_diag.
    rewrite firstn_all2 by lia. simpl. apply app_nil_r.
Qed.

Lemma contaminate_replaces_the_last_rows_witness :
  exists X',
    Mahalanobis.contaminate [1; 2; 3; 4; 5] [8; 9] 2 = Ok X' /\
    X' = [1; 2; 3; 8; 9].
Proof.
  destruct (contaminate_replaces_the_last_rows nat [1; 2; 3; 4; 5] [8; 9] 2)
    as (X' & Hrun & _ & Hrows & _).
  - simpl; lia.
  - reflexivity.
  - exists X'. split; [exact Hrun | exact Hrows].
Defined.

(** X12.  The script needs at least one outlier and no more outliers than
    samples.  For distances of [n_samples] points the two [plot] calls of a
    box plot succeed when [0 < n_outliers <= n_samples]; with
    [n_outliers = 0] both the assignment [X[-0:] = ...] (the slice is then
    the whole array) and the first [plot] call ([mahal[:-0]] is empty)
    raise [ValueError]; with more outliers than samples
    [np.full(n_samples - n_outliers, ...)] raises [ValueError]. *)
Theorem outlier_count_must_be_positive :
  forall (A : Type) (n_samples n_outliers : nat) (X mahal : list A),
    List.length X = n_samples ->
    List.length mahal = n_samples ->
    0 < n_samples ->
    (0 < n_outliers <= n_samples ->
     Mahalanobis.marks n_samples n_outliers mahal = Ok tt) /\
    (n_outliers = 0 ->
     Mahalanobis.contaminate X [] n_outliers = Raise ValueError /\
     Mahalanobis.marks n_samples n_outliers mahal = Raise ValueError) /\
    (n_samples < n_outliers ->
     Mahalanobis.marks n_samples n_outliers mahal = Raise ValueError).
Proof.
  intros A n k X mahal HX Hm Hn. split; [| split].
  - intros [Hk Hkn]. unfold Mahalanobis.marks.
    replace (Z.of_nat n - Z.of_nat k)%Z with (Z.of_nat (n - k)) by lia.
    rewrite !full_length; cbn [bind]. unfold Plt.plot, Slice.to, Slice.from.
    rewrite Hm, (bound_from_the_end n k Hk Hkn).
    rewrite repeat_length, length_firstn, Hm.
    replace (n - k =? Nat.min (n - k) n) with true
      by (symmetry; apply Nat.eqb_eq; lia).
    cbn [bind]. rewrite repeat_length, length_skipn, Hm.
    replace (k =? n - (n - k)) with true by (symmetry; apply Nat.eqb_eq; lia).
    reflexivity.
  - intros ->. split.
    + unfold Mahalanobis.contaminate, Mahalanobis.assign_from.
      rewrite bound_minus_zero, HX, Nat.sub_0_r. cbn [List.length].
      destruct n; [lia | reflexivity].
    + unfold Mahalanobis.marks.
      replace (Z.of_nat n - Z.of_nat 0)%Z with (Z.of_nat n) by lia.
      rewrite full_length; cbn [bind]. unfold Plt.plot, Slice.to.
      rewrite Hm, bound_minus_zero, repeat_length. cbn [firstn List.length].
      destruct n; [lia | reflexivity].
  - intro Hk. unfold Mahalanobis.marks, Mahalanobis.full.
    replace (Z.of_nat n - Z.of_nat k <? 0)%Z with true
      by (symmetry; apply Z.ltb_lt; lia).
    reflexivity.
Qed.

Lemma outlier_count_must_be_positive_witness :
  Mahalanobis.marks 3 1 [5; 6; 7] = Ok tt /\
  Mahalanobis.contaminate [1; 2; 3] [] 0 = Raise ValueError /\
  Mahalanobis.marks 3 0 [5; 6; 7] = Raise ValueError /\
  Mahalanobis.marks 3 4 [5; 6; 7] = Raise ValueError.
Proof.
  destruct (outlier_count_must_be_positive nat 3 1 [1; 2; 3] [5; 6; 7]
              eq_refl eq_refl ltac:(lia)) as (H1 & _ & _).
  destruct (outlier_count_must_be_positive nat 3 0 [1; 2; 3] [5; 6; 7]
              eq_refl eq_refl ltac:(lia)) as (_ & H0 & _).
  destruct (outlier_count_must_be_positive nat 3 4 [1; 2; 3] [5; 6; 7]
              eq_refl eq_refl ltac:(lia)) as (_ & _ & H4).
  split; [apply H1; lia | split; [apply H0; reflexivity | split]].
  - apply H0; reflexivity.
  - apply H4; lia.
Defined.

(** ** Image denoising: the reduced image *)

Section DenoisingFacts.

Import Denoising.

Lemma every4_spec {A : Type} (d : A) (h : nat) (l : list A) :
  List.length l = 4 * h ->
  every4 l = map (fun i => nth (4 * i) l d) (seq 0 h).
Proof.
  revert l; induction h as [| h IH]; intros l Hl.
  - destruct l; [reflexivity | discriminate].
  - destruct l as [| a [| b [| c [| e l']]]]; simpl in Hl; try lia.
    cbn [every4 seq map]. rewrite Nat.mul_0_r. cbn [nth]. f_equal.
    rewrite (IH l') by lia. rewrite <- seq_shift, map_map.
    apply map_ext. intro i.
    replace (4 * S i) with (S (S (S (S (4 * i))))) by lia. reflexivity.
Qed.

Lemma every4_tl_spec {A : Type} (d : A) (h : nat) (l : list A) :
  List.length l = 4 * h ->
  every4 (tl l) = map (fun i => nth (4 * i + 1) l d) (seq 0 h).
Proof.
  revert l; induction h as [| h IH]; intros l Hl.
  - destruct l; [reflexivity | discriminate].
  - destruct l as [| a [| b [| c [| e l']]]]; simpl in Hl; try lia.
    cbn [tl every4 seq map].
    change (nth (4 * 0 + 1) (a :: b :: c :: e :: l') d) with b. f_equal.
    assert (E : match l' with
                | [] => []
                | _ :: l4 => every4 l4
                end = every4 (tl l')) by (destruct l'; reflexivity).
    rewrite E, (IH l') by lia. rewrite <- seq_shift, map_map.
    apply map_ext. intro i.
    replace (4 * S i + 1) with (S (S (S (S (4 * i + 1))))) by lia. reflexivity.
Qed.

Lemma zip_with_tabulated (f g : nat -> Q) (s : list nat) :
  Np.zip_with Qplus (map f s) (map g s) = map (fun j => (f j + g j)%Q) s.
Proof. induction s as [| j s IH]; simpl; [reflexivity | rewrite IH; reflexivity]. Qed.

Lemma mapM_map_ok {A B C : Type} (f : B -> py C) (k : A -> B) (g : A -> C) (s : list A) :
  (forall x, In x s -> f (k x) = Ok (g x)) -> mapM f (map k s) = Ok (map g s).
Proof.
  induction s as [| x s IH]; intro H; simpl; [reflexivity |].
  rewrite (H x (or_introl eq_refl)); cbn [bind].
  rewrite IH by (intros y Hy; apply H; right; exact Hy). reflexivity.
Qed.

Lemma combine_tabulated {A B : Type} (f : nat -> A) (g : nat -> B) (s : list nat) :
  combine (map f s) (map g s) = map (fun i => (f i, g i)) s.
Proof. induction s as [| i s IH]; simpl; [reflexivity | rewrite IH; reflexivity]. Qed.

(** The sum of two arrays given entry by entry. *)
Lemma add2_tabulated (f g : nat -> nat -> Q) (h w : nat) :
  add2 (map (fun i => map (f i) (seq 0 w)) (seq 0 h))
       (map (fun i => map (g i) (seq 0 w)) (seq 0 h))
  = Ok (map (fun i => map (fun j => (f i j + g i j)%Q) (seq 0 w)) (seq 0 h)).
Proof.
  unfold add2. rewrite !length_map, Nat.eqb_refl, combine_tabulated.
  apply mapM_map_ok. intros i _. cbn [fst snd]. unfold Np.add.
  rewrite elementwise_same_shape by (rewrite !length_map; reflexivity).
  rewrite zip_with_tabulated. reflexivity.
Qed.

Lemma nth_tabulated (e : nat -> nat -> Q) (h w i j : nat) :
  i < h -> j < w ->
  nth j (nth i (map (fun i => map (e i) (seq 0 w)) (seq 0 h)) []) 0%Q = e i j.
Proof.
  intros Hi Hj.
  rewrite (nth_indep _ [] (map (e 0) (seq 0 w))) by (rewrite length_map, length_seq; exact Hi).
  rewrite (map_nth (fun i => map (e i) (seq 0 w)) (seq 0 h) 0 i), seq_nth by exact Hi.
  rewrite (nth_indep _ 0%Q (e (0 + i) 0)) by (rewrite length_map, length_seq; exact Hj).
  rewrite (map_nth (e (0 + i)) (seq 0 w) 0 j), seq_nth by exact Hj.
  reflexivity.
Qed.

(** A strided slice of both axes, entry by entry. *)
Lemma strided_tabulated (a : image) (h w di dj : nat)
      (rows : list (list Q) -> list (list Q)) (cols : list Q -> list Q) :
  List.length a = 4 * h ->
  Forall (fun r => List.length r = 4 * w) a ->
  (forall l : list (list Q), List.length l = 4 * h ->
     rows l = map (fun i => nth (4 * i + di) l []) (seq 0 h)) ->
  (forall l : list Q, List.length l = 4 * w ->
     cols l = map (fun j => nth (4 * j + dj) l 0%Q) (seq 0 w)) ->
  di < 4 ->
  map cols (rows a)
  = map (fun i => map (fun j => nth (4 * j + dj) (nth (4 * i + di) a []) 0%Q) (seq 0 w))
        (seq 0 h).
Proof.
  intros Ha Hw Hrows Hcols Hdi. rewrite (Hrows a Ha), map_map.
  apply map_ext_in. intros i Hi. apply in_seq in Hi.
  apply Hcols. rewrite Forall_forall in Hw. apply Hw. apply nth_In. lia.
Qed.

End DenoisingFacts.

(** X13.  The reduction of the image keeps, for every block of 4 x 4
    pixels, the mean of the four pixels of its upper-left 2 x 2 corner:
    for an image of [4 h] rows of [4 w] pixels the result has [h] rows of
    [w] values, and its value at (i, j) is the sum of the scaled pixels at
    (4i, 4j), (4i+1, 4j), (4i, 4j+1) and (4i+1, 4j+1), divided by 4.  The
    other twelve pixels of the block are not read. *)
Theorem downsample_averages_the_corner :
  forall (face : Denoising.image) (h w : nat),
    List.length face = 4 * h ->
    Forall (fun r => List.length r = 4 * w) face ->
    exists small,
      Denoising.downsample face = Ok small /\
      List.length small = h /\
      Forall (fun r => List.length r = w) small /\
      forall i j, i < h -> j < w ->
        let px := fun r c => nth c (nth r (Denoising.divide face 255) []) 0%Q in
        nth j (nth i small []) 0%Q
        = ((px (4 * i)%nat (4 * j)%nat + px (4 * i + 1)%nat (4 * j)%nat
            + px (4 * i)%nat (4 * j + 1)%nat + px (4 * i + 1)%nat (4 * j + 1)%nat)
           / 4)%Q.
Proof.
  intros face h w Hh Hw.
  set (a := Denoising.divide face 255).
  assert (Ha : List.length a = 4 * h)
    by (unfold a, Denoising.divide; rewrite length_map; exact Hh).
  assert (Haw : Forall (fun r => List.length r = 4 * w) a).
  { unfold a, Denoising.divide. apply Forall_forall. intros r Hr.
    apply in_map_iff in Hr as (r0 & <- & Hr0). rewrite length_map.
    rewrite Forall_forall in Hw. apply Hw; exact Hr0. }
  set (px := fun r c => nth c (nth r a []) 0%Q).
  assert (R0 : forall l : list (list Q), List.length l = 4 * h ->
               Denoising.every4 l = map (fun i => nth (4 * i + 0) l []) (seq 0 h)).
  { intros l Hl. rewrite (every4_spec [] h l Hl). apply map_ext.
    intro i. rewrite Nat.add_0_r. reflexivity. }
  assert (R1 : forall l : list (list Q), List.length l = 4 * h ->
               Denoising.every4 (tl l) = map (fun i => nth (4 * i + 1) l []) (seq 0 h))
    by (intros l Hl; apply every4_tl_spec; exact Hl).
  assert (C0 : forall l : list Q, List.length l = 4 * w ->
               Denoising.every4 l = map (fun j => nth (4 * j + 0) l 0%Q) (seq 0 w)).
  { intros l Hl. rewrite (every4_spec 0%Q w l Hl). apply map_ext.
    intro j. rewrite Nat.add_0_r. reflexivity. }
  assert (C1 : forall l : list Q, List.length l = 4 * w ->
               Denoising.every4 (tl l) = map (fun j => nth (4 * j + 1) l 0%Q) (seq 0 w))
    by (intros l Hl; apply every4_tl_spec; exact Hl).
  exists (map (fun i => map (fun j =>
            ((px (4 * i + 0)%nat (4 * j + 0)%nat + px (4 * i + 1)%nat (4 * j + 0)%nat
              + px (4 * i + 0)%nat (4 * j + 1)%nat + px (4 * i + 1)%nat (4 * j + 1)%nat)
             / 4)%Q)
            (seq 0 w)) (seq 0 h)).
  split; [| split; [| split]].
  - unfold Denoising.downsample. fold a.
    rewrite (strided_tabulated a h w 0 0 Denoising.every4 Denoising.every4 Ha Haw R0 C0)
      by lia.
    rewrite (strided_tabulated a h w 1 0 (fun l => Denoising.every4 (tl l))
               Denoising.every4 Ha Haw R1 C0) by lia.
    rewrite (strided_tabulated a h w 0 1 Denoising.every4
               (fun r => Denoising.every4 (tl r)) Ha Haw R0 C1) by lia.
    rewrite (strided_tabulated a h w 1 1 (fun l => Denoising.every4 (tl l))
               (fun r => Denoising.every4 (tl r)) Ha Haw R1 C1) by lia.
    rewrite (add2_tabulated (fun i j => px (4 * i + 0) (4 * j + 0))
                            (fun i j => px (4 * i + 1) (4 * j + 0))); cbn [bind].
    rewrite (add2_tabulated
               (fun i j => (px (4 * i + 0)%nat (4 * j + 0)%nat
                            + px (4 * i + 1)%nat (4 * j + 0)%nat)%Q)
               (fun i j => px (4 * i + 0) (4 * j + 1))); cbn [bind].
    rewrite (add2_tabulated
               (fun i j => (px (4 * i + 0)%nat (4 * j + 0)%nat
                            + px (4 * i + 1)%nat (4 * j + 0)%nat
                            + px (4 * i + 0)%nat (4 * j + 1)%nat)%Q)
               (fun i j => px (4 * i + 1) (4 * j + 1))); cbn [bind].
    unfold Denoising.divide. rewrite map_map. f_equal.
    apply map_ext. intro i. rewrite map_map. reflexivity.
  - rewrite length_map, length_seq. reflexivity.
  - apply Forall_forall. intros r Hr. apply in_map_iff in Hr as (i & <- & _).
    rewrite length_map, length_seq. reflexivity.
  - intros i j Hi Hj. cbv zeta.
    rewrite (nth_tabulated _ h w i j Hi Hj). fold a. fold px.
    rewrite !Nat.add_0_r. reflexivity.
Qed.

Lemma downsample_averages_the_corner_witness :
  exists small,
    Denoising.downsample Denoising.block = Ok small /\
    List.length small = 1.
Proof.
  destruct (downsample_averages_the_corner Denoising.block 1 1)
    as (small & Hrun & Hlen & _).
  - reflexivity.
  - repeat constructor.
  - exists small. split; [exact Hrun | exact Hlen].
Defined.

Lemma map_fst_combine {A B : Type} (a : list A) (b : list B) :
  List.length a = List.length b -> map fst (combine a b) = a.
Proof.
  revert b; induction a as [| x a IH]; intros [| y b] H; simpl in *;
    try discriminate; [reflexivity |].
  injection H as H. rewrite (IH b H). reflexivity.
Qed.

Lemma odd_half (n : nat) : Nat.odd n = true -> n - n / 2 = S (n / 2).
Proof.
  intro H. apply Nat.odd_spec in H as [k ->].
  replace ((2 * k + 1) / 2) with k; [lia |].
  symmetry. replace (2 * k + 1) with (1 + k * 2) by lia.
  rewrite Nat.div_add by discriminate. reflexivity.
Qed.

Lemma even_half (n : nat) : Nat.even n = true -> n - n / 2 = n / 2.
Proof.
  intro H. apply Nat.even_spec in H as [k ->].
  replace (2 * k / 2) with k; [lia |].
  symmetry. rewrite Nat.mul_comm. apply Nat.div_mul. discriminate.
Qed.

(** X14.  The distortion touches the right half only.  For an image of
    even width and a noise array of [height] rows of [width // 2] values,
    [distorted[:, width // 2 :] += noise] succeeds; the left half of
    [distorted] (the part the dictionary is learned from) is the left half
    of the image, and its right half is the right half of the image plus
    the noise.  For an odd width other than 3 the right half is one column
    wider than the noise and the statement raises [ValueError]. *)
Theorem distortion_spares_the_left_half :
  forall (raccoon_face noise : Denoising.image) (width : nat),
    raccoon_face <> [] ->
    Forall (fun r => List.length r = width) raccoon_face ->
    List.length noise = List.length raccoon_face ->
    Forall (fun r => List.length r = width / 2) noise ->
    (Nat.even width = true ->
     exists distorted,
       Denoising.distort raccoon_face noise width = Ok distorted /\
       map (firstn (width / 2)) distorted = map (firstn (width / 2)) raccoon_face /\
       map (skipn (width / 2)) distorted
       = map (fun p => Np.zip_with Qplus (skipn (width / 2) (fst p)) (snd p))
             (combine raccoon_face noise)) /\
    (Nat.odd width = true -> width <> 3 ->
     Denoising.distort raccoon_face noise width = Raise ValueError).
Proof.
  intros a noise width Hne Ha Hlen Hnoise.
  set (half := width / 2).
  assert (Hhalf : half <= width) by (apply Nat.Div0.div_le_upper_bound; lia).
  assert (Hpair : forall p, In p (combine a noise) ->
            List.length (fst p) = width /\ List.length (snd p) = half).
  { intros [row nrow] Hp. split; cbn [fst snd].
    - rewrite Forall_forall in Ha. apply Ha. eapply in_combine_l; exact Hp.
    - rewrite Forall_forall in Hnoise. apply Hnoise. eapply in_combine_r; exact Hp. }
  split.
  - intro He. pose proof (even_half width He) as Hright. fold half in Hright.
    set (g := fun p : list Q * list Q =>
                firstn half (fst p) ++ Np.zip_with Qplus (skipn half (fst p)) (snd p)).
    exists (map g (combine a noise)). split; [| split].
    + unfold Denoising.distort. fold half. rewrite Hlen, Nat.eqb_refl.
      apply mapM_pointwise. intros p Hp. destruct (Hpair p Hp) as [Hr Hn].
      unfold Denoising.iadd1. rewrite length_skipn, Hr, Hn, Hright, Nat.eqb_refl.
      reflexivity.
    + rewrite map_map.
      rewrite <- (map_fst_combine a noise (eq_sym Hlen)) at 2. rewrite map_map.
      apply map_ext_in. intros p Hp. destruct (Hpair p Hp) as [Hr Hn]. unfold g.
      rewrite firstn_app, length_firstn, Hr.
      replace (half - Nat.min half width) with 0 by lia.
      rewrite firstn_0, app_nil_r. apply firstn_all2.
      rewrite length_firstn; lia.
    + rewrite map_map. apply map_ext_in. intros p Hp.
      destruct (Hpair p Hp) as [Hr Hn]. unfold g.
      rewrite skipn_app, length_firstn, Hr.
      replace (half - Nat.min half width) with 0 by lia.
      rewrite skipn_all2 by (rewrite length_firstn; lia). reflexivity.
  - intros Ho H3. pose proof (odd_half width Ho) as Hright. fold half in Hright.
    unfold Denoising.distort. fold half. rewrite Hlen, Nat.eqb_refl.
    destruct a as [| row a']; [contradiction |].
    destruct noise as [| nrow noise']; [discriminate |].
    destruct (Hpair (row, nrow) (or_introl eq_refl)) as [Hr Hn]. cbn [fst snd] in Hr, Hn.
    cbn [combine]. apply mapM_raises_first. cbn [fst snd].
    unfold Denoising.iadd1. rewrite length_skipn, Hr, Hn, Hright.
    replace (half =? S half) with false by (symmetry; apply Nat.eqb_neq; lia).
    destruct nrow as [| y [| z t]]; [reflexivity | | reflexivity].
    exfalso. simpl in Hn. apply H3.
    apply Nat.odd_spec in Ho as [k Hk]. unfold half in Hn.
    rewrite Hk in Hn. replace (2 * k + 1) with (1 + k * 2) in Hn by lia.
    rewrite Nat.div_add in Hn by discriminate. simpl in Hn. lia.
Qed.

Lemma distortion_spares_the_left_half_witness :
  (exists distorted,
      Denoising.distort Denoising.block Denoising.block_noise 4 = Ok distorted /\
      map (firstn 2) distorted = map (firstn 2) Denoising.block) /\
  Denoising.distort Denoising.odd_block Denoising.odd_noise 5 = Raise ValueError.
Proof.
  split.
  - destruct (distortion_spares_the_left_half Denoising.block Denoising.block_noise 4)
      as [H _].
    + discriminate.
    + repeat constructor.
    + reflexivity.
    + repeat constructor.
    + destruct (H eq_refl) as (d & Hrun & Hleft & _). exists d. split; assumption.
  - destruct (distortion_spares_the_left_half Denoising.odd_block Denoising.odd_noise 5)
      as [_ H].
    + discriminate.
    + repeat constructor.
    + reflexivity.
    + repeat constructor.
    + apply H; [reflexivity | lia].
Defined.

(** X15.  The dictionary is shown on a 10 x 10 grid whatever the number of
    components: the loop runs over [V[:100]], so for components of 49
    values every [plt.subplot(10, 10, i + 1)] and every
    [reshape(patch_size)] succeeds, and the panels are the first
    [min(100, len(V))] components in the cells [1, 2, ...]; a first
    component of another length makes [reshape] raise [ValueError]. *)
Theorem dictionary_grid_is_never_exceeded :
  forall V : list (list Q),
    (Forall (fun comp => List.length comp = 49) V ->
     exists panels,
       Denoising.show_dictionary V = Ok panels /\
       map fst panels = seq 1 (Nat.min 100 (List.length V)) /\
       map (fun p => Reshape.ravel (snd p)) panels = firstn 100 V) /\
    (forall comp V', V = comp :: V' -> List.length comp <> 49 ->
       Denoising.show_dictionary V = Raise ValueError).
Proof.
  intro V. split.
  - intro Hall.
    destruct (mapM_Forall2
                (fun ic : nat * list Q =>
                   sub <- Plt.subplot 10 10 (fst ic + 1) ;;
                   img <- Reshape.reshape Denoising.patch_size (snd ic) ;;
                   Ok (sub, img))
                (fun ic p => fst p = 1 + fst ic /\ Reshape.ravel (snd p) = snd ic)
                (Py.enumerate (firstn 100 V))) as (panels & Hrun & Hpanels).
    { intros [i comp] Hin. cbn [fst snd].
      pose proof (enumerate_In _ _ _ Hin) as Hnth.
      assert (Hi : i < 100).
      { assert (i < List.length (firstn 100 V))
          by (apply nth_error_Some; rewrite Hnth; discriminate).
        rewrite length_firstn in H. lia. }
      assert (Hcomp : List.length comp = 49).
      { rewrite Forall_forall in Hall. apply Hall.
        apply (In_firstn 100). eapply nth_error_In; exact Hnth. }
      destruct (reshape_ravel Q Denoising.patch_size comp Hcomp)
        as (img & Himg & Hrav & _).
      exists (i + 1, img). split.
      - unfold Plt.subplot.
        replace (1 <=? i + 1) with true by (symmetry; apply Nat.leb_le; lia).
        replace (i + 1 <=? 10 * 10) with true by (symmetry; apply Nat.leb_le; simpl; lia).
        cbn [andb bind]. rewrite Himg. reflexivity.
      - cbn [fst snd]. split; [lia | exact Hrav]. }
    exists panels. split; [exact Hrun | split].
    + transitivity (map (fun ic : nat * list Q => 1 + fst ic)
                        (Py.enumerate (firstn 100 V))).
      * apply Forall2_map_eq.
        eapply Forall2_impl; [| exact Hpanels]. intros ic p [H _]; exact H.
      * rewrite <- map_map, enumerate_fst, length_firstn. apply map_add_seq.
    + transitivity (map (fun ic : nat * list Q => snd ic)
                        (Py.enumerate (firstn 100 V))).
      * apply (Forall2_map_eq (fun ic : nat * list Q => snd ic)
                 (fun p : nat * list (list Q) => Reshape.ravel (snd p))).
        eapply Forall2_impl; [| exact Hpanels]. intros ic p [_ H]; exact H.
      * apply enumerate_snd.
  - intros comp V' -> Hlen. unfold Denoising.show_dictionary.
    cbn [firstn List.length Py.enumerate seq combine].
    apply mapM_raises_first. cbn [fst snd].
    unfold Plt.subplot. cbn [Nat.add Nat.leb andb bind].
    rewrite reshape_wrong_size; [reflexivity | exact Hlen].
Qed.

Lemma dictionary_grid_is_never_exceeded_witness :
  exists panels,
    Denoising.show_dictionary (repeat (repeat 0%Q 49) 120) = Ok panels /\
    map fst panels = seq 1 100.
Proof.
  destruct (dictionary_grid_is_never_exceeded (repeat (repeat 0%Q 49) 120)) as [H _].
  destruct H as (panels & Hrun & Hcells & _).
  - apply Forall_forall. intros c Hc. apply repeat_spec in Hc. subst c.
    apply repeat_length.
  - exists panels. split; [exact Hrun |].
    rewrite Hcells, repeat_length. reflexivity.
Defined.

(** ** Image denoising: rescaled patches *)

Section PatchFacts.

Import Reduce Denoising.
Local Open Scope Q_scope.

Lemma Qmin_cases (x y : Q) : Qmin x y = x \/ Qmin x y = y.
Proof.
  unfold Qmin, GenericMinMax.gmin. destruct (x ?= y); auto.
Qed.

Lemma Qmax_cases (x y : Q) : Qmax x y = x \/ Qmax x y = y.
Proof.
  unfold Qmax, GenericMinMax.gmax. destruct (x ?= y); auto.
Qed.

Lemma fold_min_spec (l : list Q) (x : Q) :
  (fold_left Qmin l x = x \/ In (fold_left Qmin l x) l) /\
  fold_left Qmin l x <= x /\
  Forall (fun v => fold_left Qmin l x <= v) l.
Proof.
  revert x; induction l as [| a l IH]; intro x; cbn [fold_left].
  - split; [left; reflexivity | split; [apply Qle_refl | constructor]].
  - destruct (IH (Qmin x a)) as (Hin & Hle & Hall).
    pose proof (Q.le_min_l x a) as Hl. pose proof (Q.le_min_r x a) as Hr.
    split; [| split].
    + destruct Hin as [E | Hin]; [| right; right; exact Hin].
      rewrite E. destruct (Qmin_cases x a) as [-> | ->];
        [left; reflexivity | right; left; reflexivity].
    + eapply Qle_trans; [exact Hle | exact Hl].
    + constructor; [eapply Qle_trans; [exact Hle | exact Hr] | exact Hall].
Qed.

Lemma fold_max_spec (l : list Q) (x : Q) :
  (fold_left Qmax l x = x \/ In (fold_left Qmax l x) l) /\
  x <= fold_left Qmax l x /\
  Forall (fun v => v <= fold_left Qmax l x) l.
Proof.
  revert x; induction l as [| a l IH]; intro x; cbn [fold_left].
  - split; [left; reflexivity | split; [apply Qle_refl | constructor]].
  - destruct (IH (Qmax x a)) as (Hin & Hle & Hall).
    pose proof (Q.le_max_l x a) as Hl. pose proof (Q.le_max_r x a) as Hr.
    split; [| split].
    + destruct Hin as [E | Hin]; [| right; right; exact Hin].
      rewrite E. destruct (Qmax_cases x a) as [-> | ->];
        [left; reflexivity | right; left; reflexivity].
    + eapply Qle_trans; [exact Hl | exact Hle].
    + constructor; [eapply Qle_trans; [exact Hr | exact Hle] | exact Hall].
Qed.

Lemma amin_spec (a : list Q) :
  a <> [] ->
  exists lo, amin a = Ok lo /\ In lo a /\ Forall (fun v => lo <= v) a.
Proof.
  destruct a as [| x l]; [contradiction |]. intros _.
  destruct (fold_min_spec l x) as (Hin & Hle & Hall).
  exists (fold_left Qmin l x). split; [reflexivity | split].
  - destruct Hin as [-> | Hin]; [left; reflexivity | right; exact Hin].
  - constructor; assumption.
Qed.

Lemma amax_spec (a : list Q) :
  a <> [] ->
  exists hi, amax a = Ok hi /\ In hi a /\ Forall (fun v => v <= hi) a.
Proof.
  destruct a as [| x l]; [contradiction |]. intros _.
  destruct (fold_max_spec l x) as (Hin & Hle & Hall).
  exists (fold_left Qmax l x). split; [reflexivity | split].
  - destruct Hin as [-> | Hin]; [left; reflexivity | right; exact Hin].
  - constructor; assumption.
Qed.

End PatchFacts.

(** X16.  In the "threshold" branch, [patches -= patches.min()] followed by
    [patches /= patches.max()] brings the values into [0, 1] whenever the
    patches hold two different values: every value of the result lies in
    [0, 1], and both 0 and 1 are reached. *)
Theorem threshold_patches_fill_the_unit_interval :
  forall (patches : list Q) (x y : Q),
    In x patches -> In y patches -> (x < y)%Q ->
    exists scaled,
      Denoising.rescale patches = Ok scaled /\
      List.length scaled = List.length patches /\
      Forall (fun v => (0 <= v <= 1)%Q) scaled /\
      (exists v, In v scaled /\ (v == 0)%Q) /\
      (exists v, In v scaled /\ (v == 1)%Q).
Proof.
  intros patches x y Hx Hy Hxy.
  assert (Hne : patches <> []) by (intros ->; contradiction).
  destruct (amin_spec patches Hne) as (lo & Hlo & Hlo_in & Hlo_all).
  set (shifted := map (fun v => (v - lo)%Q) patches).
  assert (Hne' : shifted <> [])
    by (unfold shifted; destruct patches; [contradiction | discriminate]).
  destruct (amax_spec shifted Hne') as (hi & Hhi & Hhi_in & Hhi_all).
  rewrite Forall_forall in Hlo_all, Hhi_all.
  assert (Hpos : (0 < hi)%Q).
  { pose proof (Hlo_all x Hx) as H1.
    assert (H2 : ((y - lo) <= hi)%Q).
    { apply Hhi_all. unfold shifted. apply in_map_iff. exists y; auto. }
    lra. }
  exists (map (fun v => (v / hi)%Q) shifted).
  split; [| split; [| split; [| split]]].
  - unfold Denoising.rescale. rewrite Hlo; cbn [bind]. fold shifted.
    rewrite Hhi; cbn [bind]. reflexivity.
  - unfold shifted. rewrite !length_map. reflexivity.
  - apply Forall_forall. intros v Hv.
    apply in_map_iff in Hv as (s & <- & Hs).
    pose proof (Hhi_all s Hs) as Hs_hi.
    unfold shifted in Hs. apply in_map_iff in Hs as (p & <- & Hp).
    pose proof (Hlo_all p Hp) as Hp_lo. split.
    + apply Qle_shift_div_l; [exact Hpos | lra].
    + apply Qle_shift_div_r; [exact Hpos | lra].
  - exists ((lo - lo) / hi)%Q. split.
    + apply in_map_iff. exists (lo - lo)%Q. split; [reflexivity |].
      unfold shifted. apply in_map_iff. exists lo; auto.
    + field. lra.
  - exists (hi / hi)%Q. split.
    + apply in_map_iff. exists hi; auto.
    + field. lra.
Qed.

Lemma threshold_patches_fill_the_unit_interval_witness :
  exists scaled,
    Denoising.rescale (nth 0 Denoising.block_noise []) = Ok scaled /\
    List.length scaled = 2.
Proof.
  destruct (threshold_patches_fill_the_unit_interval
              (nth 0 Denoising.block_noise []) 1%Q 2%Q)
    as (scaled & Hrun & Hlen & _).
  - simpl; auto.
  - simpl; auto.
  - reflexivity.
  - exists scaled. split; [exact Hrun | exact Hlen].
Defined.

(** ** Grids *)

Section GridFacts.

Lemma combine_concat_map {A B C : Type} (f : C -> list A) (g : C -> list B) (l : list C) :
  (forall c, List.length (f c) = List.length (g c)) ->
  combine (concat (map f l)) (concat (map g l))
  = concat (map (fun c => combine (f c) (g c)) l).
Proof.
  intro H. induction l as [| c l IH]; simpl; [reflexivity |].
  rewrite <- IH. generalize (concat (map f l)) (concat (map g l)).
  specialize (H c). revert H. generalize (g c). generalize (f c).
  induction l0 as [| a l0 IH0]; intros [| b l1] H u v; simpl in *;
    try discriminate; [reflexivity |].
  injection H as H. rewrite (IH0 l1 H). reflexivity.
Qed.

Lemma combine_const {A B : Type} (x : list A) (b : B) :
  combine x (map (fun _ => b) x) = map (fun a => (a, b)) x.
Proof. induction x as [| a x IH]; simpl; [reflexivity | rewrite IH; reflexivity]. Qed.

Lemma combine_wrapped {A : Type} (u v : list A) :
  map (fun p : list A * list A => fst p ++ snd p)
      (combine (map (fun a => [a]) u) (map (fun b => [b]) v))
  = map (fun p : A * A => [fst p; snd p]) (combine u v).
Proof.
  revert v; induction u as [| a u IH]; intros [| b v]; simpl; try reflexivity.
  rewrite IH. reflexivity.
Qed.

Lemma length_concat_const {A B : Type} (f : B -> list A) (l : list B) (k : nat) :
  (forall b, List.length (f b) = k) ->
  List.length (concat (map f l)) = List.length l * k.
Proof.
  intro H. induction l as [| b l IH]; simpl; [reflexivity |].
  rewrite length_app, H, IH. reflexivity.
Qed.

Lemma map_concat_map {A B C : Type} (h : A -> B) (f : C -> list A) (l : list C) :
  map h (concat (map f l)) = concat (map (fun c => map h (f c)) l).
Proof.
  induction l as [| c l IH]; simpl; [reflexivity |].
  rewrite map_app, IH. reflexivity.
Qed.

Lemma tabulate_nth {A B : Type} (f : A -> B) (l : list A) (d : A) :
  map (fun i => f (nth i l d)) (seq 0 (List.length l)) = map f l.
Proof.
  induction l as [| a l IH]; [reflexivity |].
  cbn [List.length seq map nth]. f_equal.
  rewrite <- seq_shift, map_map. exact IH.
Qed.

Lemma nth_error_seq_lt (n i : nat) : i < n -> nth_error (seq 0 n) i = Some i.
Proof.
  intro H. rewrite nth_error_seq0.
  replace (i <? n) with true by (symmetry; apply Nat.ltb_lt; exact H).
  reflexivity.
Qed.

End GridFacts.

(** X18.  The uniform grid of the t-SNE script.  With
    [s = int(sqrt(n_samples))] and [x = np.linspace(0, 1, s)], the data are
    the [s * s] points [(x[j], x[i])], row by row, and the colour of a
    point is its first coordinate.  The grid holds at most [n_samples]
    points and fewer unless [n_samples] is a square: [s * s <= n_samples <
    (s + 1) * (s + 1)]. *)
Theorem uniform_grid_has_a_square_number_of_points :
  forall n_samples : nat,
    exists X color,
      Tsne.uniform_grid n_samples = Ok (X, color) /\
      X = flat_map (fun yi => map (fun xj => [xj; yi])
                                  (Np.linspace01 (Nat.sqrt n_samples)))
                   (Np.linspace01 (Nat.sqrt n_samples)) /\
      color = map (fun row => nth 0 row 0%Q) X /\
      List.length X = Nat.sqrt n_samples * Nat.sqrt n_samples /\
      List.length X <= n_samples < (Nat.sqrt n_samples + 1) * (Nat.sqrt n_samples + 1).
Proof.
  intro n. set (s := Nat.sqrt n). set (x := Np.linspace01 s).
  assert (Hx : List.length x = s).
  { unfold x, Np.linspace01. rewrite length_map, length_seq. reflexivity. }
  set (X := flat_map (fun yi => map (fun xj => [xj; yi]) x) x).
  assert (HX : List.length X = s * s).
  { unfold X. rewrite flat_map_concat_map.
    rewrite (length_concat_const _ x s); [rewrite Hx; reflexivity |].
    intro b. rewrite length_map. exact Hx. }
  exists X, (Reshape.ravel (fst (Grid.meshgrid x x))).
  split; [| split; [reflexivity | split; [| split; [exact HX |]]]].
  - unfold Tsne.uniform_grid. fold s. fold x.
    unfold Grid.hstack2, Grid.as_column, Grid.meshgrid, Reshape.ravel. cbn [fst snd].
    rewrite !length_map.
    rewrite (length_concat_const (fun _ => x) x s) by (intro; exact Hx).
    rewrite (length_concat_const (fun yi => map (fun _ => yi) x) x s)
      by (intro; rewrite length_map; exact Hx).
    rewrite Nat.eqb_refl. cbn [bind]. f_equal. f_equal.
    rewrite combine_wrapped.
    rewrite (combine_concat_map (fun _ : Q => x) (fun yi => map (fun _ => yi) x))
      by (intro; rewrite length_map; reflexivity).
    rewrite map_concat_map. unfold X. rewrite flat_map_concat_map.
    f_equal. apply map_ext. intro yi.
    rewrite combine_const, map_map. reflexivity.
  - unfold X, Reshape.ravel, Grid.meshgrid. cbn [fst].
    rewrite flat_map_concat_map, map_concat_map. f_equal.
    apply map_ext. intro yi. rewrite map_map. cbn [nth].
    symmetry. apply map_id.
  - rewrite HX. pose proof (Nat.sqrt_spec n (Nat.le_0_l n)) as Hs. fold s in Hs.
    replace ((s + 1) * (s + 1)) with (S s * S s) by lia. exact Hs.
Qed.

(** X19.  In the SVM script the models are fitted inside the plotting
    loop, one at a time.  Every plot is immediately preceded by the fit of
    the model it shows; the loop plots as many models as the shortest of
    the three sequences allows; and when there are more models than titles
    or axes, one more model is fitted than is plotted. *)
Theorem models_are_fitted_as_the_loop_needs_them :
  forall (models : list nat) (titles : list string) (axes : list nat),
    List.length (filter SvmIris.is_plot (SvmIris.plot_loop models titles axes))
    = Nat.min (List.length models) (Nat.min (List.length titles) (List.length axes)) /\
    List.length (filter SvmIris.is_fit (SvmIris.plot_loop models titles axes))
    = Nat.min (List.length models)
              (1 + Nat.min (List.length titles) (List.length axes)) /\
    forall before after clf title ax,
      SvmIris.plot_loop models titles axes = before ++ SvmIris.Plot clf title ax :: after ->
      exists earlier, before = earlier ++ [SvmIris.Fit clf].
Proof.
  induction models as [| m models IH]; intros titles axes.
  - split; [reflexivity | split; [reflexivity |]].
    intros before after clf title ax H. destruct before; discriminate H.
  - destruct titles as [| t titles]; [| destruct axes as [| a axes]].
    + split; [simpl; lia | split; [simpl; lia |]].
      intros before after clf title ax H.
      destruct before as [| e [| e' before]]; discriminate H.
    + split; [simpl; lia | split; [simpl; lia |]].
      intros before after clf title ax H.
      destruct before as [| e [| e' before]]; discriminate H.
    + destruct (IH titles axes) as (Hp & Hf & Hpre).
      split; [| split].
      * cbn [SvmIris.plot_loop filter SvmIris.is_plot SvmIris.is_fit negb List.length].
        rewrite Hp. lia.
      * cbn [SvmIris.plot_loop filter SvmIris.is_plot SvmIris.is_fit negb List.length].
        rewrite Hf. lia.
      * intros before after clf title ax H. cbn [SvmIris.plot_loop] in H.
        destruct before as [| e [| e' before]].
        -- discriminate H.
        -- simpl in H. inversion H; subst. exists []. reflexivity.
        -- simpl in H. inversion H as [[He He' Hrest]]; subst.
           destruct (Hpre before after clf title ax Hrest) as (earlier & ->).
           exists (SvmIris.Fit m :: SvmIris.Plot m t a :: earlier). reflexivity.
Qed.

(** ** Precision-recall: the iso-F1 curves *)

Section IsoF1Facts.

Import Index PrecisionRecall.




End IsoF1Facts.



(** X21.  The dates of the CO2 series as numbers.  [year + month / 12]
    keeps the order of the months: an earlier month of the calendar gets a
    smaller number.  The number of a month lies after its year, in
    (year, year + 1]: December is mapped to the next whole year. *)
Theorem months_keep_their_order :
  forall year1 month1 year2 month2 : Z,
    (1 <= month1 <= 12)%Z -> (1 <= month2 <= 12)%Z ->
    ((year1 < year2)%Z \/ (year1 = year2 /\ (month1 < month2)%Z)) ->
    (Gpr.as_year year1 month1 < Gpr.as_year year2 month2)%Q /\
    (inject_Z year1 < Gpr.as_year year1 month1 <= inject_Z year1 + 1)%Q /\
    (Gpr.as_year year1 12 == inject_Z (year1 + 1))%Q.
Proof.
  intros y1 m1 y2 m2 [L1 U1] [L2 U2] Hlt. unfold Gpr.as_year.
  assert (Q1 : (1 <= inject_Z m1 <= 12)%Q).
  { split; [change 1%Q with (inject_Z 1) | change 12%Q with (inject_Z 12)];
      rewrite <- Zle_Qle; assumption. }
  assert (Q2 : (1 <= inject_Z m2 <= 12)%Q).
  { split; [change 1%Q with (inject_Z 1) | change 12%Q with (inject_Z 12)];
      rewrite <- Zle_Qle; assumption. }
  assert (D : forall q : Q, (q / 12 == q * (1 # 12))%Q) by (intro q; field).
  rewrite !D. split; [| split].
  - destruct Hlt as [Hy | [-> Hm]].
    + assert (Hq : (inject_Z y1 + 1 <= inject_Z y2)%Q).
      { change 1%Q with (inject_Z 1). rewrite <- inject_Z_plus, <- Zle_Qle. lia. }
      lra.
    + assert (Hq : (inject_Z m1 < inject_Z m2)%Q) by (rewrite <- Zlt_Qlt; exact Hm).
      lra.
  - lra.
  - rewrite inject_Z_plus. change (inject_Z 12) with 12%Q.
    change (inject_Z 1) with 1%Q. lra.
Qed.

Lemma months_keep_their_order_witness :
  (Gpr.as_year 1958 12 < Gpr.as_year 1959 1)%Q.
Proof.
  apply (months_keep_their_order 1958 12 1959 1); lia.
Defined.

(** ** GPC: the landscape of the log-marginal likelihood *)

Section LandscapeFacts.

Lemma flat_map_singleton {A B : Type} (f : A -> B) (l : list A) :
  flat_map (fun a => [f a]) l = map f l.
Proof. induction l as [| a l IH]; simpl; [reflexivity | rewrite IH; reflexivity]. Qed.

Lemma transpose_tabulated {B : Type} (g : nat -> nat -> B) (n0 n1 : nat) :
  0 < n0 ->
  Grid.transpose (map (fun j => map (g j) (seq 0 n1)) (seq 0 n0))
  = map (fun i => map (fun j => g j i) (seq 0 n0)) (seq 0 n1).
Proof.
  intro Hn0. unfold Grid.transpose, Grid.shape. cbn [snd].
  replace (List.length (hd [] (map (fun j => map (g j) (seq 0 n1)) (seq 0 n0))))
    with n1.
  - apply map_ext_in. intros i Hi. apply in_seq in Hi.
    rewrite flat_map_concat_map, map_map, <- flat_map_concat_map.
    rewrite <- flat_map_singleton. apply flat_map_ext. intro j.
    rewrite (map_nth_error (g j) i (seq 0 n1) (nth_error_seq_lt n1 i ltac:(lia))).
    reflexivity.
  - destruct n0; [lia |]. cbn [seq map hd].
    rewrite length_map, length_seq. reflexivity.
Qed.

End LandscapeFacts.

(** X22.  The landscape has the layout of the two grids.  The nested
    comprehension builds the values column by column and [.T] turns them
    back: for non-empty [theta0] and [theta1] the result has one row per
    value of [theta1] and one column per value of [theta0], and its item
    (i, j) is the likelihood at ([theta0[j]], [theta1[i]]), the pair that
    [Theta0] and [Theta1] hold at (i, j). *)
Theorem landscape_has_the_layout_of_the_grids :
  forall (theta value : Type) (log_marginal_likelihood : theta -> theta -> value)
         (theta0 theta1 : list theta),
    theta0 <> [] -> theta1 <> [] ->
    Gpc.landscape log_marginal_likelihood theta0 theta1
    = Ok (map (fun t1 => map (fun t0 => log_marginal_likelihood t0 t1) theta0) theta1).
Proof.
  intros theta value lml theta0 theta1 H0 H1.
  destruct theta0 as [| d0 rest0] eqn:E0; [contradiction |]. rewrite <- E0 in *.
  destruct theta1 as [| d1 rest1] eqn:E1; [contradiction |]. rewrite <- E1 in *.
  set (n0 := List.length theta0). set (n1 := List.length theta1).
  assert (Hn0 : 0 < n0) by (unfold n0; rewrite E0; simpl; lia).
  assert (Hn1 : 0 < n1) by (unfold n1; rewrite E1; simpl; lia).
  unfold Gpc.landscape, Grid.meshgrid, Grid.shape. cbn [fst snd].
  rewrite length_map. fold n1.
  replace (List.length (hd [] (map (fun _ : theta => theta0) theta1))) with n0
    by (rewrite E1; reflexivity).
  rewrite (mapM_pointwise _
             (fun j => map (fun i => lml (nth j theta0 d0) (nth i theta1 d1)) (seq 0 n1))).
  - cbn [bind]. f_equal.
    rewrite (transpose_tabulated (fun j i => lml (nth j theta0 d0) (nth i theta1 d1))
               n0 n1 Hn0).
    unfold n0, n1.
    rewrite (tabulate_nth
               (fun t1 => map (fun j => lml (nth j theta0 d0) t1)
                              (seq 0 (List.length theta0)))
               theta1 d1).
    apply map_ext. intro t1.
    apply (tabulate_nth (fun t0 => lml t0 t1) theta0 d0).
  - intros j Hj. apply in_seq in Hj.
    apply mapM_pointwise. intros i Hi. apply in_seq in Hi.
    unfold Grid.entry.
    assert (Hi1 : nth_error theta1 i = Some (nth i theta1 d1))
      by (apply nth_error_nth'; fold n1; lia).
    assert (Hj0 : nth_error theta0 j = Some (nth j theta0 d0))
      by (apply nth_error_nth'; fold n0; lia).
    rewrite (getitem_nth _ _ _ (map_nth_error (fun _ => theta0) i theta1 Hi1)).
    cbn [bind]. rewrite (getitem_nth _ _ _ Hj0). cbn [bind].
    rewrite (getitem_nth _ _ _
               (map_nth_error (fun yi => map (fun _ => yi) theta0) i theta1 Hi1)).
    cbn [bind].
    rewrite (getitem_nth _ _ _
               (map_nth_error (fun _ => nth i theta1 d1) j theta0 Hj0)).
    reflexivity.
Qed.

Lemma landscape_has_the_layout_of_the_grids_witness :
  Gpc.landscape Nat.sub [10; 20; 30] [1; 2]
  = Ok [[9; 19; 29]; [8; 18; 28]].
Proof.
  apply (landscape_has_the_layout_of_the_grids nat nat Nat.sub [10; 20; 30] [1; 2]);
    discriminate.
Defined.

(** ** Scaling: the zoom *)

Section ZoomFacts.

Import Index.

Lemma compress_own_mask {A : Type} (g : A -> bool) (l : list A) :
  compress (map g l) l = filter g l.
Proof.
  induction l as [| a l IH]; simpl; [reflexivity |].
  destruct (g a); rewrite IH; reflexivity.
Qed.

Lemma filter_drops_one {A : Type} (g : A -> bool) (l : list A) (a : A) :
  In a l -> g a = false -> List.length (filter g l) < List.length l.
Proof.
  induction l as [| b l IH]; simpl; [contradiction |].
  intros [-> | Hin] Hg.
  - rewrite Hg. pose proof (filter_length_le g l). lia.
  - specialize (IH Hin Hg). destruct (g b); simpl; lia.
Qed.

End ZoomFacts.

(** X23.  The zoomed plot never shows all the data.  The lower cut-off of
    each column is its 0th percentile, a value of the column, and the mask
    keeps only rows strictly above it: for a non-empty data set the rows
    and the targets selected have one length, smaller than the number of
    rows, and every row kept lies strictly between the cut-offs in both
    columns. *)
Theorem zoom_in_drops_the_smallest_values :
  forall (percentile : list Q -> Q -> Q) (A : Type) (X : list (Q * Q)) (y : list A),
    (forall col, col <> [] -> In (percentile col 0%Q) col) ->
    X <> [] ->
    List.length y = List.length X ->
    exists Xz yz,
      Scaling.zoom_in percentile X y = Ok (Xz, yz) /\
      List.length Xz = List.length yz /\
      List.length Xz < List.length X /\
      Forall (fun row =>
                (percentile (map fst X) 0 < fst row < percentile (map fst X) 99)%Q /\
                (percentile (map snd X) 0 < snd row < percentile (map snd X) 99)%Q)
             Xz.
Proof.
  intros percentile A X y Hmin Hne Hlen.
  set (g := fun row : Q * Q =>
              (negb (Qle_bool (fst row) (percentile (map fst X) 0%Q)) &&
               negb (Qle_bool (snd row) (percentile (map snd X) 0%Q))) &&
              (negb (Qle_bool (percentile (map fst X) 99%Q) (fst row)) &&
               negb (Qle_bool (percentile (map snd X) 99%Q) (snd row)))).
  assert (Hmask : Scaling.non_outliers_mask percentile X = map g X) by reflexivity.
  exists (filter g X), (Index.compress (map g X) y).
  split; [| split; [| split]].
  - unfold Scaling.zoom_in, Index.boolean_index. rewrite Hmask, length_map.
    rewrite Nat.eqb_refl. cbn [bind]. rewrite Hlen, Nat.eqb_refl. cbn [bind].
    rewrite compress_own_mask. reflexivity.
  - rewrite <- (compress_own_mask g X). apply compress_length. symmetry; exact Hlen.
  - assert (Hcol : map fst X <> []) by (destruct X; [contradiction | discriminate]).
    pose proof (Hmin (map fst X) Hcol) as Hin.
    apply in_map_iff in Hin as (row & Hrow & Hin).
    apply (filter_drops_one g X row Hin). unfold g. rewrite Hrow.
    replace (Qle_bool (percentile (map fst X) 0%Q) (percentile (map fst X) 0%Q))
      with true by (symmetry; apply Qle_bool_iff, Qle_refl).
    reflexivity.
  - apply Forall_forall. intros row Hrow. apply filter_In in Hrow as [_ Hg].
    unfold g in Hg.
    apply andb_true_iff in Hg as [Hlo Hhi].
    apply andb_true_iff in Hlo as [L0 L1]. apply andb_true_iff in Hhi as [U0 U1].
    apply negb_true_iff in L0, L1, U0, U1.
    assert (N : forall a b, Qle_bool a b = false -> (b < a)%Q).
    { intros a b H. apply Qnot_le_lt. intro C. apply Qle_bool_iff in C. congruence. }
    repeat split; apply N; assumption.
Qed.

Lemma zoom_in_drops_the_smallest_values_witness :
  exists Xz yz,
    Scaling.zoom_in Scaling.extremes Scaling.three_blocks [1; 2; 3] = Ok (Xz, yz) /\
    List.length Xz < 3.
Proof.
  destruct (zoom_in_drops_the_smallest_values Scaling.extremes nat
              Scaling.three_blocks [1; 2; 3])
    as (Xz & yz & Hrun & _ & Hless & _).
  - intros col Hcol. destruct col as [| x rest]; [contradiction |].
    cbn [Scaling.extremes Qeq_bool Qnum Qden Z.mul Z.eqb].
    destruct (fold_min_spec rest x) as ([-> | Hin] & _);
      [left; reflexivity | right; exact Hin].
  - discriminate.
  - reflexivity.
  - exists Xz, yz. split; [exact Hrun | exact Hless].
Defined.

(** ** Forests and boosting: the colours *)

Section ColourFacts.

Lemma nth_error_times {A : Type} (l : list A) (k i : nat) :
  i < k * List.length l ->
  nth_error (ForestComparison.times l k) i = nth_error l (i mod List.length l).
Proof.
  unfold ForestComparison.times. revert i; induction k as [| k IH]; intros i Hi;
    [simpl in Hi; lia |].
  cbn [repeat concat].
  destruct (Nat.lt_ge_cases i (List.length l)) as [Hlt | Hge].
  - rewrite nth_error_app1 by exact Hlt. rewrite Nat.mod_small by exact Hlt.
    reflexivity.
  - rewrite nth_error_app2 by exact Hge. rewrite IH by (simpl in Hi; lia).
    f_equal.
    replace i with (i - List.length l + 1 * List.length l) at 2 by lia.
    rewrite Nat.Div0.mod_add. reflexivity.
Qed.

End ColourFacts.

(** X24.  Every model gets a colour.  [colors_list] repeats the palette
    [len(model_names) // len(palette) + 1] times, which is always more
    than [len(model_names)] colours: for any number of models and any
    palette, no [colors_list[idx]] of the loop is out of range, and model
    [idx] gets the colour [idx % len(palette)] of the palette. *)
Theorem every_model_gets_a_colour :
  forall (A : Type) (first : A) (others : list A) (n_models : nat),
    ForestComparison.trace_colours first others n_models
    = Ok (map (fun idx => nth (idx mod (1 + List.length others)) (first :: others) first)
              (seq 0 n_models)).
Proof.
  intros A first others n. unfold ForestComparison.trace_colours.
  set (palette := first :: others).
  assert (HP : List.length palette = 1 + List.length others) by reflexivity.
  apply mapM_pointwise. intros idx Hidx. apply in_seq in Hidx.
  apply getitem_nth. rewrite nth_error_times.
  - rewrite HP. apply nth_error_nth'. rewrite HP.
    apply Nat.mod_upper_bound. lia.
  - pose proof (Nat.div_mod_eq n (List.length palette)) as E.
    pose proof (Nat.mod_upper_bound n (List.length palette)) as B.
    rewrite HP in *. specialize (B ltac:(lia)). nia.
Qed.

(** ** Mahalanobis distances: the covariance matrices *)

Lemma hd_tabulated_length {A : Type} (f : nat -> list A) (n k : nat) :
  0 < n -> (forall i, List.length (f i) = k) ->
  List.length (hd [] (map f (seq 0 n))) = k.
Proof. intros Hn H. destruct n; [lia |]. cbn [seq map hd]. apply H. Qed.

Lemma combine_rows_tabulated (z : list Q) (n m s j : nat) (d : nat -> Q) :
  j < n ->
  map (fun p : Q * list Q => (fst p * nth j (snd p) 0)%Q)
      (combine z (map (fun i => map (fun j => if i =? j then d i else 0%Q) (seq 0 n))
                      (seq s m)))
  = map (fun q : Q * nat => (fst q * (if snd q =? j then d (snd q) else 0))%Q)
        (combine z (seq s m)).
Proof.
  intro Hj. revert z s; induction m as [| m IH]; intros z s;
    destruct z as [| x z]; try reflexivity.
  cbn [seq map combine fst snd]. f_equal; [| apply IH].
  f_equal.
  rewrite (nth_indep _ 0%Q (if s =? 0 then d s else 0%Q))
    by (rewrite length_map, length_seq; exact Hj).
  rewrite (map_nth (fun j => if s =? j then d s else 0%Q) (seq 0 n) 0 j).
  rewrite seq_nth by exact Hj. reflexivity.
Qed.

Section GeneratorFacts.

Import Mahalanobis.

Lemma update_tabulated {A : Type} (f : nat -> A) (s n k : nat) (x : A) :
  k < n ->
  update (map f (seq s n)) k x = map (fun i => if i =? s + k then x else f i) (seq s n).
Proof.
  revert s k; induction n as [| n IH]; intros s k Hk; [lia |].
  cbn [seq map]. destruct k as [| k]; cbn [update].
  - rewrite Nat.add_0_r, Nat.eqb_refl. f_equal.
    apply map_ext_in. intros i Hi. apply in_seq in Hi.
    replace (i =? s) with false by (symmetry; apply Nat.eqb_neq; lia). reflexivity.
  - replace (s =? s + S k) with false by (symmetry; apply Nat.eqb_neq; lia).
    f_equal. rewrite (IH (S s) k) by lia.
    apply map_ext. intro i. replace (S s + k) with (s + S k) by lia. reflexivity.
Qed.

Variable n : nat.

Lemma diagonal_ext (d d' : nat -> Q) :
  (forall i, i < n -> d i = d' i) ->
  map (fun i => map (fun j => if i =? j then d i else 0%Q) (seq 0 n)) (seq 0 n)
  = map (fun i => map (fun j => if i =? j then d' i else 0%Q) (seq 0 n)) (seq 0 n).
Proof.
  intro H. apply map_ext_in. intros i Hi. apply in_seq in Hi.
  apply map_ext. intro j. rewrite (H i) by lia. reflexivity.
Qed.

(** Setting a diagonal entry of a diagonal matrix. *)
Lemma set_entry_diagonal (d : nat -> Q) (k : nat) (v : Q) :
  k < n ->
  set_entry (map (fun i => map (fun j => if i =? j then d i else 0%Q) (seq 0 n)) (seq 0 n))
            k k v
  = Ok (map (fun i => map (fun j => if i =? j then (if i =? k then v else d i) else 0%Q)
                          (seq 0 n))
            (seq 0 n)).
Proof.
  intro Hk. unfold set_entry.
  rewrite (getitem_nth _ _ _
             (map_nth_error (fun i => map (fun j => if i =? j then d i else 0%Q) (seq 0 n))
                            k (seq 0 n) (nth_error_seq_lt n k Hk))).
  cbn [bind]. rewrite length_map, length_seq.
  replace (k <? n) with true by (symmetry; apply Nat.ltb_lt; exact Hk).
  f_equal. rewrite (update_tabulated _ 0 n k _ Hk), (update_tabulated _ 0 n k _ Hk).
  apply map_ext. intro i. cbn [Nat.add].
  destruct (i =? k) eqn:E.
  - apply Nat.eqb_eq in E. subst i. apply map_ext. intro j.
    rewrite (Nat.eqb_sym j k). destruct (k =? j); reflexivity.
  - reflexivity.
Qed.

Lemma set_diagonal_diagonal (idx : list nat) (v : Q) (d : nat -> Q) :
  Forall (fun k => k < n) idx ->
  set_diagonal (map (fun i => map (fun j => if i =? j then d i else 0%Q) (seq 0 n))
                    (seq 0 n)) idx v
  = Ok (map (fun i => map (fun j => if i =? j
                                    then (if existsb (Nat.eqb i) idx then v else d i)
                                    else 0%Q) (seq 0 n))
            (seq 0 n)).
Proof.
  intro H. revert d. induction H as [| k idx Hk _ IH]; intro d; cbn [set_diagonal].
  - reflexivity.
  - rewrite (set_entry_diagonal d k v Hk). cbn [bind]. rewrite IH. f_equal.
    apply diagonal_ext. intros i _. cbn [existsb].
    destruct (existsb (Nat.eqb i) idx); [rewrite orb_true_r; reflexivity |].
    rewrite orb_false_r. reflexivity.
Qed.

Lemma sum_before (z : list Q) (s j : nat) (d : nat -> Q) :
  j < s ->
  (Np.sum (map (fun q => fst q * (if snd q =? j then d (snd q) else 0))
               (combine z (seq s (List.length z)))) == 0)%Q.
Proof.
  revert s; induction z as [| x z IH]; intros s Hs; [reflexivity |].
  cbn [List.length seq combine map Np.sum fold_right fst snd].
  replace (s =? j) with false by (symmetry; apply Nat.eqb_neq; lia).
  fold (Np.sum (map (fun q => (fst q * (if snd q =? j then d (snd q) else 0))%Q)
                    (combine z (seq (S s) (List.length z))))).
  rewrite (IH (S s)) by lia. ring.
Qed.

Lemma sum_at (z : list Q) (s j : nat) (d : nat -> Q) :
  s <= j -> j < s + List.length z ->
  (Np.sum (map (fun q => fst q * (if snd q =? j then d (snd q) else 0))
               (combine z (seq s (List.length z)))) == nth (j - s) z 0 * d j)%Q.
Proof.
  revert s; induction z as [| x z IH]; intros s Hs Hj; [simpl in Hj; lia |].
  cbn [List.length seq combine map Np.sum fold_right fst snd].
  fold (Np.sum (map (fun q => (fst q * (if snd q =? j then d (snd q) else 0))%Q)
                    (combine z (seq (S s) (List.length z))))).
  destruct (Nat.eq_dec s j) as [-> | Hne].
  - rewrite Nat.eqb_refl, Nat.sub_diag. cbn [nth].
    rewrite (sum_before z (S j) j d) by lia. ring.
  - replace (s =? j) with false by (symmetry; apply Nat.eqb_neq; exact Hne).
    rewrite (IH (S s)) by (simpl in Hj; lia).
    replace (j - s) with (S (j - S s)) by lia. cbn [nth]. ring.
Qed.

(** A row times a diagonal matrix. *)
Lemma dot_row_diagonal (z : list Q) (d : nat -> Q) :
  List.length z = n -> 0 < n ->
  exists r,
    dot_row z (map (fun i => map (fun j => if i =? j then d i else 0%Q) (seq 0 n))
                   (seq 0 n)) = Ok r /\
    List.length r = n /\
    forall j, j < n -> (nth j r 0 == nth j z 0 * d j)%Q.
Proof.
  intros Hz Hn. unfold dot_row. rewrite length_map, length_seq, Hz, Nat.eqb_refl.
  rewrite (hd_tabulated_length
             (fun i => map (fun j => if i =? j then d i else 0%Q) (seq 0 n)) n n Hn)
    by (intro i; rewrite length_map, length_seq; reflexivity).
  eexists. split; [reflexivity | split; [rewrite length_map, length_seq; reflexivity |]].
  intros j Hj.
  rewrite (nth_indep _ 0%Q
             (Np.sum (map (fun p => (fst p * nth 0 (snd p) 0)%Q)
                          (combine z (map (fun i => map (fun j => if i =? j then d i else 0%Q)
                                                        (seq 0 n)) (seq 0 n))))))
    by (rewrite length_map, length_seq; exact Hj).
  rewrite (map_nth (fun j => Np.sum (map (fun p => (fst p * nth j (snd p) 0)%Q)
                      (combine z (map (fun i => map (fun j => if i =? j then d i else 0%Q)
                                                    (seq 0 n)) (seq 0 n)))))
                   (seq 0 n) 0 j).
  rewrite seq_nth by exact Hj. cbn [Nat.add].
  rewrite (combine_rows_tabulated z n n 0 j d Hj).
  pose proof (sum_at z 0 j d (Nat.le_0_l j)) as Hsum.
  rewrite Hz, Nat.sub_0_r in Hsum. apply Hsum. exact Hj.
Qed.

End GeneratorFacts.

(** X25.  How the points of the Mahalanobis script are spread.  For at
    least one feature, [gen_cov] and [outliers_cov] are built without
    error, and multiplying a drawn row by them gives: for the inliers the
    row with its first coordinate doubled, for the outliers the row with
    every coordinate but the first multiplied by 7. *)
Theorem generated_points_are_stretched_rows :
  forall (n_features : nat) (z : list Q),
    0 < n_features ->
    List.length z = n_features ->
    exists gen_cov outliers_cov inlier outlier,
      Mahalanobis.gen_cov n_features = Ok gen_cov /\
      Mahalanobis.outliers_cov n_features = Ok outliers_cov /\
      Mahalanobis.dot_row z gen_cov = Ok inlier /\
      Mahalanobis.dot_row z outliers_cov = Ok outlier /\
      List.length inlier = n_features /\
      List.length outlier = n_features /\
      forall j, j < n_features ->
        (nth j inlier 0 == nth j z 0 * (if j =? 0 then 2 else 1))%Q /\
        (nth j outlier 0 == nth j z 0 * (if j =? 0 then 1 else 7))%Q.
Proof.
  intros n z Hn Hz.
  set (one := fun _ : nat => 1%Q).
  assert (Heye : Mahalanobis.eye n
                 = map (fun i => map (fun j => if i =? j then one i else 0%Q) (seq 0 n))
                       (seq 0 n)) by reflexivity.
  set (dg := fun i : nat => if i =? 0 then 2%Q else one i).
  set (dout := fun i : nat => if existsb (Nat.eqb i) (Mahalanobis.arange1 n)
                              then 7%Q else one i).
  destruct (dot_row_diagonal n z dg Hz Hn) as (inlier & Hin & Hlin & Hinj).
  destruct (dot_row_diagonal n z dout Hz Hn) as (outlier & Hout & Hlout & Houtj).
  exists (map (fun i => map (fun j => if i =? j then dg i else 0%Q) (seq 0 n)) (seq 0 n)),
         (map (fun i => map (fun j => if i =? j then dout i else 0%Q) (seq 0 n)) (seq 0 n)),
         inlier, outlier.
  split; [| split; [| split; [exact Hin | split; [exact Hout |
          split; [exact Hlin | split; [exact Hlout |]]]]]].
  - unfold Mahalanobis.gen_cov. rewrite Heye.
    apply (set_entry_diagonal n one 0 2%Q Hn).
  - unfold Mahalanobis.outliers_cov. rewrite Heye.
    apply (set_diagonal_diagonal n (Mahalanobis.arange1 n) 7%Q one).
    unfold Mahalanobis.arange1. apply Forall_forall. intros k Hk.
    apply in_seq in Hk. lia.
  - intros j Hj. split.
    + rewrite (Hinj j Hj). unfold dg, one. reflexivity.
    + rewrite (Houtj j Hj). unfold dout, one.
      destruct j as [| j].
      * replace (existsb (Nat.eqb 0) (Mahalanobis.arange1 n)) with false; [reflexivity |].
        symmetry. apply not_true_is_false. intro E.
        apply existsb_exists in E as (k & Hk & Ek).
        unfold Mahalanobis.arange1 in Hk. apply in_seq in Hk.
        apply Nat.eqb_eq in Ek. lia.
      * replace (existsb (Nat.eqb (S j)) (Mahalanobis.arange1 n)) with true; [reflexivity |].
        symmetry. apply existsb_exists. exists (S j). split; [| apply Nat.eqb_refl].
        unfold Mahalanobis.arange1. apply in_seq. lia.
Qed.

Lemma generated_points_are_stretched_rows_witness :
  exists inlier outlier,
    Mahalanobis.dot_row (nth 0 Denoising.block_noise []) [[2; 0]; [0; 1]]%Q = Ok inlier /\
    Mahalanobis.dot_row (nth 0 Denoising.block_noise []) [[1; 0]; [0; 7]]%Q = Ok outlier /\
    List.length inlier = 2.
Proof.
  destruct (generated_points_are_stretched_rows 2 (nth 0 Denoising.block_noise []))
    as (g & o & inlier & outlier & Hg & Ho & Hin & Hout & Hlen & _).
  - lia.
  - reflexivity.
  - exists inlier, outlier.
    injection Hg as <-. injection Ho as <-.
    split; [exact Hin | split; [exact Hout | exact Hlen]].
Defined.

Lemma models_are_fitted_as_the_loop_needs_them_witness :
  exists earlier, [SvmIris.Fit 0] = earlier ++ [SvmIris.Fit 0].
Proof.
  apply (proj2 (proj2 (models_are_fitted_as_the_loop_needs_them
                         [0; 1] ["linear"%string] [7]))
           [SvmIris.Fit 0] [SvmIris.Fit 1] 0 "linear"%string 7).
  reflexivity.
Defined.

(** ** Image denoising: the difference shown for the distorted image *)

Section DifferenceFacts.

Lemma zip_with_app (f : Q -> Q -> Q) (a1 a2 b1 b2 : list Q) :
  List.length a1 = List.length b1 ->
  Np.zip_with f (a1 ++ a2) (b1 ++ b2) = Np.zip_with f a1 b1 ++ Np.zip_with f a2 b2.
Proof.
  revert b1; induction a1 as [| x a1 IH]; intros [| y b1] H; simpl in *;
    try discriminate; [reflexivity |].
  injection H as H. rewrite (IH b1 H). reflexivity.
Qed.

Lemma difference_with_itself (l : list Q) :
  Forall (fun v => (v == 0)%Q) (Np.zip_with Qminus l l).
Proof.
  induction l as [| x l IH]; simpl; constructor; [ring | exact IH].
Qed.

Lemma difference_of_halves (l r nrow : list Q) (half : nat) :
  List.length l = half -> List.length r = half -> List.length nrow = half ->
  Forall (fun v => (v == 0)%Q)
         (firstn half (Np.zip_with Qminus (l ++ Np.zip_with Qplus r nrow) (l ++ r))) /\
  skipn half (Np.zip_with Qminus (l ++ Np.zip_with Qplus r nrow) (l ++ r))
  = Np.zip_with Qminus (Np.zip_with Qplus r nrow) r.
Proof.
  intros Hl Hr Hn.
  rewrite zip_with_app by reflexivity.
  assert (Hll : List.length (Np.zip_with Qminus l l) = half)
    by (rewrite length_zip_with; auto).
  split.
  - rewrite firstn_app, Hll, Nat.sub_diag, firstn_0, app_nil_r.
    rewrite firstn_all2 by lia. apply difference_with_itself.
  - rewrite skipn_app, Hll, Nat.sub_diag. rewrite skipn_all2 by lia.
    reflexivity.
Qed.

Lemma difference_of_a_row (row nrow : list Q) (half : nat) :
  List.length row = 2 * half -> List.length nrow = half ->
  Forall (fun v => (v == 0)%Q)
         (firstn half (Np.zip_with Qminus
                         (firstn half row ++ Np.zip_with Qplus (skipn half row) nrow) row)) /\
  skipn half (Np.zip_with Qminus
                (firstn half row ++ Np.zip_with Qplus (skipn half row) nrow) row)
  = Np.zip_with Qminus (Np.zip_with Qplus (skipn half row) nrow) (skipn half row).
Proof.
  intros Hrow Hn.
  assert (Hl : List.length (firstn half row) = half) by (rewrite length_firstn; lia).
  assert (Hr : List.length (skipn half row) = half) by (rewrite length_skipn; lia).
  pose proof (firstn_skipn half row) as E.
  remember (firstn half row) as l eqn:El. remember (skipn half row) as r eqn:Er.
  clear El Er. subst row.
  apply difference_of_halves; assumption.
Qed.

End DifferenceFacts.

(** X26.  What [show_with_diff(distorted, raccoon_face, ...)] shows.  For
    an image of even width and noise of [height] rows of [width // 2]
    values, the slice assignment and the subtraction succeed, and in every
    row of the difference drawn in the second panel the left half is zero
    (a pixel minus itself) and the right half is, item by item, the pixel
    plus its noise, minus the pixel. *)
Theorem distorted_image_differs_on_the_right_half :
  forall (raccoon_face noise : Denoising.image) (half : nat),
    Forall (fun r => List.length r = 2 * half) raccoon_face ->
    List.length noise = List.length raccoon_face ->
    Forall (fun r => List.length r = half) noise ->
    exists distorted difference,
      Denoising.distort raccoon_face noise (2 * half) = Ok distorted /\
      Denoising.show_with_diff distorted raccoon_face = Ok difference /\
      Forall2 (fun drow p =>
                 Forall (fun v => (v == 0)%Q) (firstn half drow) /\
                 skipn half drow
                 = Np.zip_with Qminus
                     (Np.zip_with Qplus (skipn half (fst p)) (snd p))
                     (skipn half (fst p)))
              difference (combine raccoon_face noise).
Proof.
  intros a noise half Ha Hlen Hnoise.
  assert (Hdiv : 2 * half / 2 = half)
    by (rewrite Nat.mul_comm; apply Nat.div_mul; discriminate).
  set (g := fun p : list Q * list Q =>
              firstn half (fst p) ++ Np.zip_with Qplus (skipn half (fst p)) (snd p)).
  assert (Hpair : forall p, In p (combine a noise) ->
            List.length (fst p) = 2 * half /\ List.length (snd p) = half).
  { intros [row nrow] Hp. split; cbn [fst snd].
    - rewrite Forall_forall in Ha. apply Ha. eapply in_combine_l; exact Hp.
    - rewrite Forall_forall in Hnoise. apply Hnoise. eapply in_combine_r; exact Hp. }
  exists (map g (combine a noise)),
         (map (fun q => Np.zip_with Qminus (fst q) (snd q))
              (combine (map g (combine a noise)) a)).
  split; [| split].
  - unfold Denoising.distort. rewrite Hdiv, Hlen, Nat.eqb_refl.
    apply mapM_pointwise. intros p Hp. destruct (Hpair p Hp) as [Hr Hn].
    unfold Denoising.iadd1. rewrite length_skipn, Hr, Hn.
    replace (half =? 2 * half - half) with true by (symmetry; apply Nat.eqb_eq; lia).
    reflexivity.
  - unfold Denoising.show_with_diff. cbn [Plt.subplot Nat.leb Nat.mul andb bind].
    unfold Denoising.sub2.
    rewrite length_map, length_combine, Hlen, Nat.min_id, Nat.eqb_refl.
    apply mapM_pointwise. intros [drow row] Hq. cbn [fst snd]. unfold Np.sub.
    apply elementwise_same_shape.
    pose proof (in_combine_l _ _ _ _ Hq) as Hd. pose proof (in_combine_r _ _ _ _ Hq) as Hrow.
    apply in_map_iff in Hd as (p & <- & Hp). destruct (Hpair p Hp) as [Hr Hn].
    rewrite Forall_forall in Ha. rewrite (Ha row Hrow). unfold g.
    rewrite length_app, length_firstn, length_zip_with, length_skipn, Hr;
      [lia | rewrite length_skipn, Hr, Hn; lia].
  - clear Hpair. revert noise Hlen Hnoise.
    induction Ha as [| row a Hrow Ha IH]; intros [| nrow noise] Hlen Hnoise;
      simpl in Hlen; try discriminate; [constructor |].
    inversion Hnoise as [| ? ? Hn Hnoise']; subst.
    cbn [combine map fst snd]. constructor.
    + unfold g. cbn [fst snd]. apply difference_of_a_row; [exact Hrow | reflexivity].
    + apply IH; [congruence | exact Hnoise'].
Qed.

Lemma distorted_image_differs_on_the_right_half_witness :
  exists distorted difference,
    Denoising.distort Denoising.block Denoising.block_noise 4 = Ok distorted /\
    Denoising.show_with_diff distorted Denoising.block = Ok difference /\
    List.length difference = 4.
Proof.
  destruct (distorted_image_differs_on_the_right_half Denoising.block Denoising.block_noise 2)
    as (distorted & difference & Hrun & Hshow & Hall).
  - repeat constructor.
  - reflexivity.
  - repeat constructor.
  - exists distorted, difference. split; [exact Hrun | split; [exact Hshow |]].
    apply Forall2_length in Hall. rewrite Hall. reflexivity.
Defined.
